(** * KimiK2Manim: prerequisite trees, their serialisation, the sandbox
      configuration, the visual stage and the pipeline script

    A shallow embedding of the parts of the repository that carry logic:

    - [e2b_sandbox/interactive_explorer.py]: [_serialize_tree] and
      [batch_explore];
    - [test_pipeline_simple.py]: [_dict_to_node], into the typed record of
      the data model and as it is written, on every document;
    - [e2b_sandbox/sandbox_config.py]: [SandboxConfig.from_env],
      [SandboxConfig.to_dict], [setup_sandbox_environment] and
      [validate_sandbox_config];
    - [MinimalSurfaces/run_pipeline.py]: [three_d_design_node];
    - [run_pipeline.py]: [run_pipeline] and the [__main__] block;
    - [BrownianMotion/count_nodes.py] and
      [e2b_sandbox/visual_reasoning_tests.py]: the counters and collectors
      over saved trees.

    The package [agents] (the explorer, the enrichment chain and the
    [KnowledgeNode] class) is imported by these files but is not among them;
    what is needed of it is modelled from the specification and marked as
    such, or taken as a parameter. *)

Set Warnings "-register-all".
From Stdlib Require Import ZArith QArith List String Ascii Bool Lia DecimalString.
From stdpp Require Import gmap strings list.
Import ListNotations.
Local Open Scope string_scope.
Local Open Scope Z_scope.

(* ===================================================================== *)
(** * Python values, exceptions and dictionaries                          *)
(* ===================================================================== *)

Module Py.

(** The values that [json.load] produces and [json.dump] accepts. A
    dictionary keeps its insertion order, as Python's [dict] does. *)
Inductive value : Type :=
| VNone
| VBool (b : bool)
| VInt (z : Z)
| VStr (s : string)
| VList (xs : list value)
| VDict (kvs : list (string * value)).

(** Python's truth value of an object: [None], [False], [0], the empty
    string, the empty list and the empty dict are false. *)
Definition truthy (v : value) : bool :=
  match v with
  | VNone => false
  | VBool b => b
  | VInt z => negb (z =? 0)
  | VStr s => negb (String.eqb s "")
  | VList xs => match xs with [] => false | _ :: _ => true end
  | VDict kvs => match kvs with [] => false | _ :: _ => true end
  end.

Definition is_none (v : value) : bool :=
  match v with VNone => true | _ => false end.

(** The exceptions that the modelled code raises. [KeyboardInterrupt]
    derives from [BaseException] only, the others from [Exception].
    [SystemExit], [GeneratorExit] and [asyncio.CancelledError], which
    derive from [BaseException] only as well, are not modelled here. *)
Inductive exn : Type :=
| KeyError (key : string)
| TypeError (what : string)
| AttributeError (what : string)
| ValueError (msg : string)
| OSError (msg : string)
| RuntimeError (msg : string)
| KeyboardInterrupt.

Inductive result (A : Type) : Type :=
| Ok (a : A)
| Raise (e : exn).
Arguments Ok {A} a.
Arguments Raise {A} e.

Definition bind {A B : Type} (m : result A) (k : A -> result B) : result B :=
  match m with
  | Ok a => k a
  | Raise e => Raise e
  end.

(** Evaluate a list of computations from left to right; the first
    exception wins (a list comprehension). *)
Fixpoint sequence {A : Type} (ms : list (result A)) : result (list A) :=
  match ms with
  | [] => Ok []
  | m :: rest =>
      bind m (fun a => bind (sequence rest) (fun others => Ok (a :: others)))
  end.

Section Dict.
Context {V : Type}.

(** [d.get(key)] as an option. *)
Fixpoint dict_get (key : string) (d : list (string * V)) : option V :=
  match d with
  | [] => None
  | (k, v) :: rest => if String.eqb k key then Some v else dict_get key rest
  end.

(** [key in d]. *)
Definition dict_has (key : string) (d : list (string * V)) : bool :=
  match dict_get key d with Some _ => true | None => false end.

(** [d[key] = v]: an existing key keeps its place, a new one goes last. *)
Fixpoint dict_set (key : string) (v : V) (d : list (string * V))
  : list (string * V) :=
  match d with
  | [] => [(key, v)]
  | (k, w) :: rest =>
      if String.eqb k key then (k, v) :: rest
      else (k, w) :: dict_set key v rest
  end.

(** [d.update(other)]. *)
Definition dict_update (d other : list (string * V)) : list (string * V) :=
  fold_left (fun acc kv => dict_set (fst kv) (snd kv) acc) other d.
End Dict.

(** A lookup in continuation style: [found] is applied to the value stored
    under [key], so that a recursive function can descend into it. *)
Section DictFind.
Context {V R : Type} (key : string) (found : V -> R) (missing : R).

Fixpoint dict_find (d : list (string * V)) : R :=
  match d with
  | [] => missing
  | (k, v) :: rest => if String.eqb k key then found v else dict_find rest
  end.
End DictFind.

(** [d[key]], raising [KeyError]. *)
Definition dict_getitem (key : string) (d : list (string * value))
  : result value :=
  match dict_get key d with
  | Some v => Ok v
  | None => Raise (KeyError key)
  end.

(** [d.get(key)], [None] when the key is absent. *)
Definition dict_get_or_none (key : string) (d : list (string * value))
  : value :=
  match dict_get key d with
  | Some v => v
  | None => VNone
  end.

(** [d[key].append(x)] for a key that holds a list. *)
Definition dict_list_append (key : string) (x : value)
    (d : list (string * value)) : list (string * value) :=
  match dict_get key d with
  | Some (VList xs) => dict_set key (VList (xs ++ [x])%list) d
  | _ => d
  end.

(** [s.replace(' ', '_')]. *)
Fixpoint replace_space (s : string) : string :=
  match s with
  | EmptyString => EmptyString
  | String c rest =>
      String (if Ascii.eqb c " "%char then "_"%char else c) (replace_space rest)
  end.

(** [str(n)] for an integer. *)
Definition str_of_int (n : Z) : string :=
  NilZero.string_of_int (Z.to_int n).

End Py.

Export Py.

Declare Scope py_scope.
Notation "x <- m ;; k" := (Py.bind m (fun x => k))
  (at level 100, m at next level, right associativity) : py_scope.
Local Open Scope py_scope.

(* ===================================================================== *)
(** * Knowledge trees and their serialisation                             *)
(* ===================================================================== *)

Module Tree.

(** Modelled from the spec: the class [KnowledgeNode] of the missing
    [agents/prerequisite_explorer_kimi.py] ("ConceptNode" in the spec). Its
    fields are those that [_serialize_tree] reads and that [_dict_to_node]
    passes to the constructor. The three core fields are typed as the data
    model states them (string, integer, boolean); the four enrichment
    fields hold whatever Python value was stored, [VNone] until an
    enrichment stage has run. *)
Inductive KnowledgeNode : Type := mkNode {
  concept : string;
  depth : Z;
  is_foundation : bool;
  prerequisites : list KnowledgeNode;
  equations : value;
  definitions : value;
  visual_spec : value;
  narrative : value
}.

(** All nodes of a tree, in pre-order. *)
Fixpoint nodes (t : KnowledgeNode) : list KnowledgeNode :=
  t :: flat_map nodes (prerequisites t).

(** [InteractiveExplorer._serialize_tree(node, depth=0)]: the four core
    keys, then each enrichment field whose value is truthy, then the
    serialised prerequisites appended one by one. *)
Fixpoint _serialize_tree (node : KnowledgeNode) (depth_arg : Z)
  : list (string * value) :=
  match node with
  | mkNode c d f ps eqs defs vis nar =>
      let serialized :=
        [ ("concept", VStr c);
          ("depth", VInt d);
          ("is_foundation", VBool f);
          ("prerequisites", VList []) ] in
      let serialized :=
        if truthy eqs then dict_set "equations" eqs serialized
        else serialized in
      let serialized :=
        if truthy defs then dict_set "definitions" defs serialized
        else serialized in
      let serialized :=
        if truthy vis then dict_set "visual_spec" vis serialized
        else serialized in
      let serialized :=
        if truthy nar then dict_set "narrative" nar serialized
        else serialized in
      fold_left
        (fun acc prereq =>
           dict_list_append "prerequisites"
             (VDict (_serialize_tree prereq (depth_arg + 1))) acc)
        ps serialized
  end.

(** The dictionary before the prerequisites are appended. *)
Definition header (n : KnowledgeNode) : list (string * value) :=
  let opt key v d := if truthy v then dict_set key v d else d in
  opt "narrative" (narrative n)
    (opt "visual_spec" (visual_spec n)
       (opt "definitions" (definitions n)
          (opt "equations" (equations n)
             [ ("concept", VStr (concept n));
               ("depth", VInt (depth n));
               ("is_foundation", VBool (is_foundation n));
               ("prerequisites", VList []) ]))).

(** What iterating over [d.get("prerequisites", [])] yields: the elements
    of a list; nothing for an empty string or an empty dict; the characters
    or the keys otherwise, which are strings and cannot be subscripted by
    ["concept"]; numbers, booleans and [None] are not iterable. *)
Definition iterate_prerequisites {A : Type} (rec : value -> result A)
    (v : value) : result (list A) :=
  match v with
  | VList xs => sequence (map rec xs)
  | VStr EmptyString => Ok []
  | VDict [] => Ok []
  | VStr _ => Raise (TypeError "string indices must be integers")
  | VDict _ => Raise (TypeError "string indices must be integers")
  | _ => Raise (TypeError "object is not iterable")
  end.

Definition as_str (field : string) (v : value) : result string :=
  match v with VStr s => Ok s | _ => Raise (TypeError field) end.
Definition as_int (field : string) (v : value) : result Z :=
  match v with VInt z => Ok z | _ => Raise (TypeError field) end.
Definition as_bool (field : string) (v : value) : result bool :=
  match v with VBool b => Ok b | _ => Raise (TypeError field) end.

(** [_dict_to_node(d)] of [load_tree_from_json], into the typed record of
    the data model. The constructor arguments are evaluated in the order
    they are written. A core entry of another type than the data model
    states cannot be held by the record and is reported as a [TypeError]
    here; the source builds an object with it. [Untyped._dict_to_node]
    below is the function on every document, and the two agree wherever
    this one returns ([LoadingFacts._dict_to_node_agrees]). *)
Fixpoint _dict_to_node (d : value) : result KnowledgeNode :=
  match d with
  | VDict kvs =>
      c <- (v <- dict_getitem "concept" kvs ;; as_str "concept" v) ;;
      dp <- (v <- dict_getitem "depth" kvs ;; as_int "depth" v) ;;
      f <- (v <- dict_getitem "is_foundation" kvs ;; as_bool "is_foundation" v) ;;
      ps <- dict_find "prerequisites"
              (iterate_prerequisites _dict_to_node) (Ok []) kvs ;;
      Ok (mkNode c dp f ps
            (dict_get_or_none "equations" kvs)
            (dict_get_or_none "definitions" kvs)
            (dict_get_or_none "visual_spec" kvs)
            (dict_get_or_none "narrative" kvs))
  | _ => Raise (TypeError "indices must be integers")
  end.

(** Modelled from the spec: [KnowledgeNode.to_dict] of the missing
    [agents/prerequisite_explorer_kimi.py], "recursively emit concept,
    depth, is_foundation, prerequisites (recursively serialized), and any
    of equations/definitions/visual_spec/narrative that are non-None". *)
Fixpoint to_dict (node : KnowledgeNode) : list (string * value) :=
  match node with
  | mkNode c d f ps eqs defs vis nar =>
      let emit key v := if is_none v then [] else [(key, v)] in
      ([ ("concept", VStr c);
         ("depth", VInt d);
         ("is_foundation", VBool f);
         ("prerequisites", VList (map (fun p => VDict (to_dict p)) ps)) ]
       ++ emit "equations" eqs ++ emit "definitions" defs
       ++ emit "visual_spec" vis ++ emit "narrative" nar)%list
  end.

(** An enrichment field as it comes back from a file written by
    [_serialize_tree]: a falsy value was not written and reads as [None]. *)
Definition reloaded (v : value) : value := if truthy v then v else VNone.

Fixpoint reload (t : KnowledgeNode) : KnowledgeNode :=
  match t with
  | mkNode c d f ps eqs defs vis nar =>
      mkNode c d f (map reload ps)
        (reloaded eqs) (reloaded defs) (reloaded vis) (reloaded nar)
  end.

(** Every enrichment field of the node is [None] or truthy. *)
Definition no_empty_payload (n : KnowledgeNode) : bool :=
  (is_none (equations n) || truthy (equations n))
  && (is_none (definitions n) || truthy (definitions n))
  && (is_none (visual_spec n) || truthy (visual_spec n))
  && (is_none (narrative n) || truthy (narrative n)).

(** The invariant of the data model: a foundational node is a leaf. *)
Definition foundation_is_leaf (n : KnowledgeNode) : Prop :=
  is_foundation n = true -> prerequisites n = [].

End Tree.

Export Tree.

(* ===================================================================== *)
(** * The sandbox configuration                                           *)
(* ===================================================================== *)

Module Sandbox.

Inductive SandboxMode : Type :=
| EXPLORATION
| RENDERING
| INTERACTIVE
| BATCH.

(** [mode.value] *)
Definition SandboxMode_value (m : SandboxMode) : string :=
  match m with
  | EXPLORATION => "exploration"
  | RENDERING => "rendering"
  | INTERACTIVE => "interactive"
  | BATCH => "batch"
  end.

(** The dataclass [SandboxConfig]. [temperature] is a float in the
    source; no function modelled here reads it. *)
Record SandboxConfig : Type := {
  moonshot_api_key : string;
  moonshot_base_url : string;
  model : string;
  thinking_mode : string;
  use_tools : bool;
  mode : SandboxMode;
  max_depth : Z;
  max_tokens : Z;
  temperature : Q;
  output_dir : string;
  media_dir : string;
  log_dir : string;
  manim_quality : string;
  manim_format : string;
  max_render_time : Z;
  max_tree_depth : Z;
  max_narrative_words : Z
}.

(** The dataclass with its defaults, for a given key. *)
Definition default_config (api_key : string) : SandboxConfig :=
  {| moonshot_api_key := api_key;
     moonshot_base_url := "https://api.moonshot.ai/v1";
     model := "kimi-k2-0905-preview";
     thinking_mode := "heavy";
     use_tools := true;
     mode := EXPLORATION;
     max_depth := 3;
     max_tokens := 8000;
     temperature := (7 # 10)%Q;
     output_dir := "/home/user/kimik2/output";
     media_dir := "/home/user/kimik2/media";
     log_dir := "/home/user/kimik2/logs";
     manim_quality := "l";
     manim_format := "mp4";
     max_render_time := 300;
     max_tree_depth := 5;
     max_narrative_words := 3000 |}.

Definition with_api_key (api_key : string) (c : SandboxConfig)
  : SandboxConfig :=
  {| moonshot_api_key := api_key;
     moonshot_base_url := moonshot_base_url c;
     model := model c;
     thinking_mode := thinking_mode c;
     use_tools := use_tools c;
     mode := mode c;
     max_depth := max_depth c;
     max_tokens := max_tokens c;
     temperature := temperature c;
     output_dir := output_dir c;
     media_dir := media_dir c;
     log_dir := log_dir c;
     manim_quality := manim_quality c;
     manim_format := manim_format c;
     max_render_time := max_render_time c;
     max_tree_depth := max_tree_depth c;
     max_narrative_words := max_narrative_words c |}.

(** [SandboxConfig.to_dict] *)
Definition to_dict (self : SandboxConfig) : list (string * value) :=
  [ ("moonshot_api_key",
      if truthy (VStr (moonshot_api_key self)) then VStr "***" else VNone);
    ("moonshot_base_url", VStr (moonshot_base_url self));
    ("model", VStr (model self));
    ("thinking_mode", VStr (thinking_mode self));
    ("use_tools", VBool (use_tools self));
    ("mode", VStr (SandboxMode_value (mode self)));
    ("max_depth", VInt (max_depth self));
    ("max_tokens", VInt (max_tokens self));
    ("manim_quality", VStr (manim_quality self)) ].

(** [x in [s1, ..., sn]] for strings. *)
Definition str_in (x : string) (l : list string) : bool :=
  existsb (String.eqb x) l.

Definition thinking_modes : list string :=
  ["heavy"; "medium"; "light"; "true"; "false"].
Definition manim_qualities : list string := ["l"; "m"; "h"; "k"].

(** [validate_sandbox_config(config)]: the outcome of the call, and the
    configuration object as the call leaves it (the function only reads
    its argument). *)
Definition validate_sandbox_config (config : SandboxConfig)
  : result bool * SandboxConfig :=
  ( if negb (truthy (VStr (moonshot_api_key config))) then
      Raise (ValueError "MOONSHOT_API_KEY is required")
    else if negb (str_in (thinking_mode config) thinking_modes) then
      Raise (ValueError ("Invalid thinking_mode: " ++ thinking_mode config))
    else if negb (str_in (manim_quality config) manim_qualities) then
      Raise (ValueError ("Invalid manim_quality: " ++ manim_quality config))
    else if (max_depth config <? 1) || (max_depth config >? 10) then
      Raise (ValueError ("max_depth must be between 1 and 10, got "
                         ++ str_of_int (max_depth config)))
    else Ok true,
    config ).

(** The four conditions on a configuration. *)
Definition valid_config (config : SandboxConfig) : Prop :=
  moonshot_api_key config <> ""
  /\ In (thinking_mode config) thinking_modes
  /\ In (manim_quality config) manim_qualities
  /\ 1 <= max_depth config <= 10.

End Sandbox.

(* ===================================================================== *)
(** * The explorer                                                        *)
(* ===================================================================== *)

Module Explorer.

(** Modelled from the spec: the answer of the external reasoning service to
    one request ("ask(prompt, schema)"): a structured payload, content from
    which nothing can be parsed, or a failed call (network, auth, timeout).
    The service itself is missing from the sources. *)
Inductive reply (A : Type) : Type :=
| Answer (a : A)
| Unparseable
| Failed.
Arguments Answer {A} a.
Arguments Unparseable {A}.
Arguments Failed {A}.

Definition failed {A : Type} (r : reply A) : bool :=
  match r with Answer _ => false | _ => true end.

(** Modelled from the spec: the two questions the Explorer asks about a
    concept, "is this a foundational concept needing no further breakdown?"
    and "list the direct prerequisite concepts". *)
Record Service : Type := {
  ask_foundation : string -> reply bool;
  ask_prerequisites : string -> reply (list string)
}.

Inductive request : Type :=
| FoundationCheck (c : string)
| PrerequisiteList (c : string).

#[global] Instance request_eq_dec : EqDecision request.
Proof. solve_decision. Defined.

Definition subject (r : request) : string :=
  match r with FoundationCheck c => c | PrerequisiteList c => c end.

(** Modelled from the spec: the state of one exploration run, "a mapping
    from concept string to its already-built node" and, to count the
    service calls, the requests issued so far in the order they were sent. *)
Record run_state : Type := {
  memo : gmap string KnowledgeNode;
  calls : list request
}.

Definition fresh_run : run_state := {| memo := ∅; calls := [] |}.

Definition record_call (r : request) (st : run_state) : run_state :=
  {| memo := memo st; calls := (calls st ++ [r])%list |}.

(** Modelled from the spec: the memo of the missing Explorer maps a concept
    "to its already-built node"; a node is entered when it has been built. *)
Definition remember (node : KnowledgeNode) (st : run_state)
  : KnowledgeNode * run_state :=
  (node, {| memo := <[concept node := node]> (memo st); calls := calls st |}).

Definition foundation (c : string) (d : Z) : KnowledgeNode :=
  mkNode c d true [] VNone VNone VNone VNone.

(** Modelled from the spec: "recurse into each one", the prerequisites of
    a node of the missing Explorer, one after the other ("one external-service
    request at a time"), in the order the service listed them, each in the
    state the previous one left. *)
Fixpoint explore_each
    (explore_one : string -> run_state -> option (KnowledgeNode * run_state))
    (ps : list string) (st : run_state)
  : option (list KnowledgeNode * run_state) :=
  match ps with
  | [] => Some ([], st)
  | p :: rest =>
      match explore_one p st with
      | None => None
      | Some (n, st1) =>
          match explore_each explore_one rest st1 with
          | None => None
          | Some (ns, st2) => Some (n :: ns, st2)
          end
      end
  end.

(** Modelled from the spec: the Explorer of the missing
    [agents/prerequisite_explorer_kimi.py] (spec 4.1). The memo "is consulted
    before recursing; a hit returns the cached subtree directly without a new
    service call". On a miss, "issue one request ... 'is this a foundational
    concept'. If the service answers yes, or depth == max_depth, mark
    foundational and stop. Otherwise, issue a second request ... 'list the
    direct prerequisite concepts' ... and recurse into each one with
    depth + 1". "If the reasoning service call fails or returns unparseable
    content, the node is defensively treated as foundational." The memo holds
    "already-built" nodes: it "only catches cycles through completed nodes"
    (spec 9). [gas] bounds the nesting of calls; [None] is a run that has not
    returned within it. *)
Fixpoint explore_async (gas : nat) (svc : Service) (max_depth : Z)
    (c : string) (d : Z) (st : run_state)
  : option (KnowledgeNode * run_state) :=
  match gas with
  | O => None
  | S gas' =>
      match memo st !! c with
      | Some node => Some (node, st)
      | None =>
          let st := record_call (FoundationCheck c) st in
          match ask_foundation svc c with
          | Answer false =>
              if d =? max_depth then Some (remember (foundation c d) st)
              else
                let st := record_call (PrerequisiteList c) st in
                match ask_prerequisites svc c with
                | Answer ps =>
                    match
                      explore_each
                        (fun p => explore_async gas' svc max_depth p (d + 1))
                        ps st
                    with
                    | Some (children, st) =>
                        Some (remember
                                (mkNode c d false children
                                   VNone VNone VNone VNone) st)
                    | None => None
                    end
                | _ => Some (remember (foundation c d) st)
                end
          | _ => Some (remember (foundation c d) st)
          end
      end
  end.

(** Modelled from the spec: one exploration run of the missing Explorer;
    the root is at depth 0 ("distance from the exploration root"), the memo
    is "owned by a single Explorer instance per run" and starts empty. *)
Definition explore (svc : Service) (max_depth : Z) (root : string)
  : option (KnowledgeNode * run_state) :=
  explore_async (S (Z.to_nat max_depth)) svc max_depth root 0 fresh_run.

(** How often a request was issued. *)
Definition times_asked (r : request) (log : list request) : nat :=
  count_occ request_eq_dec log r.

(** How often a concept occurs in a tree. *)
Definition occurrences (c : string) (t : KnowledgeNode) : nat :=
  count_occ string_dec (map concept (nodes t)) c.

(** The prerequisite answers of a service contain no cycle: every listed
    prerequisite ranks strictly below the concept it was listed for. *)
Definition acyclic (svc : Service) (rank : string -> nat) : Prop :=
  forall c ps p,
    ask_prerequisites svc c = Answer ps -> In p ps -> (rank p < rank c)%nat.

(** What a run guarantees of each node it builds. *)
Definition well_explored (svc : Service) (max_depth : Z) (n : KnowledgeNode)
  : Prop :=
  0 <= depth n <= max_depth
  /\ (is_foundation n = true -> prerequisites n = [])
  /\ (is_foundation n = false ->
      ask_foundation svc (concept n) = Answer false
      /\ depth n < max_depth
      /\ ask_prerequisites svc (concept n)
         = Answer (map concept (prerequisites n))).

(** The service that answers "foundational" wherever the foundational
    check of [svc] fails or is unparseable, and answers as [svc] does
    everywhere else. *)
Definition heal (svc : Service) : Service :=
  {| ask_foundation := fun c =>
       match ask_foundation svc c with
       | Answer b => Answer b
       | _ => Answer true
       end;
     ask_prerequisites := ask_prerequisites svc |}.

(** Why a run makes a node foundational: the foundational check did not
    answer "no", or the node sits at the depth bound, or the listing of its
    prerequisites failed. *)
Definition leaf_reason (svc : Service) (max_depth : Z) (n : KnowledgeNode)
  : Prop :=
  is_foundation n = true ->
  ask_foundation svc (concept n) <> Answer false
  \/ depth n = max_depth
  \/ failed (ask_prerequisites svc (concept n)) = true.

(** Every node the memo holds is foundational for a reason. *)
Definition memo_reasons (svc : Service) (max_depth : Z) (st : run_state)
  : Prop :=
  forall k n,
    memo st !! k = Some n -> Forall (leaf_reason svc max_depth) (nodes n).

(** A tree built by a run: every node is well explored and its
    foundational check is in the log. *)
Definition tree_ok (svc : Service) (max_depth : Z) (log : list request)
    (t : KnowledgeNode) : Prop :=
  Forall (fun n => well_explored svc max_depth n
                   /\ In (FoundationCheck (concept n)) log)
    (nodes t).

(** The memo maps a concept to a tree built for that concept. *)
Definition memo_ok (svc : Service) (max_depth : Z) (st : run_state) : Prop :=
  forall k n,
    memo st !! k = Some n ->
    concept n = k /\ tree_ok svc max_depth (calls st) n.

(** The memo only grows. *)
Definition memo_grows (st st' : run_state) : Prop :=
  forall k, is_Some (memo st !! k) -> is_Some (memo st' !! k).

(** The requests [new] were issued between [st] and [st']: none twice, and
    each about an [allowed] concept that was not in the memo before and is
    in it after. *)
Definition issued (allowed : string -> Prop) (st st' : run_state)
    (new : list request) : Prop :=
  calls st' = (calls st ++ new)%list
  /\ NoDup new
  /\ forall r, In r new ->
       allowed (subject r)
       /\ memo st !! subject r = None
       /\ is_Some (memo st' !! subject r).

(** The result of exploring concept [c] from state [st], as the induction
    over a run carries it. *)
Definition explored_ok (svc : Service) (max_depth : Z) (c : string)
    (st : run_state) (r : option (KnowledgeNode * run_state)) : Prop :=
  exists t st',
    r = Some (t, st')
    /\ concept t = c
    /\ tree_ok svc max_depth (calls st') t
    /\ memo_ok svc max_depth st'
    /\ incl (calls st) (calls st').

End Explorer.

(* ===================================================================== *)
(** * The visual stage with the 3D prompt                                 *)
(* ===================================================================== *)

Module Visual.

(** [node.visual_spec.update(other)], after [if node.visual_spec is None:
    node.visual_spec = {}]. Only a dict has [update]. *)
Definition update_visual_spec (vis : value) (other : list (string * value))
  : result value :=
  match vis with
  | VNone => Ok (VDict (dict_update [] other))
  | VDict d => Ok (VDict (dict_update d other))
  | _ => Raise (AttributeError "update")
  end.

(** [payload.get(key, default)[:n]]: the entry, when there is one, must be
    a string or a list to be sliced. *)
Definition sliced (key : string) (payload : list (string * value))
  : result unit :=
  match dict_get key payload with
  | None => Ok tt
  | Some (VStr _) => Ok tt
  | Some (VList _) => Ok tt
  | Some _ => Raise (TypeError "object is not subscriptable")
  end.

(** A field that [update_visual_spec] accepts. *)
Definition none_or_dict (v : value) : bool :=
  match v with VNone => true | VDict _ => true | _ => false end.

Definition is_dict (v : value) : bool :=
  match v with VDict _ => true | _ => false end.

(** A tree without what the visual stage writes: every [visual_spec] is
    cleared, the prerequisites stay in place and in order, and the other
    fields stay as they are. *)
Fixpoint strip_visual (t : KnowledgeNode) : KnowledgeNode :=
  match t with
  | mkNode c d f ps eqs defs _ nar =>
      mkNode c d f (map strip_visual ps) eqs defs VNone nar
  end.

(** The [for prereq in node.prerequisites] loop: the prerequisites are
    designed one after the other, each with the cache the previous one
    left. *)
Section DesignEach.
Context {C : Type}.
Variable design_one : C -> KnowledgeNode -> result (KnowledgeNode * C).

Fixpoint design_each (ps : list KnowledgeNode) (cache : C)
  : result (list KnowledgeNode * C) :=
  match ps with
  | [] => Ok ([], cache)
  | p :: rest =>
      r <- design_one cache p ;;
      rs <- design_each rest (snd r) ;;
      Ok (fst r :: fst rs, snd rs)
  end.
End DesignEach.

Section Designer.

(** What [three_d_design_node] imports from the missing
    [agents/enrichment_chain.py] and calls on [self.client] is taken as a
    parameter: the class [VisualSpec] with [from_payload] and [to_dict], the
    response of the service with [_extract_tool_payload] and
    [get_text_content], and [_parse_json_fallback]. [chat_completion] stands
    for the call with the prompt built from the node and the parent's spec;
    it may raise. *)
Context {VisualSpec Response : Type}.
Variable from_payload : string -> list (string * value) -> VisualSpec.
Variable spec_to_dict : VisualSpec -> list (string * value).
Variable chat_completion :
  KnowledgeNode -> option VisualSpec -> result Response.
Variable _extract_tool_payload : Response -> option (list (string * value)).
Variable get_text_content : Response -> string.
Variable _parse_json_fallback : string -> option (list (string * value)).

(** The payload taken from a response:
    [payload = _extract_tool_payload(response)], and when that is [None],
    [_parse_json_fallback(get_text_content(response)) or {}]. *)
Definition payload_of (response : Response) : list (string * value) :=
  match _extract_tool_payload response with
  | Some payload => payload
  | None =>
      match _parse_json_fallback (get_text_content response) with
      | Some parsed => if truthy (VDict parsed) then parsed else []
      | None => []
      end
  end.

(** [three_d_design_node(self, node, parent_spec)], installed as
    [pipeline.visual._design_node]. The node is updated in place in the
    source; here the updated node is returned next to the spec and the
    cache. *)
Fixpoint three_d_design_node (cache : gmap string VisualSpec)
    (node : KnowledgeNode) (parent_spec : option VisualSpec)
  : result (VisualSpec * KnowledgeNode * gmap string VisualSpec) :=
  match node with
  | mkNode c d f ps eqs defs vis nar =>
      let design_prerequisites spec cache :=
        design_each
          (fun cache prereq =>
             r <- three_d_design_node cache prereq (Some spec) ;;
             Ok (snd (fst r), snd r))
          ps cache in
      match cache !! c with
      | Some cached_spec =>
          vis' <- update_visual_spec vis (spec_to_dict cached_spec) ;;
          rs <- design_prerequisites cached_spec cache ;;
          Ok (cached_spec, mkNode c d f (fst rs) eqs defs vis' nar, snd rs)
      | None =>
          response <- chat_completion node parent_spec ;;
          let payload := payload_of response in
          _ <- sliced "visual_description" payload ;;
          _ <- sliced "animation_description" payload ;;
          let visual_spec := from_payload c payload in
          vis' <- update_visual_spec vis (spec_to_dict visual_spec) ;;
          let cache := <[c := visual_spec]> cache in
          rs <- design_prerequisites visual_spec cache ;;
          Ok (visual_spec, mkNode c d f (fst rs) eqs defs vis' nar, snd rs)
      end
  end.

(** What the stage leaves in a node that had [before] in its field when the
    payload was empty. *)
Definition default_visual_spec (c : string) (before : value) : result value :=
  update_visual_spec before (spec_to_dict (from_payload c [])).

(** The service answers every request, with a response whose payload has
    descriptions that can be sliced; the payload may be empty. *)
Definition answers_all : Prop :=
  forall node parent_spec,
    exists response,
      chat_completion node parent_spec = Ok response
      /\ sliced "visual_description" (payload_of response) = Ok tt
      /\ sliced "animation_description" (payload_of response) = Ok tt.

(** Nothing can be taken from the responses of the service about the
    concept [c]: every request about a node with that concept is answered,
    and no payload is found in the answer. *)
Definition empty_for (c : string) : Prop :=
  forall node parent_spec,
    concept node = c ->
    exists response,
      chat_completion node parent_spec = Ok response
      /\ payload_of response = [].

(** The cache holds the spec built from the empty payload for every
    concept about which the service has nothing to say. *)
Definition defaults_where_empty (cache : gmap string VisualSpec) : Prop :=
  forall k spec,
    cache !! k = Some spec -> empty_for k -> spec = from_payload k [].

(** What the stage has done to the field of a node: it holds a mapping,
    and when nothing can be taken from the responses about the concept of
    the node, the mapping is the one of the default spec. *)
Definition designed (n n' : KnowledgeNode) : Prop :=
  is_dict (visual_spec n') = true
  /\ (empty_for (concept n) ->
      default_visual_spec (concept n) (visual_spec n) = Ok (visual_spec n')).

End Designer.

End Visual.

(* ===================================================================== *)
(** * The pipeline script                                                 *)
(* ===================================================================== *)

Module Pipeline.

(** A path as the script builds it, [output_dir / name]: the directory and
    the name that [/] joins. Where pathlib puts the file (under the
    directory for a relative name, at the name itself for an absolute one)
    is not modelled. *)
Inductive path : Type :=
| Join (dir : string) (name : string).

(** What a run of the script does to the world around it, in order. A call
    is recorded when it is made; a directory when it has been made; a file
    when it has been opened for writing, which creates it or empties it, and
    again when its content has been written. The [print] statements are
    left out: standard output is taken to accept what is printed. *)
Inductive event : Type :=
| CallExplorer (topic : string) (max_depth : Z) (use_tools : bool)
| RunMath
| RunVisual
| RunNarrative
| Mkdir (dir : string)
| OpenFile (file : path)
| WriteFile (file : path) (content : string).

Inductive kind : Type :=
| KExplorer | KMath | KVisual | KNarrative | KMkdir | KOpenFile | KWriteFile.

Definition kind_of (e : event) : kind :=
  match e with
  | CallExplorer _ _ _ => KExplorer
  | RunMath => KMath
  | RunVisual => KVisual
  | RunNarrative => KNarrative
  | Mkdir _ => KMkdir
  | OpenFile _ => KOpenFile
  | WriteFile _ _ => KWriteFile
  end.

(** The files created (or emptied) so far: those opened for writing. *)
Fixpoint files_created (trace : list event) : list path :=
  match trace with
  | [] => []
  | OpenFile file :: rest => file :: files_created rest
  | _ :: rest => files_created rest
  end.

(** The files whose content has been written so far. *)
Fixpoint files_written (trace : list event) : list path :=
  match trace with
  | [] => []
  | WriteFile file _ :: rest => file :: files_written rest
  | _ :: rest => files_written rest
  end.

(** [result.narrative]: the text and its two summaries. *)
Record Narrative : Type := {
  verbose_prompt : string;
  total_duration : Z;
  scene_count : Z
}.

(** The result of [pipeline.run_async]. *)
Record EnrichmentResult : Type := {
  enriched_tree : KnowledgeNode;
  result_narrative : Narrative
}.

(** The collaborators of the script: the explorer, the three stages and
    the file system. [open_w] is [open("w")], which creates the file or
    empties it; [json_dump] is the text that [json.dump(obj, f, indent=2)]
    produces for the open file; [write] is the writing of a text into the
    open file, up to its closing. Each of them may raise. *)
Record World : Type := {
  explore_async : string -> result KnowledgeNode;
  math_stage : KnowledgeNode -> result KnowledgeNode;
  visual_stage : KnowledgeNode -> result KnowledgeNode;
  narrative_stage : KnowledgeNode -> result Narrative;
  mkdir : string -> result unit;
  open_w : path -> result unit;
  json_dump : list (string * value) -> result string;
  write : path -> string -> result unit
}.

(** A step of the script: from the trace so far to an outcome and the trace
    after it. The trace survives an exception. *)
Definition io (A : Type) : Type := list event -> result A * list event.

Definition ret {A : Type} (a : A) : io A := fun trace => (Ok a, trace).

Definition io_bind {A B : Type} (m : io A) (k : A -> io B) : io B :=
  fun trace =>
    match m trace with
    | (Ok a, trace') => k a trace'
    | (Raise e, trace') => (Raise e, trace')
    end.

(** A computation that leaves no trace. *)
Definition lift {A : Type} (r : result A) : io A := fun trace => (r, trace).

(** A call to a collaborator: recorded, then answered. *)
Definition call {A : Type} (e : event) (r : result A) : io A :=
  fun trace => (r, (trace ++ [e])%list).

(** An effect on the file system: recorded when it succeeded. *)
Definition effect {A : Type} (e : event) (r : result A) : io A :=
  fun trace =>
    match r with
    | Ok a => (Ok a, (trace ++ [e])%list)
    | Raise x => (Raise x, trace)
    end.

(** Modelled from the spec: the narrative is "populated only on the tree
    root by the Narrative stage". *)
Definition store_narrative (text : string) (t : KnowledgeNode) : KnowledgeNode :=
  match t with
  | mkNode c d f ps eqs defs vis _ => mkNode c d f ps eqs defs vis (VStr text)
  end.

(** Modelled from the spec: [KimiEnrichmentPipeline.run_async] of the
    missing [agents/enrichment_chain.py], the "three enrichment stages in
    order", Math, Visual, Narrative, "each stage reading the previous
    stage's output", the narrative stored on the root. The script announces
    the same order, "math → visuals → narrative", and
    [examples/test_pipeline_debug.py] runs the stages one by one in it. *)
Definition run_async (w : World) (tree : KnowledgeNode) : io EnrichmentResult :=
  io_bind (call RunMath (math_stage w tree)) (fun t1 =>
  io_bind (call RunVisual (visual_stage w t1)) (fun t2 =>
  io_bind (call RunNarrative (narrative_stage w t2)) (fun nar =>
  ret {| enriched_tree := store_narrative (verbose_prompt nar) t2;
         result_narrative := nar |}))).

(** [output_dir / f"{concept.replace(' ', '_')}_enriched.json"] *)
Definition tree_file (topic : string) : path :=
  Join "output" (replace_space topic ++ "_enriched.json").

(** [output_dir / f"{concept.replace(' ', '_')}_narrative.txt"] *)
Definition narrative_file (topic : string) : path :=
  Join "output" (replace_space topic ++ "_narrative.txt").

(** [run_pipeline(concept)]. The tree file is opened before
    [result.enriched_tree.to_dict()] and [json.dump] run: when the dump
    raises, the file is there, without the document. [write_text] opens the
    narrative file and writes the text. *)
Definition run_pipeline (w : World) (topic : string) : io unit :=
  io_bind (call (CallExplorer topic 3 true) (explore_async w topic)) (fun tree =>
  io_bind (run_async w tree) (fun result =>
  io_bind (effect (Mkdir "output") (mkdir w "output")) (fun _ =>
  io_bind (effect (OpenFile (tree_file topic)) (open_w w (tree_file topic)))
    (fun _ =>
  io_bind (lift (json_dump w (Tree.to_dict (enriched_tree result))))
    (fun tree_json =>
  io_bind (effect (WriteFile (tree_file topic) tree_json)
             (write w (tree_file topic) tree_json)) (fun _ =>
  let text := verbose_prompt (result_narrative result) in
  io_bind (effect (OpenFile (narrative_file topic))
             (open_w w (narrative_file topic))) (fun _ =>
  effect (WriteFile (narrative_file topic) text)
    (write w (narrative_file topic) text)))))))).

(** The [__main__] block around [asyncio.run(run_pipeline(concept))]:
    [KeyboardInterrupt] and every [Exception] end in [sys.exit(1)]; a run
    that returns ends the process with status 0. *)
Definition exit_code (outcome : result unit) : Z :=
  match outcome with
  | Ok _ => 0
  | Raise KeyboardInterrupt => 1
  | Raise _ => 1
  end.

Definition script (w : World) (topic : string) : Z * list event :=
  let (outcome, trace) := run_pipeline w topic [] in
  (exit_code outcome, trace).

(** [concept = "pythagorean theorem"] *)
Definition main (w : World) : Z * list event := script w "pythagorean theorem".

(** The events of a complete run, by kind. *)
Definition full_run : list kind :=
  [ KExplorer; KMath; KVisual; KNarrative; KMkdir;
    KOpenFile; KWriteFile; KOpenFile; KWriteFile ].

(** The events of a complete run on [topic] that wrote the document
    [tree_json] and the narrative [text]. *)
Definition complete_run (topic tree_json text : string) : list event :=
  [ CallExplorer topic 3 true; RunMath; RunVisual; RunNarrative;
    Mkdir "output";
    OpenFile (tree_file topic); WriteFile (tree_file topic) tree_json;
    OpenFile (narrative_file topic); WriteFile (narrative_file topic) text ].

End Pipeline.

(* ===================================================================== *)
(** * Concrete trees used in the examples                                 *)
(* ===================================================================== *)

Module Samples.

Definition bare (c : string) (d : Z) (f : bool) (ps : list KnowledgeNode)
  : KnowledgeNode :=
  mkNode c d f ps VNone VNone VNone VNone.

(** The example of the spec, after enrichment: root ["X"] with the
    foundational prerequisites ["A"] and ["B"]. *)
Definition enriched_tree : KnowledgeNode :=
  mkNode "X" 0 false
    [ mkNode "A" 1 true []
        (VList [VStr "a^2 + b^2 = c^2"]) (VList [VStr "hypotenuse"])
        (VDict [("color_scheme", VStr "blue"); ("duration", VInt 12)])
        VNone;
      bare "B" 1 true [] ]
    (VList [VStr "E = mc^2"]) VNone
    (VDict [("visual_description", VStr "a triangle")])
    (VStr "Once upon a time").

(** A node whose math stage answered with no equations at all. *)
Definition empty_equations_node : KnowledgeNode :=
  mkNode "X" 0 true [] (VList []) VNone VNone VNone.

(** The second scenario of the spec: ["X"] needs ["A"] and ["B"], ["B"]
    needs ["A"] again, ["A"] is foundational. *)
Definition shared_service : Explorer.Service :=
  {| Explorer.ask_foundation := fun c =>
       Explorer.Answer (String.eqb c "A");
     Explorer.ask_prerequisites := fun c =>
       if String.eqb c "X" then Explorer.Answer ["A"; "B"]
       else if String.eqb c "B" then Explorer.Answer ["A"]
       else Explorer.Answer [] |}.

Definition shared_rank (c : string) : nat :=
  if String.eqb c "X" then 2%nat
  else if String.eqb c "B" then 1%nat
  else 0%nat.

(** A service for which ["X"] is its own prerequisite. *)
Definition cyclic_service : Explorer.Service :=
  {| Explorer.ask_foundation := fun _ => Explorer.Answer false;
     Explorer.ask_prerequisites := fun _ => Explorer.Answer ["X"] |}.

(** A service whose foundational check raises for ["A"] and returns
    garbage for ["B"]. *)
Definition faulty_service : Explorer.Service :=
  {| Explorer.ask_foundation := fun c =>
       if String.eqb c "A" then Explorer.Failed
       else if String.eqb c "B" then Explorer.Unparseable
       else Explorer.Answer false;
     Explorer.ask_prerequisites := fun c =>
       if String.eqb c "X" then Explorer.Answer ["A"; "B"; "C"]
       else Explorer.Answer ["D"] |}.

(** Modelled from the spec: a [VisualSpec], "description, color scheme,
    animation description, camera movement, duration", kept as the mapping
    that its [to_dict] returns; a field missing from the payload is empty. *)
Definition spec_from_payload (c : string) (payload : list (string * value))
  : list (string * value) :=
  let field key :=
    (key, match dict_get key payload with Some v => v | None => VStr "" end) in
  [ ("concept", VStr c);
    field "visual_description";
    field "color_scheme";
    field "animation_description";
    field "camera_movement";
    ("duration",
      match dict_get "duration" payload with Some v => v | None => VInt 0 end) ].

(** A response: the payload of the tool call, if the service made one, and
    the text content. *)
Record response : Type := {
  tool_payload : option (list (string * value));
  text : string
}.

(** A service that answers every request with prose and no tool call. *)
Definition prose_only (node : KnowledgeNode)
    (parent_spec : option (list (string * value))) : result response :=
  Ok {| tool_payload := None; text := "I am sorry, I cannot help with that." |}.

(** No JSON object is found in prose. *)
Definition no_json (text : string) : option (list (string * value)) := None.

(** A service that designs every concept but ["A"], about which it answers
    with prose. *)
Definition mixed_service (node : KnowledgeNode)
    (parent_spec : option (list (string * value))) : result response :=
  if String.eqb (concept node) "A" then prose_only node parent_spec
  else Ok {| tool_payload :=
               Some [ ("visual_description", VStr "a translucent torus");
                      ("duration", VInt 12) ];
             text := "" |}.

Definition design_with_prose (t : KnowledgeNode) :=
  Visual.three_d_design_node spec_from_payload (fun spec => spec)
    prose_only tool_payload text no_json ∅ t None.

(** A world in which every collaborator succeeds: the explorer returns a
    leaf, the stages fill in their fields. *)
Definition kind_world : Pipeline.World :=
  {| Pipeline.explore_async := fun topic => Ok (bare topic 0 true []);
     Pipeline.math_stage := fun t =>
       Ok (mkNode (concept t) (depth t) (is_foundation t) (prerequisites t)
             (VList [VStr "a^2 + b^2 = c^2"]) (VList []) (visual_spec t)
             (narrative t));
     Pipeline.visual_stage := fun t => Ok t;
     Pipeline.narrative_stage := fun t =>
       Ok {| Pipeline.verbose_prompt := "Begin with a right triangle.";
             Pipeline.total_duration := 60;
             Pipeline.scene_count := 3 |};
     Pipeline.mkdir := fun _ => Ok tt;
     Pipeline.open_w := fun _ => Ok tt;
     Pipeline.json_dump := fun _ => Ok "{}";
     Pipeline.write := fun _ _ => Ok tt |}.

(** A world in which the visual stage is interrupted from the keyboard. *)
Definition interrupted_world : Pipeline.World :=
  {| Pipeline.explore_async := Pipeline.explore_async kind_world;
     Pipeline.math_stage := Pipeline.math_stage kind_world;
     Pipeline.visual_stage := fun _ => Raise KeyboardInterrupt;
     Pipeline.narrative_stage := Pipeline.narrative_stage kind_world;
     Pipeline.mkdir := Pipeline.mkdir kind_world;
     Pipeline.open_w := Pipeline.open_w kind_world;
     Pipeline.json_dump := Pipeline.json_dump kind_world;
     Pipeline.write := Pipeline.write kind_world |}.

(** A world in which the enriched tree holds something [json.dump] cannot
    serialise. *)
Definition unserialisable_world : Pipeline.World :=
  {| Pipeline.explore_async := Pipeline.explore_async kind_world;
     Pipeline.math_stage := Pipeline.math_stage kind_world;
     Pipeline.visual_stage := Pipeline.visual_stage kind_world;
     Pipeline.narrative_stage := Pipeline.narrative_stage kind_world;
     Pipeline.mkdir := Pipeline.mkdir kind_world;
     Pipeline.open_w := Pipeline.open_w kind_world;
     Pipeline.json_dump := fun _ =>
       Raise (TypeError "Object is not JSON serializable");
     Pipeline.write := Pipeline.write kind_world |}.

End Samples.

(* ===================================================================== *)
(** * What the loaders read and what they raise                           *)
(* ===================================================================== *)

Module Loading.

(** The keys that [_dict_to_node] looks up. *)
Definition node_keys : list string :=
  [ "concept"; "depth"; "is_foundation"; "prerequisites";
    "equations"; "definitions"; "visual_spec"; "narrative" ].

(** The keys that [_dict_to_node] subscripts with [d[...]]. *)
Definition required_keys : list string :=
  ["concept"; "depth"; "is_foundation"].

(** The exceptions a load can end in. *)
Definition load_error (e : exn) : Prop :=
  match e with
  | KeyError k => In k required_keys
  | TypeError _ => True
  | _ => False
  end.

Definition loads_or_fails {A : Type} (r : result A) : Prop :=
  match r with
  | Ok _ => True
  | Raise e => load_error e
  end.

(** Two documents for the examples: the same node with the keys in another
    order and with an entry the loader does not know. *)
Definition document : value :=
  VDict [ ("concept", VStr "X"); ("depth", VInt 0);
          ("is_foundation", VBool true);
          ("equations", VList [VStr "E = mc^2"]) ].

Definition shuffled_document : value :=
  VDict [ ("equations", VList [VStr "E = mc^2"]);
          ("enrichment_error", VBool false);
          ("is_foundation", VBool true);
          ("depth", VInt 0); ("concept", VStr "X") ].

End Loading.

(* ===================================================================== *)
(** * The loader on arbitrary documents                                   *)
(* ===================================================================== *)

Module Untyped.

(** Modelled from the spec: the object that
    [KnowledgeNode(concept=..., depth=..., ...)] builds in [_dict_to_node].
    The class is missing from the sources; the spec has it "a recursive
    record", and a record stores what its constructor is given: the call
    passes on what it finds in the document, of whatever type, so every
    field but the list of prerequisites holds a value as it was read. *)
Inductive Node : Type := mkUntyped {
  concept : value;
  depth : value;
  is_foundation : value;
  prerequisites : list Node;
  equations : value;
  definitions : value;
  visual_spec : value;
  narrative : value
}.

(** [_dict_to_node(d)] of [load_tree_from_json], on every document: the
    arguments of the constructor call are evaluated in the order they are
    written, [d["concept"]], [d["depth"]], [d["is_foundation"]], then the
    list comprehension over [d.get("prerequisites", [])], then the four
    [d.get]. A value that is not a dict cannot be subscripted by
    ["concept"]. *)
Fixpoint _dict_to_node (d : value) : result Node :=
  match d with
  | VDict kvs =>
      c <- dict_getitem "concept" kvs ;;
      dp <- dict_getitem "depth" kvs ;;
      f <- dict_getitem "is_foundation" kvs ;;
      ps <- dict_find "prerequisites"
              (iterate_prerequisites _dict_to_node) (Ok []) kvs ;;
      Ok (mkUntyped c dp f ps
            (dict_get_or_none "equations" kvs)
            (dict_get_or_none "definitions" kvs)
            (dict_get_or_none "visual_spec" kvs)
            (dict_get_or_none "narrative" kvs))
  | _ => Raise (TypeError "indices must be integers")
  end.

(** All nodes of a loaded tree, in pre-order. *)
Fixpoint nodes (t : Node) : list Node :=
  t :: flat_map nodes (prerequisites t).

(** The number of nodes whose [is_foundation] is true in Python's sense. *)
Definition foundations (t : Node) : nat :=
  length (List.filter (fun n => truthy (is_foundation n)) (nodes t)).

(** A tree of the data model as the loader builds it. *)
Fixpoint of_tree (t : KnowledgeNode) : Node :=
  match t with
  | mkNode c d f ps eqs defs vis nar =>
      mkUntyped (VStr c) (VInt d) (VBool f) (map of_tree ps) eqs defs vis nar
  end.

(** A document for the examples: a node whose core entries are not of the
    types of the data model, with a child of the same kind. *)
Definition odd_document : value :=
  VDict [ ("concept", VInt 5); ("depth", VStr "deep");
          ("is_foundation", VInt 1);
          ("prerequisites",
            VList [ VDict [ ("concept", VNone); ("depth", VNone);
                            ("is_foundation", VStr "") ] ]) ].

End Untyped.

(* ===================================================================== *)
(** * Counting the nodes of a saved tree                                  *)
(* ===================================================================== *)

Module CountNodes.

(** [for prereq in node.get('prerequisites', [])] with a body that starts
    with [prereq.get(...)]: the elements of a list; nothing for an empty
    string or an empty dict; otherwise the characters or the keys, which are
    strings and have no [get]; numbers, booleans and [None] are not
    iterable. *)
Definition for_each_prerequisite {A : Type} (rec : value -> result A)
    (v : value) : result (list A) :=
  match v with
  | VList xs => sequence (map rec xs)
  | VStr EmptyString => Ok []
  | VDict [] => Ok []
  | VStr _ => Raise (AttributeError "get")
  | VDict _ => Raise (AttributeError "get")
  | _ => Raise (TypeError "object is not iterable")
  end.

(** [count_nodes(node)] *)
Fixpoint count_nodes (node : value) : result Z :=
  match node with
  | VDict kvs =>
      subs <- dict_find "prerequisites"
                (for_each_prerequisite count_nodes) (Ok []) kvs ;;
      Ok (fold_left Z.add subs 1)
  | _ => Raise (AttributeError "get")
  end.

(** [counts[d] = counts.get(d, 0) + c] *)
Definition add_count (d c : Z) (counts : gmap Z Z) : gmap Z Z :=
  <[d := default 0 (counts !! d) + c]> counts.

(** [for d, c in sub_counts.items(): counts[d] = counts.get(d, 0) + c] *)
Definition merge_counts (counts sub_counts : gmap Z Z) : gmap Z Z :=
  map_fold add_count counts sub_counts.

(** [count_by_depth(node, depth=0)] *)
Fixpoint count_by_depth (node : value) (level : Z) : result (gmap Z Z) :=
  match node with
  | VDict kvs =>
      let counts := add_count level 1 ∅ in
      subs <- dict_find "prerequisites"
                (for_each_prerequisite (fun p => count_by_depth p (level + 1)))
                (Ok []) kvs ;;
      Ok (fold_left merge_counts subs counts)
  | _ => Raise (AttributeError "get")
  end.

(** [count_foundation_nodes(node)] *)
Fixpoint count_foundation_nodes (node : value) : result Z :=
  match node with
  | VDict kvs =>
      let count :=
        if truthy (default (VBool false) (dict_get "is_foundation" kvs))
        then 1 else 0 in
      subs <- dict_find "prerequisites"
                (for_each_prerequisite count_foundation_nodes) (Ok []) kvs ;;
      Ok (fold_left Z.add subs count)
  | _ => Raise (AttributeError "get")
  end.

(** The body of the script after the tree is loaded: the three counts, then
    [total_calls], the estimated number of requests of a pipeline run. *)
Definition total_calls (tree : value) : result Z :=
  total_nodes <- count_nodes tree ;;
  foundation_nodes <- count_foundation_nodes tree ;;
  let non_foundation_nodes := total_nodes - foundation_nodes in
  depth_counts <- count_by_depth tree 0 ;;
  let stage1_calls := total_nodes + non_foundation_nodes in
  let stage2_calls := total_nodes in
  let stage3_calls := total_nodes in
  let stage4_calls := 1 in
  Ok (stage1_calls + stage2_calls + stage3_calls + stage4_calls).

(** [sum(counts.values())] *)
Definition sum_values (counts : gmap Z Z) : Z :=
  map_fold (fun _ c acc => c + acc) 0 counts.

(** Apply a function to the value of a computation that returned. *)
Definition on_ok {A B : Type} (f : A -> B) (r : result A) : result B :=
  match r with
  | Ok a => Ok (f a)
  | Raise e => Raise e
  end.

(** Two counts of the same document: both raise the same exception, or the
    second lies between 0 and the first, which is at least 1. *)
Definition count_within (r_total r_part : result Z) : Prop :=
  match r_total, r_part with
  | Ok n, Ok f => 0 <= f <= n /\ 1 <= n
  | Raise e, Raise e' => e = e'
  | _, _ => False
  end.

(** The number of foundational nodes of a tree. *)
Definition foundations (t : KnowledgeNode) : nat :=
  length (List.filter is_foundation (nodes t)).

End CountNodes.

(* ===================================================================== *)
(** * The helpers of the visual reasoning tests                           *)
(* ===================================================================== *)

Module ReasoningTests.

(** [{"concept": node.concept, "spec": node.visual_spec}] *)
Definition spec_entry (n : KnowledgeNode) : value :=
  VDict [("concept", VStr (concept n)); ("spec", visual_spec n)].

(** [VisualReasoningTest._extract_visual_specs(node, specs=None)]. The list
    is created on the first call and the recursive calls append to that same
    list; here each call returns the list as it leaves it. *)
Fixpoint _extract_visual_specs (node : KnowledgeNode)
    (specs : option (list value)) : list value :=
  match node with
  | mkNode c d f ps eqs defs vis nar =>
      let specs := match specs with None => [] | Some l => l end in
      let specs :=
        if truthy vis
        then (specs ++ [spec_entry (mkNode c d f ps eqs defs vis nar)])%list
        else specs in
      fold_left (fun acc prereq => _extract_visual_specs prereq (Some acc))
        ps specs
  end.

(** [VisualReasoningTest._count_depth(node, max_depth=0)]; [max] runs over
    a generator that is not empty. *)
Fixpoint _count_depth (node : KnowledgeNode) (max_depth : Z) : Z :=
  match node with
  | mkNode c d f ps eqs defs vis nar =>
      match ps with
      | [] => max_depth
      | p :: rest =>
          fold_left Z.max
            (map (fun prereq => _count_depth prereq (max_depth + 1)) rest)
            (_count_depth p (max_depth + 1))
      end
  end.

(** The nodes that have something in [visual_spec]. *)
Definition with_visual_spec (t : KnowledgeNode) : list KnowledgeNode :=
  List.filter (fun n => truthy (visual_spec n)) (nodes t).

End ReasoningTests.

(* ===================================================================== *)
(** * Exploring a batch of concepts                                       *)
(* ===================================================================== *)

Module Batch.

(** What a call that may raise ends in. The exceptions are left open: the
    loop below only asks whether one is an instance of [Exception]. *)
Inductive outcome (E A : Type) : Type :=
| Returns (a : A)
| Raises (e : E).
Arguments Returns {E A} a.
Arguments Raises {E A} e.

Section BatchExplore.

(** [explore_concept] is taken as given: for a concept and the [enrichment]
    flag it changes the world (the session history, the files it saves) and
    returns a result dict or raises. [is_Exception e] is
    [isinstance(e, Exception)], what [except Exception] tests:
    [KeyboardInterrupt], [SystemExit], [GeneratorExit] and
    [asyncio.CancelledError] are exceptions for which it is false.
    [exn_str] is [str(e)]. *)
Context {W E : Type}.
Variable explore_concept :
  string -> bool -> W -> outcome E (list (string * value)) * W.
Variable is_Exception : E -> bool.
Variable exn_str : E -> string.

(** [{"concept": concept, "error": str(e), "success": False}] *)
Definition error_entry (c : string) (e : E) : list (string * value) :=
  [("concept", VStr c); ("error", VStr (exn_str e)); ("success", VBool false)].

(** The loop of [batch_explore]: [results] is the list built so far. *)
Fixpoint batch_loop (concepts : list string) (enrichment : bool)
    (results : list (list (string * value))) (w : W)
  : outcome E (list (list (string * value))) * W :=
  match concepts with
  | [] => (Returns results, w)
  | c :: rest =>
      match explore_concept c enrichment w with
      | (Returns r, w') => batch_loop rest enrichment (results ++ [r])%list w'
      | (Raises e, w') =>
          if is_Exception e
          then batch_loop rest enrichment (results ++ [error_entry c e])%list w'
          else (Raises e, w')
      end
  end.

(** [InteractiveExplorer.batch_explore(concepts, enrichment=False)] *)
Definition batch_explore (concepts : list string) (enrichment : bool) (w : W)
  : outcome E (list (list (string * value))) * W :=
  batch_loop concepts enrichment [] w.

(** The entries of a batch that went through [concepts] from the state [w]
    to the state [w']: each concept is explored in the state the one before
    it left, and its entry is what the exploration returned, or the error
    entry for the [Exception] it raised. *)
Inductive batch_entries (enrichment : bool)
  : list string -> W -> list (list (string * value)) -> W -> Prop :=
| batch_done (w : W) : batch_entries enrichment [] w [] w
| batch_returned (c : string) (rest : list string) (w w1 w' : W)
    (r : list (string * value)) (rs : list (list (string * value))) :
    explore_concept c enrichment w = (Returns r, w1) ->
    batch_entries enrichment rest w1 rs w' ->
    batch_entries enrichment (c :: rest) w (r :: rs) w'
| batch_failed (c : string) (rest : list string) (w w1 w' : W) (e : E)
    (rs : list (list (string * value))) :
    explore_concept c enrichment w = (Raises e, w1) ->
    is_Exception e = true ->
    batch_entries enrichment rest w1 rs w' ->
    batch_entries enrichment (c :: rest) w (error_entry c e :: rs) w'.

End BatchExplore.

(** For the examples: exceptions of both kinds, an exploration that fails
    for the empty concept and counts the calls made, and one that is
    cancelled for ["stop"] as well. *)
Inductive sample_exn : Type :=
| SampleValueError (msg : string)
| SampleCancelledError
| SampleSystemExit (code : Z).

Definition sample_is_Exception (e : sample_exn) : bool :=
  match e with SampleValueError _ => true | _ => false end.

Definition sample_exn_str (e : sample_exn) : string :=
  match e with
  | SampleValueError msg => msg
  | SampleCancelledError => ""
  | SampleSystemExit code => str_of_int code
  end.

Definition sample_explore_concept (c : string) (enrichment : bool) (calls : nat)
  : outcome sample_exn (list (string * value)) * nat :=
  (if String.eqb c "" then Raises (SampleValueError "empty concept")
   else Returns [("concept", VStr c); ("enriched", VBool enrichment)],
   S calls).

Definition cancellable_explore_concept (c : string) (enrichment : bool)
    (calls : nat) : outcome sample_exn (list (string * value)) * nat :=
  if String.eqb c "stop" then (Raises SampleCancelledError, S calls)
  else sample_explore_concept c enrichment calls.

End Batch.

(* ===================================================================== *)
(** * The cache of the visual stage                                       *)
(* ===================================================================== *)

Module VisualCache.

Section Designer.
Context {VisualSpec : Type}.
Variable spec_to_dict : VisualSpec -> list (string * value).

(** A node before and after the stage, with the cache the stage leaves:
    only [visual_spec] has changed, by an update with the spec that the
    cache holds for the concept of the node. *)
Definition designed_with (cache : gmap string VisualSpec)
    (n n' : KnowledgeNode) : Prop :=
  concept n' = concept n
  /\ depth n' = depth n
  /\ is_foundation n' = is_foundation n
  /\ equations n' = equations n
  /\ definitions n' = definitions n
  /\ narrative n' = narrative n
  /\ exists spec,
       cache !! concept n = Some spec
       /\ Visual.update_visual_spec (visual_spec n) (spec_to_dict spec)
          = Ok (visual_spec n').

End Designer.

(** Every concept of the tree is in the cache. *)
Definition all_cached {VisualSpec : Type} (cache : gmap string VisualSpec)
    (t : KnowledgeNode) : Prop :=
  Forall (fun n => is_Some (cache !! concept n)) (nodes t).

(** For the examples: a service that cannot be reached, and a cache that
    holds a spec for ["X"]. *)
Definition unreachable (node : KnowledgeNode)
    (parent_spec : option (list (string * value)))
  : result Samples.response :=
  Raise (OSError "connection refused").

Definition warm_cache : gmap string (list (string * value)) :=
  {[ "X" := [("color_scheme", VStr "gold")] ]}.

End VisualCache.

(* ===================================================================== *)
(** * The names of the output files                                       *)
(* ===================================================================== *)

Module FileNames.

(** [" " in s] *)
Fixpoint has_space (s : string) : bool :=
  match s with
  | EmptyString => false
  | String c rest => Ascii.eqb c " "%char || has_space rest
  end.

End FileNames.

(* ===================================================================== *)
(** * The configuration and the process environment                       *)
(* ===================================================================== *)

Module Environment.
Import Sandbox.

(** [SandboxMode(value)]: the member with that value, or [ValueError]. *)
Definition SandboxMode_of_value (s : string) : result SandboxMode :=
  if String.eqb s "exploration" then Ok EXPLORATION
  else if String.eqb s "rendering" then Ok RENDERING
  else if String.eqb s "interactive" then Ok INTERACTIVE
  else if String.eqb s "batch" then Ok BATCH
  else Raise (ValueError ("'" ++ s ++ "' is not a valid SandboxMode")).

(** [os.getenv(key, default)] *)
Definition getenv (env : gmap string string) (key fallback : string) : string :=
  match env !! key with
  | Some v => v
  | None => fallback
  end.

Fixpoint has_nul (s : string) : bool :=
  match s with
  | EmptyString => false
  | String c rest => Ascii.eqb c "000"%char || has_nul rest
  end.

(** [os.environ[key] = value]; a value with a null byte is refused. *)
Definition putenv (key v : string) (env : gmap string string)
  : result (gmap string string) :=
  if has_nul v then Raise (ValueError "embedded null byte")
  else Ok (<[key := v]> env).

Section Env.

(** The builtins [int(s)] and [str.lower()] and the call
    [os.makedirs(path, exist_ok=True)] are taken as given. *)
Variable py_int : string -> result Z.
Variable lower : string -> string.
Variable makedirs : string -> result unit.

(** [SandboxConfig.from_env()]; the keyword arguments are evaluated in the
    order they are written, the other fields keep their defaults. *)
Definition from_env (env : gmap string string) : result SandboxConfig :=
  let api_key := getenv env "MOONSHOT_API_KEY" "" in
  let base_url := getenv env "MOONSHOT_BASE_URL" "https://api.moonshot.ai/v1" in
  let model_name := getenv env "KIMI_MODEL" "kimi-k2-0905-preview" in
  let thinking := getenv env "KIMI_ENABLE_THINKING" "heavy" in
  let tools := String.eqb (lower (getenv env "KIMI_USE_TOOLS" "true")) "true" in
  sandbox_mode <- SandboxMode_of_value (getenv env "SANDBOX_MODE" "exploration") ;;
  depth_bound <- py_int (getenv env "MAX_DEPTH" "3") ;;
  let quality := getenv env "MANIM_QUALITY" "l" in
  Ok {| moonshot_api_key := api_key;
        moonshot_base_url := base_url;
        model := model_name;
        thinking_mode := thinking;
        use_tools := tools;
        mode := sandbox_mode;
        max_depth := depth_bound;
        max_tokens := 8000;
        temperature := (7 # 10)%Q;
        output_dir := "/home/user/kimik2/output";
        media_dir := "/home/user/kimik2/media";
        log_dir := "/home/user/kimik2/logs";
        manim_quality := quality;
        manim_format := "mp4";
        max_render_time := 300;
        max_tree_depth := 5;
        max_narrative_words := 3000 |}.

(** The five assignments to [os.environ] at the end of
    [setup_sandbox_environment], one after the other; the environment keeps
    what was assigned before an assignment raises. *)
Definition export_config (config : SandboxConfig) (env : gmap string string)
  : result unit * gmap string string :=
  match putenv "MOONSHOT_API_KEY" (moonshot_api_key config) env with
  | Raise e => (Raise e, env)
  | Ok env1 =>
  match putenv "MOONSHOT_BASE_URL" (moonshot_base_url config) env1 with
  | Raise e => (Raise e, env1)
  | Ok env2 =>
  match putenv "KIMI_MODEL" (model config) env2 with
  | Raise e => (Raise e, env2)
  | Ok env3 =>
  match putenv "KIMI_ENABLE_THINKING" (thinking_mode config) env3 with
  | Raise e => (Raise e, env3)
  | Ok env4 =>
  match putenv "KIMI_USE_TOOLS"
          (if use_tools config then "true" else "false") env4 with
  | Raise e => (Raise e, env4)
  | Ok env5 => (Ok tt, env5)
  end end end end end.

(** [setup_sandbox_environment(config=None)]: the configuration it returns
    and the environment it leaves. *)
Definition setup_sandbox_environment (config : option SandboxConfig)
    (env : gmap string string)
  : result SandboxConfig * gmap string string :=
  match (match config with None => from_env env | Some c => Ok c end) with
  | Raise e => (Raise e, env)
  | Ok config =>
      match
        (_ <- makedirs (output_dir config) ;;
         _ <- makedirs (media_dir config) ;;
         makedirs (log_dir config))
      with
      | Raise e => (Raise e, env)
      | Ok _ =>
          match export_config config env with
          | (Ok _, env') => (Ok config, env')
          | (Raise e, env') => (Raise e, env')
          end
      end
  end.

End Env.

(** The variables that [setup_sandbox_environment] assigns. *)
Definition exported : list string :=
  [ "MOONSHOT_API_KEY"; "MOONSHOT_BASE_URL"; "KIMI_MODEL";
    "KIMI_ENABLE_THINKING"; "KIMI_USE_TOOLS" ].

(** For the examples: [int] on the two numerals used, [lower] on ASCII
    letters, and directories that can always be made. *)
Definition sample_int (s : string) : result Z :=
  if String.eqb s "3" then Ok 3
  else if String.eqb s "7" then Ok 7
  else Raise (ValueError "invalid literal for int()").

Definition lower_ascii (c : ascii) : ascii :=
  let n := nat_of_ascii c in
  if ((65 <=? n)%nat && (n <=? 90)%nat)%bool then ascii_of_nat (n + 32) else c.

Fixpoint sample_lower (s : string) : string :=
  match s with
  | EmptyString => EmptyString
  | String c rest => String (lower_ascii c) (sample_lower rest)
  end.

Definition sample_makedirs (path : string) : result unit := Ok tt.

Definition sample_env : gmap string string :=
  {[ "MOONSHOT_API_KEY" := "sk-secret"; "KIMI_USE_TOOLS" := "TRUE";
     "MAX_DEPTH" := "7" ]}.

End Environment.

(* ===================================================================== *)
(** * Facts about dictionaries                                            *)
(* ===================================================================== *)

Module PyFacts.

Lemma dict_get_set {V : Type} (k k' : string) (v : V) (d : list (string * V)) :
  dict_get k (dict_set k' v d) = if String.eqb k' k then Some v else dict_get k d.
Proof.
  induction d as [|[k0 w] rest IH]; simpl.
  - destruct (String.eqb k' k); reflexivity.
  - destruct (String.eqb k0 k') eqn:E0; simpl.
    + apply String.eqb_eq in E0; subst k0.
      destruct (String.eqb k' k); reflexivity.
    + rewrite IH. destruct (String.eqb k0 k) eqn:E1; [|reflexivity].
      apply String.eqb_eq in E1; subst k0.
      rewrite String.eqb_sym, E0. reflexivity.
Qed.

Lemma dict_set_set {V : Type} (k : string) (v w : V) (d : list (string * V)) :
  dict_set k w (dict_set k v d) = dict_set k w d.
Proof.
  induction d as [|[k0 x] rest IH]; simpl.
  - rewrite String.eqb_refl. reflexivity.
  - destruct (String.eqb k0 k) eqn:E0; simpl; rewrite E0; [reflexivity|].
    rewrite IH. reflexivity.
Qed.

Lemma dict_find_get {V R : Type} (k : string) (found : V -> R) (missing : R)
    (d : list (string * V)) :
  dict_find k found missing d
  = match dict_get k d with Some v => found v | None => missing end.
Proof.
  induction d as [|[k0 x] rest IH]; simpl; [reflexivity|].
  destruct (String.eqb k0 k); [reflexivity | exact IH].
Qed.

(** Appending the images of [ps] one by one to the list stored under [k]
    is storing the whole list at once. *)
Lemma fold_dict_list_append {A : Type} (k : string) (g : A -> value)
    (ps : list A) (xs : list value) (d : list (string * value)) :
  dict_get k d = Some (VList xs) ->
  fold_left (fun acc p => dict_list_append k (g p) acc) ps d
  = match ps with
    | [] => d
    | _ :: _ => dict_set k (VList (xs ++ map g ps)%list) d
    end.
Proof.
  revert xs d. induction ps as [|p ps IH]; intros xs d Hget; simpl; [reflexivity|].
  unfold dict_list_append at 2. rewrite Hget.
  rewrite (IH (xs ++ [g p])%list).
  - destruct ps as [|q ps]; [reflexivity|].
    rewrite dict_set_set, <- app_assoc. reflexivity.
  - rewrite dict_get_set, String.eqb_refl. reflexivity.
Qed.

Lemma sequence_map_Ok {A B : Type} (f : A -> result B) (g : A -> B)
    (xs : list A) :
  Forall (fun x => f x = Ok (g x)) xs ->
  sequence (map f xs) = Ok (map g xs).
Proof.
  induction 1 as [|x xs Hx _ IH]; simpl; [reflexivity|].
  rewrite Hx, IH. reflexivity.
Qed.

End PyFacts.

(* ===================================================================== *)
(** * Facts about serialisation                                           *)
(* ===================================================================== *)

Module TreeFacts.
Import PyFacts.

(** Induction on a tree with the hypothesis for every prerequisite. *)
Lemma KnowledgeNode_forall_ind (P : KnowledgeNode -> Prop) :
  (forall c d f ps eqs defs vis nar,
      Forall P ps -> P (mkNode c d f ps eqs defs vis nar)) ->
  forall t, P t.
Proof.
  intros Hnode. fix IH 1. intros [c d f ps eqs defs vis nar].
  apply Hnode. induction ps as [|p ps IHps]; constructor.
  - apply IH.
  - exact IHps.
Qed.

Lemma header_get (n : KnowledgeNode) (k : string) :
  dict_get k (header n)
  = if String.eqb "concept" k then Some (VStr (concept n))
    else if String.eqb "depth" k then Some (VInt (depth n))
    else if String.eqb "is_foundation" k then Some (VBool (is_foundation n))
    else if String.eqb "prerequisites" k then Some (VList [])
    else if String.eqb "equations" k then
           (if truthy (equations n) then Some (equations n) else None)
    else if String.eqb "definitions" k then
           (if truthy (definitions n) then Some (definitions n) else None)
    else if String.eqb "visual_spec" k then
           (if truthy (visual_spec n) then Some (visual_spec n) else None)
    else if String.eqb "narrative" k then
           (if truthy (narrative n) then Some (narrative n) else None)
    else None.
Proof.
  unfold header.
  destruct (truthy (narrative n)), (truthy (visual_spec n)),
    (truthy (definitions n)), (truthy (equations n));
    rewrite ?dict_get_set; cbn [dict_get];
    repeat
      match goal with
      | |- context [String.eqb ?a k] =>
          lazymatch a with
          | k => fail
          | _ => destruct (String.eqb a k) eqn:?
          end
      end;
    try reflexivity;
    repeat
      match goal with
      | H : String.eqb _ k = true |- _ => apply String.eqb_eq in H
      end;
    congruence.
Qed.

(** [_serialize_tree] in closed form. *)
Lemma _serialize_tree_eq (n : KnowledgeNode) (depth_arg : Z) :
  _serialize_tree n depth_arg
  = match prerequisites n with
    | [] => header n
    | _ :: _ =>
        dict_set "prerequisites"
          (VList (map (fun p => VDict (_serialize_tree p (depth_arg + 1)))
                    (prerequisites n)))
          (header n)
    end.
Proof.
  destruct n as [c d f ps eqs defs vis nar].
  change (_serialize_tree (mkNode c d f ps eqs defs vis nar) depth_arg)
    with (fold_left
            (fun acc p =>
               dict_list_append "prerequisites"
                 (VDict (_serialize_tree p (depth_arg + 1))) acc)
            ps (header (mkNode c d f ps eqs defs vis nar))).
  rewrite (fold_dict_list_append "prerequisites" _ ps []).
  - reflexivity.
  - rewrite header_get. reflexivity.
Qed.

Lemma _serialize_tree_get (n : KnowledgeNode) (depth_arg : Z) (k : string) :
  dict_get k (_serialize_tree n depth_arg)
  = if String.eqb "prerequisites" k then
      Some (VList (map (fun p => VDict (_serialize_tree p (depth_arg + 1)))
                     (prerequisites n)))
    else dict_get k (header n).
Proof.
  rewrite _serialize_tree_eq.
  destruct (prerequisites n) as [|p ps] eqn:E.
  - destruct (String.eqb "prerequisites" k) eqn:Ek; [|reflexivity].
    apply String.eqb_eq in Ek; subst k. rewrite header_get. reflexivity.
  - rewrite dict_get_set. reflexivity.
Qed.

Lemma serialized_core (n : KnowledgeNode) (depth_arg : Z) :
  let d := _serialize_tree n depth_arg in
  dict_get "concept" d = Some (VStr (concept n))
  /\ dict_get "depth" d = Some (VInt (depth n))
  /\ dict_get "is_foundation" d = Some (VBool (is_foundation n))
  /\ dict_get "prerequisites" d
     = Some (VList (map (fun p => VDict (_serialize_tree p (depth_arg + 1)))
                      (prerequisites n))).
Proof.
  cbv zeta. rewrite !_serialize_tree_get, !header_get. repeat split.
Qed.

Lemma serialized_enrichment (n : KnowledgeNode) (depth_arg : Z) :
  let d := _serialize_tree n depth_arg in
  let emitted v := if truthy v then Some v else None in
  dict_get "equations" d = emitted (equations n)
  /\ dict_get "definitions" d = emitted (definitions n)
  /\ dict_get "visual_spec" d = emitted (visual_spec n)
  /\ dict_get "narrative" d = emitted (narrative n).
Proof.
  cbv zeta. rewrite !_serialize_tree_get, !header_get. repeat split.
Qed.

Lemma _dict_to_node_unfold (kvs : list (string * value)) :
  _dict_to_node (VDict kvs)
  = (c <- (v <- dict_getitem "concept" kvs ;; as_str "concept" v) ;;
     dp <- (v <- dict_getitem "depth" kvs ;; as_int "depth" v) ;;
     f <- (v <- dict_getitem "is_foundation" kvs ;; as_bool "is_foundation" v) ;;
     ps <- match dict_get "prerequisites" kvs with
           | Some v => iterate_prerequisites _dict_to_node v
           | None => Ok []
           end ;;
     Ok (mkNode c dp f ps
           (dict_get_or_none "equations" kvs)
           (dict_get_or_none "definitions" kvs)
           (dict_get_or_none "visual_spec" kvs)
           (dict_get_or_none "narrative" kvs))).
Proof.
  cbn [_dict_to_node]. rewrite dict_find_get. reflexivity.
Qed.

(** Reading back what [_serialize_tree] wrote gives the tree with every
    falsy enrichment value replaced by [None]. *)
Lemma _dict_to_node_serialize_reload (t : KnowledgeNode) :
  forall depth_arg,
    _dict_to_node (VDict (_serialize_tree t depth_arg)) = Ok (reload t).
Proof.
  induction t as [c d f ps eqs defs vis nar IH] using KnowledgeNode_forall_ind.
  intros depth_arg. rewrite _dict_to_node_unfold.
  pose proof (serialized_core (mkNode c d f ps eqs defs vis nar) depth_arg)
    as (Hc & Hd & Hf & Hp).
  pose proof (serialized_enrichment (mkNode c d f ps eqs defs vis nar) depth_arg)
    as (He & Hdf & Hv & Hn).
  cbv zeta in *. cbn [concept depth is_foundation prerequisites equations
                      definitions visual_spec narrative] in *.
  unfold dict_getitem, dict_get_or_none.
  rewrite Hc, Hd, Hf, Hp, He, Hdf, Hv, Hn.
  cbn [bind as_str as_int as_bool iterate_prerequisites].
  rewrite map_map.
  rewrite (sequence_map_Ok
             (fun p => _dict_to_node (VDict (_serialize_tree p (depth_arg + 1))))
             reload).
  - cbn [bind reload]. unfold reloaded.
    destruct (truthy eqs), (truthy defs), (truthy vis), (truthy nar);
      reflexivity.
  - eapply Forall_impl; [exact IH|]. intros p Hp'. apply Hp'.
Qed.

Lemma reloaded_id (v : value) :
  (is_none v || truthy v)%bool = true -> reloaded v = v.
Proof.
  unfold reloaded. destruct v as [| | | |xs|kvs]; simpl;
    try reflexivity; intros H; rewrite H; reflexivity.
Qed.

Lemma reload_id (t : KnowledgeNode) :
  Forall (fun n => no_empty_payload n = true) (nodes t) -> reload t = t.
Proof.
  induction t as [c d f ps eqs defs vis nar IH] using KnowledgeNode_forall_ind.
  intros H. cbn [nodes prerequisites] in H.
  apply Forall_cons_iff in H as [Hn Hps].
  unfold no_empty_payload in Hn.
  cbn [equations definitions visual_spec narrative] in Hn.
  apply andb_true_iff in Hn as [Hn Hnar].
  apply andb_true_iff in Hn as [Hn Hvis].
  apply andb_true_iff in Hn as [Heqs Hdefs].
  cbn [reload]. rewrite !reloaded_id by assumption. f_equal.
  clear -IH Hps. induction IH as [|p ps Hp _ IHps]; [reflexivity|].
  cbn [flat_map] in Hps. apply Forall_app in Hps as [Hp1 Hp2].
  cbn [map]. rewrite Hp, IHps by assumption. reflexivity.
Qed.

(** ** C1: the round trip through [_serialize_tree] and [_dict_to_node] *)

(** C1, refuted as stated: a node whose [equations] field is the empty
    list is written without that key and read back with [None]; the round
    trip does not return the tree it started from. *)
Lemma roundtrip_loses_empty_equations :
  equations Samples.empty_equations_node = VList []
  /\ _dict_to_node (VDict (_serialize_tree Samples.empty_equations_node 0))
     = Ok (Samples.bare "X" 0 true [])
  /\ _dict_to_node (VDict (_serialize_tree Samples.empty_equations_node 0))
     <> Ok Samples.empty_equations_node.
Proof.
  split; [reflexivity|]. split; [reflexivity|]. discriminate.
Qed.

(** C1, amended: for every tree in which each enrichment field of each
    node is either [None] or a non-empty (truthy) value, reading back the
    serialisation yields exactly that tree: same concepts, depths,
    foundational flags, prerequisite order and enrichment payloads. *)
Theorem roundtrip_without_empty_payloads (t : KnowledgeNode) (depth_arg : Z) :
  Forall (fun n => no_empty_payload n = true) (nodes t) ->
  _dict_to_node (VDict (_serialize_tree t depth_arg)) = Ok t.
Proof.
  intros H. rewrite _dict_to_node_serialize_reload, reload_id by exact H.
  reflexivity.
Qed.

Lemma roundtrip_without_empty_payloads_witness :
  Forall (fun n => no_empty_payload n = true) (nodes Samples.enriched_tree)
  /\ _dict_to_node (VDict (_serialize_tree Samples.enriched_tree 0))
     = Ok Samples.enriched_tree.
Proof.
  assert (H : Forall (fun n => no_empty_payload n = true)
                (nodes Samples.enriched_tree)).
  { repeat constructor. }
  split; [exact H|].
  exact (roundtrip_without_empty_payloads Samples.enriched_tree 0 H).
Defined.

(** With [to_dict] as the spec words it (a field is emitted when it is not
    [None]) nothing is lost, whatever the payloads are. *)
Lemma to_dict_get (n : KnowledgeNode) (k : string) :
  dict_get k (to_dict n)
  = if String.eqb "concept" k then Some (VStr (concept n))
    else if String.eqb "depth" k then Some (VInt (depth n))
    else if String.eqb "is_foundation" k then Some (VBool (is_foundation n))
    else if String.eqb "prerequisites" k then
           Some (VList (map (fun p => VDict (to_dict p)) (prerequisites n)))
    else if String.eqb "equations" k then
           (if is_none (equations n) then None else Some (equations n))
    else if String.eqb "definitions" k then
           (if is_none (definitions n) then None else Some (definitions n))
    else if String.eqb "visual_spec" k then
           (if is_none (visual_spec n) then None else Some (visual_spec n))
    else if String.eqb "narrative" k then
           (if is_none (narrative n) then None else Some (narrative n))
    else None.
Proof.
  destruct n as [c d f ps eqs defs vis nar].
  cbn [to_dict concept depth is_foundation prerequisites equations
         definitions visual_spec narrative].
  destruct (is_none eqs), (is_none defs), (is_none vis), (is_none nar);
    cbn [app dict_get];
    repeat
      match goal with
      | |- context [String.eqb ?a k] =>
          lazymatch a with
          | k => fail
          | _ => destruct (String.eqb a k) eqn:?
          end
      end;
    try reflexivity;
    repeat
      match goal with
      | H : String.eqb _ k = true |- _ => apply String.eqb_eq in H
      end;
    congruence.
Qed.

Lemma _dict_to_node_to_dict (t : KnowledgeNode) :
  _dict_to_node (VDict (to_dict t)) = Ok t.
Proof.
  induction t as [c d f ps eqs defs vis nar IH] using KnowledgeNode_forall_ind.
  rewrite _dict_to_node_unfold. unfold dict_getitem, dict_get_or_none.
  rewrite !to_dict_get.
  cbn [String.eqb Ascii.eqb Bool.eqb bind as_str as_int as_bool
         iterate_prerequisites concept depth is_foundation prerequisites
         equations definitions visual_spec narrative].
  rewrite map_map.
  rewrite (sequence_map_Ok (fun p => _dict_to_node (VDict (to_dict p)))
             (fun p => p)) by exact IH.
  rewrite map_id. cbn [bind].
  destruct eqs, defs, vis, nar; reflexivity.
Qed.

(** ** C5: the keys that [_serialize_tree] emits *)

(** C5, refuted as stated: the [equations] field of this node is not
    [None] (it is the empty list), yet the serialisation has no
    ["equations"] key. *)
Lemma serialize_drops_empty_equations :
  is_none (equations Samples.empty_equations_node) = false
  /\ dict_has "equations" (_serialize_tree Samples.empty_equations_node 0)
     = false.
Proof. split; reflexivity. Qed.

(** C5, amended: the serialisation of a node always has the keys
    [concept], [depth], [is_foundation] and [prerequisites]; it has the key
    [equations], [definitions], [visual_spec] or [narrative] exactly when
    that field is truthy, that is neither [None] nor empty, and then the
    key holds the field's value; it has no other key. *)
Theorem serialize_emits_core_and_truthy_fields
    (n : KnowledgeNode) (depth_arg : Z) :
  let d := _serialize_tree n depth_arg in
  (dict_has "concept" d = true
   /\ dict_has "depth" d = true
   /\ dict_has "is_foundation" d = true
   /\ dict_has "prerequisites" d = true)
  /\ (dict_has "equations" d = truthy (equations n)
      /\ dict_has "definitions" d = truthy (definitions n)
      /\ dict_has "visual_spec" d = truthy (visual_spec n)
      /\ dict_has "narrative" d = truthy (narrative n))
  /\ (forall k v,
        In k ["equations"; "definitions"; "visual_spec"; "narrative"] ->
        dict_get k d = Some v ->
        v = dict_get_or_none k (to_dict n))
  /\ (forall k,
        dict_has k d = true ->
        In k ["concept"; "depth"; "is_foundation"; "prerequisites";
              "equations"; "definitions"; "visual_spec"; "narrative"]).
Proof.
  cbv zeta.
  pose proof (serialized_core n depth_arg) as (Hc & Hd & Hf & Hp).
  pose proof (serialized_enrichment n depth_arg) as (He & Hdf & Hv & Hn).
  cbv zeta in *. unfold dict_has.
  rewrite Hc, Hd, Hf, Hp, He, Hdf, Hv, Hn.
  split; [repeat split|]. split.
  { repeat split;
      match goal with
      | |- context [truthy ?x] => destruct (truthy x); reflexivity
      end. }
  split.
  - intros k v Hk Hget. unfold dict_get_or_none. rewrite to_dict_get.
    cbn [In] in Hk.
    destruct Hk as [<-|[<-|[<-|[<-|[]]]]];
      [rewrite He in Hget|rewrite Hdf in Hget
       |rewrite Hv in Hget|rewrite Hn in Hget];
      cbn [String.eqb Ascii.eqb Bool.eqb];
      match type of Hget with
      | context [truthy ?x] =>
          destruct x as [|b|z|s|xs|kvs]; cbn in Hget; try discriminate;
          cbn [is_none];
          repeat match type of Hget with
                 | context [if ?c then _ else _] => destruct c
                 | context [match ?c with _ => _ end] => destruct c
                 end;
          try discriminate; congruence
      end.
  - intros k Hk. rewrite _serialize_tree_get, header_get in Hk.
    cbn [In].
    repeat
      match type of Hk with
      | context [String.eqb ?a k] =>
          destruct (String.eqb a k) eqn:E;
          [apply String.eqb_eq in E; tauto | clear E]
      end.
    discriminate.
Qed.

End TreeFacts.

(* ===================================================================== *)
(** * Facts about the sandbox configuration                               *)
(* ===================================================================== *)

Module SandboxFacts.
Import Sandbox.

Lemma str_in_In (x : string) (l : list string) :
  str_in x l = true <-> In x l.
Proof.
  unfold str_in. rewrite existsb_exists. split.
  - intros (y & Hy & E). apply String.eqb_eq in E. subst y. exact Hy.
  - intros H. exists x. split; [exact H | apply String.eqb_refl].
Qed.

Lemma truthy_str (s : string) : truthy (VStr s) = true <-> s <> "".
Proof.
  cbn [truthy]. rewrite negb_true_iff. split.
  - intros E ->. discriminate.
  - intros H. apply String.eqb_neq. exact H.
Qed.

Lemma validate_Ok_true (config : SandboxConfig) :
  fst (validate_sandbox_config config) = Ok true <-> valid_config config.
Proof.
  unfold validate_sandbox_config, valid_config. cbn [fst].
  rewrite <- truthy_str, <- !str_in_In.
  destruct (truthy (VStr (moonshot_api_key config))); cbn [negb];
    [|split; [discriminate | intros (H & _); discriminate]].
  destruct (str_in (thinking_mode config) thinking_modes); cbn [negb];
    [|split; [discriminate | intros (_ & H & _); discriminate]].
  destruct (str_in (manim_quality config) manim_qualities); cbn [negb];
    [|split; [discriminate | intros (_ & _ & H & _); discriminate]].
  destruct (max_depth config <? 1) eqn:Elo; cbn [orb].
  { apply Z.ltb_lt in Elo. split; [discriminate | intros (_ & _ & _ & H); lia]. }
  apply Z.ltb_ge in Elo.
  destruct (max_depth config >? 10) eqn:Ehi.
  { rewrite Z.gtb_ltb in Ehi. apply Z.ltb_lt in Ehi.
    split; [discriminate | intros (_ & _ & _ & H); lia]. }
  rewrite Z.gtb_ltb in Ehi. apply Z.ltb_ge in Ehi.
  split; [intros _; repeat split; solve [reflexivity | lia] | reflexivity].
Qed.

Lemma validate_outcome (config : SandboxConfig) :
  fst (validate_sandbox_config config) = Ok true
  \/ exists msg, fst (validate_sandbox_config config) = Raise (ValueError msg).
Proof.
  unfold validate_sandbox_config. cbn [fst].
  repeat match goal with
         | |- context [if ?c then _ else _] => destruct c
         end;
    solve [left; reflexivity | right; eexists; reflexivity].
Qed.

(** ** C9: validation of a configuration *)

(** C9: [validate_sandbox_config] returns [True] exactly for the
    configurations with a non-empty key, a thinking mode among heavy,
    medium, light, true, false, a quality among l, m, h, k and a depth
    bound between 1 and 10; for every other configuration it raises a
    [ValueError]; and in every case the configuration is left as it was. *)
Theorem validate_sandbox_config_spec (config : SandboxConfig) :
  (fst (validate_sandbox_config config) = Ok true <-> valid_config config)
  /\ (~ valid_config config ->
      exists msg,
        fst (validate_sandbox_config config) = Raise (ValueError msg))
  /\ snd (validate_sandbox_config config) = config.
Proof.
  split; [apply validate_Ok_true|]. split; [|reflexivity].
  intros Hbad. destruct (validate_outcome config) as [Hok|Herr].
  - apply validate_Ok_true in Hok. contradiction.
  - exact Herr.
Qed.

(** ** C10: the key never reaches the dictionary *)

(** C10: for two configurations that differ at most in the key, both
    keys being empty or both non-empty, [to_dict] returns the same
    dictionary; under ["moonshot_api_key"] it holds the constant ["***"]
    for a non-empty key and [None] for the empty one. *)
Theorem to_dict_independent_of_api_key (c1 c2 : SandboxConfig) :
  c2 = with_api_key (moonshot_api_key c2) c1 ->
  (moonshot_api_key c1 = "" <-> moonshot_api_key c2 = "") ->
  to_dict c1 = to_dict c2
  /\ dict_get "moonshot_api_key" (to_dict c1)
     = Some (if String.eqb (moonshot_api_key c1) "" then VNone
             else VStr "***").
Proof.
  intros Hsame Hkeys. split.
  - rewrite Hsame. unfold to_dict, with_api_key.
    cbn [moonshot_api_key moonshot_base_url model thinking_mode use_tools
           mode max_depth max_tokens manim_quality truthy].
    destruct (String.eqb (moonshot_api_key c1) "") eqn:E1;
      destruct (String.eqb (moonshot_api_key c2) "") eqn:E2;
      try reflexivity; exfalso.
    + apply String.eqb_eq in E1. apply String.eqb_neq in E2. tauto.
    + apply String.eqb_neq in E1. apply String.eqb_eq in E2. tauto.
  - unfold to_dict. cbn [dict_get truthy].
    destruct (String.eqb (moonshot_api_key c1) ""); reflexivity.
Qed.

Lemma to_dict_independent_of_api_key_witness :
  to_dict (default_config "sk-first-secret")
  = to_dict (default_config "sk-another-secret")
  /\ dict_get "moonshot_api_key" (to_dict (default_config "sk-first-secret"))
     = Some (VStr "***").
Proof.
  apply (to_dict_independent_of_api_key
           (default_config "sk-first-secret")
           (default_config "sk-another-secret")).
  - reflexivity.
  - split; intros H; discriminate H.
Defined.

End SandboxFacts.

(* ===================================================================== *)
(** * Facts about the explorer                                            *)
(* ===================================================================== *)

Module ExplorerFacts.
Import Explorer.

Section Run.
Variable svc : Service.
Variable max_depth : Z.

Lemma tree_ok_incl (log log' : list request) (t : KnowledgeNode) :
  incl log log' -> tree_ok svc max_depth log t -> tree_ok svc max_depth log' t.
Proof.
  intros Hincl Ht. unfold tree_ok in *.
  eapply Forall_impl; [exact Ht|]. intros n [Hn Hlog]. split; [exact Hn|].
  apply Hincl. exact Hlog.
Qed.

Lemma memo_ok_record_call (r : request) (st : run_state) :
  memo_ok svc max_depth st -> memo_ok svc max_depth (record_call r st).
Proof.
  intros Hst k n Hk. cbn [record_call memo calls] in *.
  destruct (Hst k n Hk) as [Hc Ht]. split; [exact Hc|].
  eapply tree_ok_incl; [|exact Ht]. apply incl_appl, incl_refl.
Qed.

Lemma memo_ok_remember (node : KnowledgeNode) (st : run_state) :
  memo_ok svc max_depth st ->
  tree_ok svc max_depth (calls st) node ->
  memo_ok svc max_depth (snd (remember node st)).
Proof.
  intros Hst Hnode k n Hk. cbn [remember snd memo calls] in *.
  destruct (decide (concept node = k)) as [E|E].
  - subst k. rewrite lookup_insert_eq in Hk. injection Hk as <-.
    split; [reflexivity | exact Hnode].
  - rewrite lookup_insert_ne in Hk by exact E. apply Hst. exact Hk.
Qed.

Lemma tree_ok_node (log : list request) (n : KnowledgeNode) :
  well_explored svc max_depth n ->
  In (FoundationCheck (concept n)) log ->
  Forall (tree_ok svc max_depth log) (prerequisites n) ->
  tree_ok svc max_depth log n.
Proof.
  intros Hn Hlog Hps. unfold tree_ok. destruct n as [c d f ps e df v nar].
  cbn [nodes prerequisites] in *. constructor; [split; assumption|].
  clear Hn Hlog. induction Hps as [|p ps Hp _ IH]; cbn [flat_map]; [constructor|].
  apply Forall_app. split; [exact Hp | exact IH].
Qed.

Lemma foundation_ok (c : string) (d : Z) (log : list request) :
  0 <= d <= max_depth ->
  In (FoundationCheck c) log ->
  tree_ok svc max_depth log (foundation c d).
Proof.
  intros Hd Hlog. apply tree_ok_node; [|exact Hlog|constructor].
  split; [exact Hd|]. split; [reflexivity | discriminate].
Qed.

Lemma explore_each_ok
    (explore_one : string -> run_state -> option (KnowledgeNode * run_state))
    (ps : list string) :
  (forall p st, memo_ok svc max_depth st -> explored_ok svc max_depth p st (explore_one p st)) ->
  forall st,
    memo_ok svc max_depth st ->
    exists ts st',
      explore_each explore_one ps st = Some (ts, st')
      /\ map concept ts = ps
      /\ Forall (tree_ok svc max_depth (calls st')) ts
      /\ memo_ok svc max_depth st'
      /\ incl (calls st) (calls st').
Proof.
  intros Hone. induction ps as [|p ps IH]; intros st Hst; cbn [explore_each].
  - exists [], st. split; [reflexivity|]. split; [reflexivity|].
    split; [constructor|]. split; [exact Hst | apply incl_refl].
  - destruct (Hone p st Hst) as (t & st1 & -> & Hc & Ht & Hst1 & Hi1).
    destruct (IH st1 Hst1) as (ts & st2 & -> & Hcs & Hts & Hst2 & Hi2).
    exists (t :: ts), st2. split; [reflexivity|]. split; [|split; [|split]].
    + cbn [map]. rewrite Hc, Hcs. reflexivity.
    + constructor; [|exact Hts]. eapply tree_ok_incl; [exact Hi2 | exact Ht].
    + exact Hst2.
    + eapply incl_tran; eassumption.
Qed.

Lemma explore_async_ok (gas : nat) :
  forall c d st,
    0 <= d <= max_depth ->
    (Z.to_nat (max_depth - d) < gas)%nat ->
    memo_ok svc max_depth st ->
    explored_ok svc max_depth c st (explore_async gas svc max_depth c d st).
Proof.
  induction gas as [|gas IH]; intros c d st Hd Hgas Hst; [lia|].
  cbn [explore_async].
  destruct (memo st !! c) as [node|] eqn:Hmemo.
  { destruct (Hst c node Hmemo) as [Hc Ht].
    exists node, st. split; [reflexivity|]. split; [exact Hc|].
    split; [exact Ht|]. split; [exact Hst | apply incl_refl]. }
  set (st1 := record_call (FoundationCheck c) st).
  assert (Hst1 : memo_ok svc max_depth st1) by (apply memo_ok_record_call; exact Hst).
  assert (Hlog1 : In (FoundationCheck c) (calls st1)).
  { cbn [st1 record_call calls]. apply in_or_app. right. left. reflexivity. }
  assert (Hi1 : incl (calls st) (calls st1)).
  { cbn [st1 record_call calls]. apply incl_appl, incl_refl. }
  assert (Hleaf : forall st2,
             memo_ok svc max_depth st2 -> incl (calls st1) (calls st2) ->
             explored_ok svc max_depth c st
               (Some (remember (foundation c d) st2))).
  { intros st2 Hst2 Hi2.
    assert (Hf : tree_ok svc max_depth (calls st2) (foundation c d)).
    { apply foundation_ok; [exact Hd|]. apply Hi2. exact Hlog1. }
    eexists _, _. split; [reflexivity|]. split; [reflexivity|].
    split; [|split].
    - exact Hf.
    - apply (memo_ok_remember (foundation c d) st2 Hst2 Hf).
    - cbn [remember calls]. eapply incl_tran; eassumption. }
  destruct (ask_foundation svc c) as [[|]| |] eqn:Hfound;
    try (apply Hleaf; [exact Hst1 | apply incl_refl]).
  destruct (d =? max_depth) eqn:Hdepth;
    [apply Hleaf; [exact Hst1 | apply incl_refl]|].
  apply Z.eqb_neq in Hdepth.
  set (st2 := record_call (PrerequisiteList c) st1).
  assert (Hst2 : memo_ok svc max_depth st2) by (apply memo_ok_record_call; exact Hst1).
  assert (Hi2 : incl (calls st1) (calls st2)).
  { cbn [st2 record_call calls]. apply incl_appl, incl_refl. }
  destruct (ask_prerequisites svc c) as [ps| |] eqn:Hpre;
    try (apply Hleaf; [exact Hst2 | exact Hi2]).
  destruct (explore_each_ok
              (fun p => explore_async gas svc max_depth p (d + 1)) ps)
    with (st := st2) as (ts & st3 & -> & Hcs & Hts & Hst3 & Hi3).
  { intros p st' Hst'. apply IH; [lia | lia | exact Hst']. }
  { exact Hst2. }
  set (node := mkNode c d false ts VNone VNone VNone VNone).
  assert (Hnode : tree_ok svc max_depth (calls st3) node).
  { apply tree_ok_node.
    - split; [exact Hd|]. split; [discriminate|]. intros _.
      cbn [node concept depth prerequisites]. rewrite Hcs.
      split; [exact Hfound|]. split; [lia | exact Hpre].
    - apply Hi3, Hi2. exact Hlog1.
    - exact Hts. }
  exists node, (snd (remember node st3)). split; [reflexivity|].
  split; [reflexivity|]. split; [|split].
  - exact Hnode.
  - apply memo_ok_remember; assumption.
  - cbn [remember snd calls].
    eapply incl_tran; [exact Hi1|]. eapply incl_tran; eassumption.
Qed.

(** A concept that is in the memo is answered from it: the node comes
    back as stored, and neither the memo nor the log of requests changes. *)
Lemma explore_async_memo_hit (gas : nat) (c : string) (d : Z)
    (st : run_state) (node : KnowledgeNode) :
  memo st !! c = Some node ->
  explore_async (S gas) svc max_depth c d st = Some (node, st).
Proof. intros Hhit. cbn [explore_async]. rewrite Hhit. reflexivity. Qed.

Lemma fresh_run_ok : memo_ok svc max_depth fresh_run.
Proof. intros k n Hk. cbn [fresh_run memo] in Hk. rewrite lookup_empty in Hk. discriminate. Qed.

(** Every run with a non-negative depth bound returns, and returns a tree
    all of whose nodes are well explored. *)
Lemma explore_ok (root : string) :
  0 <= max_depth ->
  exists t st,
    explore svc max_depth root = Some (t, st)
    /\ concept t = root
    /\ tree_ok svc max_depth (calls st) t.
Proof.
  intros Hmd. unfold explore.
  destruct (explore_async_ok (S (Z.to_nat max_depth)) root 0 fresh_run)
    as (t & st & Hrun & Hc & Ht & _ & _); [lia| |apply fresh_run_ok|].
  { rewrite Z.sub_0_r. lia. }
  exists t, st. split; [exact Hrun|]. split; assumption.
Qed.

(** ** C2: the depth bound *)

(** C2: for every service and every depth bound [max_depth >= 0], the run
    returns a tree in which every node has [depth <= max_depth] and every
    node at depth [max_depth] is foundational with no prerequisites,
    whatever the service answered for it. *)
Theorem explored_depth_bound (root : string) :
  0 <= max_depth ->
  exists t st,
    explore svc max_depth root = Some (t, st)
    /\ Forall (fun n =>
                 depth n <= max_depth
                 /\ (depth n = max_depth ->
                     is_foundation n = true /\ prerequisites n = []))
         (nodes t).
Proof.
  intros Hmd. destruct (explore_ok root Hmd) as (t & st & Hrun & _ & Ht).
  exists t, st. split; [exact Hrun|].
  eapply Forall_impl; [exact Ht|].
  intros n [(Hd & Hleaf & Hinner) _]. split; [lia|]. intros Hmax.
  destruct (is_foundation n) eqn:Hf.
  - split; [reflexivity | apply Hleaf; reflexivity].
  - destruct (Hinner eq_refl) as (_ & Hlt & _). lia.
Qed.

(** A run over [heal svc] is the run over [svc]: a failed or unparseable
    foundational check has the effect of the answer "foundational", and no
    other. *)
Lemma explore_each_ext
    (f g : string -> run_state -> option (KnowledgeNode * run_state))
    (ps : list string) :
  (forall p st, f p st = g p st) ->
  forall st, explore_each f ps st = explore_each g ps st.
Proof.
  intros Hfg. induction ps as [|p ps IH]; intros st; cbn [explore_each];
    [reflexivity|].
  rewrite Hfg. destruct (g p st) as [[n st1]|]; [|reflexivity].
  rewrite IH. reflexivity.
Qed.

Lemma explore_async_heal (gas : nat) :
  forall c d st,
    explore_async gas (heal svc) max_depth c d st
    = explore_async gas svc max_depth c d st.
Proof.
  induction gas as [|gas IH]; intros c d st; [reflexivity|].
  cbn [explore_async]. destruct (memo st !! c) as [node|]; [reflexivity|].
  cbn [heal ask_foundation ask_prerequisites].
  destruct (ask_foundation svc c) as [[|]| |]; try reflexivity.
  destruct (d =? max_depth); [reflexivity|].
  destruct (ask_prerequisites svc c) as [ps| |]; try reflexivity.
  rewrite (explore_each_ext
             (fun p => explore_async gas (heal svc) max_depth p (d + 1))
             (fun p => explore_async gas svc max_depth p (d + 1)) ps);
    [reflexivity|].
  intros p st'. apply IH.
Qed.

Lemma leaf_reason_node (n : KnowledgeNode) :
  leaf_reason svc max_depth n ->
  Forall (fun p => Forall (leaf_reason svc max_depth) (nodes p))
    (prerequisites n) ->
  Forall (leaf_reason svc max_depth) (nodes n).
Proof.
  intros Hn Hps. destruct n as [c d f ps e df v nar].
  cbn [nodes prerequisites] in *. constructor; [exact Hn|].
  clear Hn. induction Hps as [|p ps Hp _ IH]; cbn [flat_map]; [constructor|].
  apply Forall_app. split; [exact Hp | exact IH].
Qed.

Lemma memo_reasons_remember (node : KnowledgeNode) (st : run_state) :
  memo_reasons svc max_depth st ->
  Forall (leaf_reason svc max_depth) (nodes node) ->
  memo_reasons svc max_depth (snd (remember node st)).
Proof.
  intros Hst Hnode k n Hk. cbn [remember snd memo] in Hk.
  destruct (decide (concept node = k)) as [E|E].
  - subst k. rewrite lookup_insert_eq in Hk. injection Hk as <-. exact Hnode.
  - rewrite lookup_insert_ne in Hk by exact E. exact (Hst k n Hk).
Qed.

Lemma explore_each_reasons
    (explore_one : string -> run_state -> option (KnowledgeNode * run_state))
    (ps : list string) :
  (forall p st t st',
      explore_one p st = Some (t, st') ->
      memo_reasons svc max_depth st ->
      Forall (leaf_reason svc max_depth) (nodes t)
      /\ memo_reasons svc max_depth st') ->
  forall st ts st',
    explore_each explore_one ps st = Some (ts, st') ->
    memo_reasons svc max_depth st ->
    Forall (fun t => Forall (leaf_reason svc max_depth) (nodes t)) ts
    /\ memo_reasons svc max_depth st'.
Proof.
  intros Hone. induction ps as [|p ps IH]; intros st ts st' Hrun Hst;
    cbn [explore_each] in Hrun.
  - injection Hrun as <- <-. split; [constructor | exact Hst].
  - destruct (explore_one p st) as [[t st1]|] eqn:E1; [|discriminate].
    destruct (explore_each explore_one ps st1) as [[ts' st2]|] eqn:E2;
      [|discriminate].
    injection Hrun as <- <-.
    destruct (Hone p st t st1 E1 Hst) as [Ht Hst1].
    destruct (IH st1 ts' st2 E2 Hst1) as [Hts Hst2].
    split; [constructor; assumption | exact Hst2].
Qed.

Lemma explore_async_reasons (gas : nat) :
  forall c d st t st',
    explore_async gas svc max_depth c d st = Some (t, st') ->
    memo_reasons svc max_depth st ->
    Forall (leaf_reason svc max_depth) (nodes t)
    /\ memo_reasons svc max_depth st'.
Proof.
  induction gas as [|gas IH]; intros c d st t st' Hrun Hst; [discriminate|].
  cbn [explore_async] in Hrun.
  destruct (memo st !! c) as [node|] eqn:Hmemo.
  { injection Hrun as <- <-. split; [exact (Hst c node Hmemo) | exact Hst]. }
  assert (Hleaf : forall st2,
             memo st2 = memo st ->
             leaf_reason svc max_depth (foundation c d) ->
             Some (remember (foundation c d) st2) = Some (t, st') ->
             Forall (leaf_reason svc max_depth) (nodes t)
             /\ memo_reasons svc max_depth st').
  { intros st2 Hmemo2 Hreason E. injection E as <- <-.
    assert (Hf : Forall (leaf_reason svc max_depth) (nodes (foundation c d))).
    { apply leaf_reason_node; [exact Hreason | constructor]. }
    split; [exact Hf|]. apply memo_reasons_remember; [|exact Hf].
    intros k n Hk. rewrite Hmemo2 in Hk. exact (Hst k n Hk). }
  destruct (ask_foundation svc c) as [[|]| |] eqn:Hfound.
  - eapply Hleaf; [| |exact Hrun]; [reflexivity|]. intros _. left.
    cbn [foundation concept]. rewrite Hfound. discriminate.
  - destruct (d =? max_depth) eqn:Hdepth.
    { eapply Hleaf; [| |exact Hrun]; [reflexivity|]. intros _. right. left.
      apply Z.eqb_eq in Hdepth. exact Hdepth. }
    destruct (ask_prerequisites svc c) as [ps| |] eqn:Hpre.
    + set (st2 := record_call (PrerequisiteList c)
                    (record_call (FoundationCheck c) st)) in *.
      destruct (explore_each
                  (fun p => explore_async gas svc max_depth p (d + 1)) ps st2)
        as [[ts st3]|] eqn:Heach; [|discriminate].
      injection Hrun as <- <-.
      destruct (explore_each_reasons
                  (fun p => explore_async gas svc max_depth p (d + 1)) ps)
        with (st := st2) (ts := ts) (st' := st3) as [Hts Hst3].
      { intros p s u s' Hp Hs. exact (IH p (d + 1) s u s' Hp Hs). }
      { exact Heach. }
      { intros k n Hk. exact (Hst k n Hk). }
      assert (Hnode : Forall (leaf_reason svc max_depth)
                        (nodes (mkNode c d false ts VNone VNone VNone VNone))).
      { apply leaf_reason_node; [intros Hf; discriminate Hf | exact Hts]. }
      split; [exact Hnode|]. apply memo_reasons_remember; assumption.
    + eapply Hleaf; [| |exact Hrun]; [reflexivity|]. intros _. right. right.
      cbn [foundation concept]. rewrite Hpre. reflexivity.
    + eapply Hleaf; [| |exact Hrun]; [reflexivity|]. intros _. right. right.
      cbn [foundation concept]. rewrite Hpre. reflexivity.
  - eapply Hleaf; [| |exact Hrun]; [reflexivity|]. intros _. left.
    cbn [foundation concept]. rewrite Hfound. discriminate.
  - eapply Hleaf; [| |exact Hrun]; [reflexivity|]. intros _. left.
    cbn [foundation concept]. rewrite Hfound. discriminate.
Qed.

(** ** C4: a failed foundational check *)

(** C4: for every service, the run returns a tree for the root concept (no
    exception leaves the Explorer), and in that tree
    - every node whose foundational check failed or was unparseable is
      foundational and has no prerequisites;
    - a node is not foundational exactly when its check answered "no", it
      lies above the depth bound and the listing of its prerequisites was
      answered; its children are then the listed prerequisites, in order, so
      the exploration goes on below and beside a failed node;
    - the run is the run over the service that answers "foundational" where
      the check fails: the failure changes nothing else, in the tree, the
      memo or the requests sent. *)
Theorem failed_check_gives_foundation (root : string) :
  0 <= max_depth ->
  exists t st,
    explore svc max_depth root = Some (t, st)
    /\ concept t = root
    /\ Forall (fun n =>
                 (failed (ask_foundation svc (concept n)) = true ->
                  is_foundation n = true /\ prerequisites n = [])
                 /\ (is_foundation n = false <->
                     ask_foundation svc (concept n) = Answer false
                     /\ depth n < max_depth
                     /\ failed (ask_prerequisites svc (concept n)) = false)
                 /\ (is_foundation n = false ->
                     ask_prerequisites svc (concept n)
                     = Answer (map concept (prerequisites n))))
         (nodes t)
    /\ explore (heal svc) max_depth root = Some (t, st).
Proof.
  intros Hmd. destruct (explore_ok root Hmd) as (t & st & Hrun & Hroot & Ht).
  exists t, st. split; [exact Hrun|]. split; [exact Hroot|]. split.
  - destruct (explore_async_reasons _ _ _ _ _ _ Hrun) as [Hwhy _].
    { intros k n Hk. cbn [fresh_run memo] in Hk. rewrite lookup_empty in Hk.
      discriminate Hk. }
    unfold tree_ok in Ht. rewrite Forall_forall in Ht, Hwhy.
    apply Forall_forall. intros n Hn.
    destruct (Ht n Hn) as [(_ & Hleaf & Hinner) _].
    pose proof (Hwhy n Hn) as Hreason.
    split; [|split].
    + intros Hfail. destruct (is_foundation n) eqn:Hf.
      * split; [reflexivity | apply Hleaf; reflexivity].
      * destruct (Hinner eq_refl) as (Hans & _). rewrite Hans in Hfail.
        discriminate.
    + split.
      * intros Hf. destruct (Hinner Hf) as (Hans & Hlt & Hpre).
        split; [exact Hans|]. split; [exact Hlt|]. rewrite Hpre. reflexivity.
      * intros (Hans & Hlt & Hpre). destruct (is_foundation n) eqn:Hf;
          [|reflexivity].
        destruct (Hreason Hf) as [H|[H|H]];
          [contradiction | lia | congruence].
    + intros Hf. apply (Hinner Hf).
  - unfold explore in *. rewrite explore_async_heal. exact Hrun.
Qed.

End Run.

Section Calls.
Variable svc : Service.
Variable max_depth : Z.
Variable rank : string -> nat.
Hypothesis Hacyclic : acyclic svc rank.

Lemma memo_grows_refl (st : run_state) : memo_grows st st.
Proof. intros k Hk. exact Hk. Qed.

Lemma memo_grows_trans (st1 st2 st3 : run_state) :
  memo_grows st1 st2 -> memo_grows st2 st3 -> memo_grows st1 st3.
Proof. intros H12 H23 k Hk. apply H23, H12, Hk. Qed.

Lemma memo_grows_None (st st' : run_state) (k : string) :
  memo_grows st st' -> memo st' !! k = None -> memo st !! k = None.
Proof.
  intros Hg Hnone. destruct (memo st !! k) as [n|] eqn:E; [|reflexivity].
  destruct (Hg k) as [n' Hn']; [rewrite E; eexists; reflexivity|].
  rewrite Hnone in Hn'. discriminate.
Qed.

Lemma remember_lookup (node : KnowledgeNode) (st : run_state) (k : string) :
  is_Some (memo st !! k) \/ k = concept node ->
  is_Some (memo (snd (remember node st)) !! k).
Proof.
  intros H. cbn [remember snd memo].
  destruct (decide (concept node = k)) as [E|E].
  - subst k. rewrite lookup_insert_eq. eexists; reflexivity.
  - rewrite lookup_insert_ne by exact E. destruct H as [H|H]; [exact H|].
    congruence.
Qed.

Lemma explore_each_issued
    (explore_one : string -> run_state -> option (KnowledgeNode * run_state))
    (ps : list string) :
  (forall p st t st',
      In p ps -> explore_one p st = Some (t, st') ->
      memo_grows st st'
      /\ exists new, issued (fun x => (rank x <= rank p)%nat) st st' new) ->
  forall st ts st',
    explore_each explore_one ps st = Some (ts, st') ->
    memo_grows st st'
    /\ exists new,
        issued (fun x => exists p, In p ps /\ (rank x <= rank p)%nat)
          st st' new.
Proof.
  induction ps as [|p ps IH]; intros Hone st ts st' Hrun;
    cbn [explore_each] in Hrun.
  - injection Hrun as <- <-. split; [apply memo_grows_refl|].
    exists []. split; [symmetry; apply app_nil_r|].
    split; [constructor|]. intros r [].
  - destruct (explore_one p st) as [[t st1]|] eqn:E1; [|discriminate].
    destruct (explore_each explore_one ps st1) as [[ts' st2]|] eqn:E2;
      [|discriminate].
    injection Hrun as <- <-.
    destruct (Hone p st t st1 (or_introl eq_refl) E1)
      as (Hg1 & new1 & Hc1 & Hnd1 & Hr1).
    destruct (IH (fun q s u s' Hq => Hone q s u s' (or_intror Hq)) st1 ts' st2 E2)
      as (Hg2 & new2 & Hc2 & Hnd2 & Hr2).
    split; [eapply memo_grows_trans; eassumption|].
    exists (new1 ++ new2)%list. split; [|split].
    + rewrite Hc2, Hc1, app_assoc. reflexivity.
    + apply NoDup_app. split; [exact Hnd1|]. split; [|exact Hnd2].
      intros r Hin1 Hin2.
      apply list_elem_of_In in Hin1. apply list_elem_of_In in Hin2.
      destruct (Hr1 r Hin1) as (_ & _ & [n Hsome]).
      destruct (Hr2 r Hin2) as (_ & Hnone & _). congruence.
    + intros r Hin. apply in_app_or in Hin as [Hin|Hin].
      * destruct (Hr1 r Hin) as (Hrank & Hnone & Hsome).
        split; [exists p; split; [left; reflexivity | exact Hrank]|].
        split; [exact Hnone | apply Hg2; exact Hsome].
      * destruct (Hr2 r Hin) as ((q & Hq & Hrank) & Hnone & Hsome).
        split; [exists q; split; [right; exact Hq | exact Hrank]|].
        split; [eapply memo_grows_None; eassumption | exact Hsome].
Qed.

Lemma issued_own (c : string) (st st' : run_state) (new : list request) :
  memo st !! c = None ->
  is_Some (memo st' !! c) ->
  calls st' = (calls st ++ new)%list ->
  NoDup new ->
  (forall r, In r new -> subject r = c) ->
  issued (fun x => (rank x <= rank c)%nat) st st' new.
Proof.
  intros Hnone Hsome Hcalls Hnd Hsubj. split; [exact Hcalls|].
  split; [exact Hnd|]. intros r Hr. rewrite (Hsubj r Hr).
  split; [lia|]. split; assumption.
Qed.

Lemma explore_async_issued (gas : nat) :
  forall c d st t st',
    explore_async gas svc max_depth c d st = Some (t, st') ->
    memo_grows st st'
    /\ exists new, issued (fun x => (rank x <= rank c)%nat) st st' new.
Proof.
  induction gas as [|gas IH]; intros c d st t st' Hrun; [discriminate|].
  cbn [explore_async] in Hrun.
  destruct (memo st !! c) as [node|] eqn:Hmemo.
  { injection Hrun as <- <-. split; [apply memo_grows_refl|].
    exists []. split; [symmetry; apply app_nil_r|].
    split; [constructor|]. intros r []. }
  assert (Hleaf1 :
            Some (remember (foundation c d) (record_call (FoundationCheck c) st))
            = Some (t, st') ->
            memo_grows st st'
            /\ exists new, issued (fun x => (rank x <= rank c)%nat) st st' new).
  { intros E. injection E as <- <-. split.
    - intros k Hk. apply remember_lookup. left. exact Hk.
    - exists [FoundationCheck c]. apply issued_own.
      + exact Hmemo.
      + apply remember_lookup. right. reflexivity.
      + reflexivity.
      + repeat constructor. intros H. apply elem_of_nil in H. exact H.
      + intros r [<-|[]]. reflexivity. }
  assert (Hleaf2 :
            Some (remember (foundation c d)
                    (record_call (PrerequisiteList c)
                       (record_call (FoundationCheck c) st)))
            = Some (t, st') ->
            memo_grows st st'
            /\ exists new, issued (fun x => (rank x <= rank c)%nat) st st' new).
  { intros E. injection E as <- <-. split.
    - intros k Hk. apply remember_lookup. left. exact Hk.
    - exists [FoundationCheck c; PrerequisiteList c]. apply issued_own.
      + exact Hmemo.
      + apply remember_lookup. right. reflexivity.
      + cbn [remember snd record_call calls]. rewrite <- app_assoc. reflexivity.
      + apply NoDup_cons. split.
        * intros H. apply list_elem_of_In in H. destruct H as [H|[]].
          discriminate H.
        * apply NoDup_cons. split; [|constructor].
          intros H. apply elem_of_nil in H. exact H.
      + intros r [<-|[<-|[]]]; reflexivity. }
  destruct (ask_foundation svc c) as [[|]| |] eqn:Hfound;
    try (apply Hleaf1; exact Hrun).
  destruct (d =? max_depth); [apply Hleaf1; exact Hrun|].
  destruct (ask_prerequisites svc c) as [ps| |] eqn:Hpre;
    try (apply Hleaf2; exact Hrun).
  clear Hleaf1 Hleaf2.
  set (st2 := record_call (PrerequisiteList c)
                (record_call (FoundationCheck c) st)) in *.
  destruct (explore_each
              (fun p => explore_async gas svc max_depth p (d + 1)) ps st2)
    as [[ts st3]|] eqn:Heach; [|discriminate].
  injection Hrun as <- <-.
  destruct (explore_each_issued
              (fun p => explore_async gas svc max_depth p (d + 1)) ps)
    with (st := st2) (ts := ts) (st' := st3)
    as (Hg & new & Hcalls & Hnd & Hnew).
  { intros p s u s' _ Hp. exact (IH p (d + 1) s u s' Hp). }
  { exact Heach. }
  assert (Hother : forall r, In r new -> subject r <> c).
  { intros r Hr. destruct (Hnew r Hr) as ((p & Hp & Hrank) & _ & _).
    pose proof (Hacyclic c ps p Hpre Hp). intros E. rewrite E in Hrank. lia. }
  split.
  - intros k Hk. apply remember_lookup. left. apply Hg. exact Hk.
  - exists (FoundationCheck c :: PrerequisiteList c :: new). split; [|split].
    + cbn [remember snd calls]. rewrite Hcalls. cbn [st2 record_call calls].
      rewrite <- !app_assoc. reflexivity.
    + apply NoDup_cons. split.
      * intros H. apply list_elem_of_In in H. destruct H as [H|H];
          [discriminate H|]. apply (Hother _ H). reflexivity.
      * apply NoDup_cons. split; [|exact Hnd].
        intros H. apply list_elem_of_In in H. apply (Hother _ H). reflexivity.
    + intros r [<-|[<-|Hr]].
      * split; [cbn [subject]; lia|]. split; [exact Hmemo|].
        apply remember_lookup. right. reflexivity.
      * split; [cbn [subject]; lia|]. split; [exact Hmemo|].
        apply remember_lookup. right. reflexivity.
      * destruct (Hnew r Hr) as ((p & Hp & Hrank) & Hnone & Hsome).
        pose proof (Hacyclic c ps p Hpre Hp).
        split; [lia|]. split; [exact Hnone|].
        apply remember_lookup. left. exact Hsome.
Qed.

(** In a run over acyclic answers no request is issued twice. *)
Lemma explore_calls_NoDup (root : string) (t : KnowledgeNode) (st : run_state) :
  explore svc max_depth root = Some (t, st) -> NoDup (calls st).
Proof.
  intros Hrun. unfold explore in Hrun.
  destruct (explore_async_issued _ _ _ _ _ _ Hrun) as (_ & new & Hcalls & Hnd & _).
  rewrite Hcalls. exact Hnd.
Qed.

End Calls.

(** ** Requests per concept *)

(** How often a concept is asked about depends on when a node enters the
    memo. The model enters it when it has been built ("its already-built
    node"); spec 9 leaves open what the Explorer does when a concept is
    reached again while it is still being built, so of C3 only the acyclic
    case is determined. The two facts below hold of the model: a run over cyclic answers asks
    about ["X"] twice, and a run over acyclic answers asks about no concept
    twice. *)
Example cyclic_run_asks_twice :
  exists t st,
    explore Samples.cyclic_service 1 "X" = Some (t, st)
    /\ occurrences "X" t = 2%nat
    /\ times_asked (FoundationCheck "X") (calls st) = 2%nat.
Proof.
  eexists _, _. split; [vm_compute; reflexivity|].
  split; vm_compute; reflexivity.
Qed.

(** For every run over a service whose prerequisite answers contain no
    cycle, and every concept that occurs in the resulting tree, once or more
    than once, exactly one foundational check and at most one prerequisite
    listing are issued for that concept. *)
Lemma one_request_per_concept
    (svc : Service) (max_depth : Z) (rank : string -> nat) (root : string) :
  0 <= max_depth ->
  acyclic svc rank ->
  exists t st,
    explore svc max_depth root = Some (t, st)
    /\ forall c,
         (1 <= occurrences c t)%nat ->
         times_asked (FoundationCheck c) (calls st) = 1%nat
         /\ (times_asked (PrerequisiteList c) (calls st) <= 1)%nat.
Proof.
  intros Hmd Hacyclic.
  destruct (explore_ok svc max_depth root Hmd) as (t & st & Hrun & _ & Ht).
  exists t, st. split; [exact Hrun|]. intros c Hocc.
  pose proof (explore_calls_NoDup svc max_depth rank Hacyclic root t st Hrun)
    as Hnd.
  apply NoDup_ListNoDup in Hnd.
  pose proof (proj1 (List.NoDup_count_occ request_eq_dec (calls st)) Hnd)
    as Hcount.
  unfold times_asked. split; [|apply Hcount].
  apply Nat.le_antisymm; [apply Hcount|].
  apply (count_occ_In request_eq_dec).
  unfold occurrences in Hocc.
  apply (count_occ_In string_dec) in Hocc.
  apply in_map_iff in Hocc as (n & <- & Hn).
  unfold tree_ok in Ht. rewrite Forall_forall in Ht.
  apply list_elem_of_In in Hn. apply (Ht n Hn).
Qed.

Lemma reload_foundation_is_leaf (t : KnowledgeNode) :
  Forall foundation_is_leaf (nodes t) ->
  Forall foundation_is_leaf (nodes (reload t)).
Proof.
  induction t as [c d f ps eqs defs vis nar IH]
    using TreeFacts.KnowledgeNode_forall_ind.
  intros H. cbn [nodes prerequisites reload] in *.
  apply Forall_cons_iff in H as [Hn Hps]. constructor.
  - unfold foundation_is_leaf in *. cbn [is_foundation prerequisites] in *.
    intros Hf. rewrite (Hn Hf). reflexivity.
  - clear Hn. induction IH as [|p ps Hp _ IHps]; [constructor|].
    cbn [flat_map map] in *. apply Forall_app in Hps as [Hp1 Hp2].
    apply Forall_app. split; [apply Hp; exact Hp1 | apply IHps; exact Hp2].
Qed.

(** ** C7: foundational nodes are leaves *)

(** C7: in the tree that a run returns every foundational node has no
    prerequisites; and reading back the serialisation of any tree with that
    property, through [_serialize_tree] or through [to_dict], gives a tree
    with that property again. *)
Theorem foundational_nodes_are_leaves
    (svc : Service) (max_depth : Z) (root : string) :
  0 <= max_depth ->
  (exists t st,
      explore svc max_depth root = Some (t, st)
      /\ Forall foundation_is_leaf (nodes t))
  /\ (forall t depth_arg,
        Forall foundation_is_leaf (nodes t) ->
        exists t',
          _dict_to_node (VDict (_serialize_tree t depth_arg)) = Ok t'
          /\ Forall foundation_is_leaf (nodes t'))
  /\ (forall t,
        Forall foundation_is_leaf (nodes t) ->
        exists t',
          _dict_to_node (VDict (to_dict t)) = Ok t'
          /\ Forall foundation_is_leaf (nodes t')).
Proof.
  intros Hmd. split; [|split].
  - destruct (explore_ok svc max_depth root Hmd) as (t & st & Hrun & _ & Ht).
    exists t, st. split; [exact Hrun|].
    eapply Forall_impl; [exact Ht|].
    intros n [(_ & Hleaf & _) _]. exact Hleaf.
  - intros t depth_arg Ht. exists (reload t).
    split; [apply TreeFacts._dict_to_node_serialize_reload|].
    apply reload_foundation_is_leaf. exact Ht.
  - intros t Ht. exists t.
    split; [apply TreeFacts._dict_to_node_to_dict | exact Ht].
Qed.

(** ** The runs of the examples *)

Lemma shared_service_acyclic : acyclic Samples.shared_service Samples.shared_rank.
Proof.
  intros c ps p Hps Hin. unfold Samples.shared_rank.
  cbn [Samples.shared_service ask_prerequisites] in Hps.
  destruct (String.eqb c "X").
  { injection Hps as <-. destruct Hin as [<-|[<-|[]]]; cbv; lia. }
  destruct (String.eqb c "B").
  { injection Hps as <-. destruct Hin as [<-|[]]. cbv. lia. }
  injection Hps as <-. destruct Hin.
Defined.

(** The first scenario of the spec: depth bound 1, ["X"] with the
    prerequisites ["A"] and ["B"]; ["B"] sits at the bound and is a leaf. *)
Example explore_shared_bound_1 :
  fst <$> explore Samples.shared_service 1 "X"
  = Some (Samples.bare "X" 0 false
            [Samples.bare "A" 1 true []; Samples.bare "B" 1 true []]).
Proof. vm_compute. reflexivity. Qed.

Example serialize_shared_bound_1 :
  _serialize_tree
    (Samples.bare "X" 0 false
       [Samples.bare "A" 1 true []; Samples.bare "B" 1 true []]) 0
  = [ ("concept", VStr "X"); ("depth", VInt 0); ("is_foundation", VBool false);
      ("prerequisites",
        VList
          [ VDict [ ("concept", VStr "A"); ("depth", VInt 1);
                    ("is_foundation", VBool true); ("prerequisites", VList []) ];
            VDict [ ("concept", VStr "B"); ("depth", VInt 1);
                    ("is_foundation", VBool true); ("prerequisites", VList []) ] ]) ].
Proof. vm_compute. reflexivity. Qed.

(** The second scenario: ["A"] is reached from ["X"] and again from ["B"];
    the log holds one foundational check for it. *)
Example explore_shared_calls :
  (fun r => calls (snd r)) <$> explore Samples.shared_service 3 "X"
  = Some [ FoundationCheck "X"; PrerequisiteList "X"; FoundationCheck "A";
           FoundationCheck "B"; PrerequisiteList "B" ].
Proof. vm_compute. reflexivity. Qed.

Lemma explored_depth_bound_witness :
  0 <= 1
  /\ exists t st,
      explore Samples.shared_service 1 "X" = Some (t, st)
      /\ Forall (fun n =>
                   depth n <= 1
                   /\ (depth n = 1 ->
                       is_foundation n = true /\ prerequisites n = []))
           (nodes t).
Proof.
  assert (H : 0 <= 1) by lia.
  split; [exact H|].
  exact (explored_depth_bound Samples.shared_service 1 "X" H).
Defined.

Lemma one_request_per_concept_witness :
  0 <= 3
  /\ acyclic Samples.shared_service Samples.shared_rank
  /\ exists t st,
      explore Samples.shared_service 3 "X" = Some (t, st)
      /\ forall c,
           (1 <= occurrences c t)%nat ->
           times_asked (FoundationCheck c) (calls st) = 1%nat
           /\ (times_asked (PrerequisiteList c) (calls st) <= 1)%nat.
Proof.
  assert (H : 0 <= 3) by lia.
  split; [exact H|]. split; [exact shared_service_acyclic|].
  exact (one_request_per_concept Samples.shared_service 3 Samples.shared_rank
           "X" H shared_service_acyclic).
Defined.

Lemma failed_check_gives_foundation_witness :
  0 <= 2
  /\ exists t st,
      explore Samples.faulty_service 2 "X" = Some (t, st)
      /\ concept t = "X"
      /\ Forall (fun n =>
                   (failed (ask_foundation Samples.faulty_service (concept n))
                    = true ->
                    is_foundation n = true /\ prerequisites n = [])
                   /\ (is_foundation n = false <->
                       ask_foundation Samples.faulty_service (concept n)
                       = Answer false
                       /\ depth n < 2
                       /\ failed (ask_prerequisites Samples.faulty_service
                                    (concept n)) = false)
                   /\ (is_foundation n = false ->
                       ask_prerequisites Samples.faulty_service (concept n)
                       = Answer (map concept (prerequisites n))))
           (nodes t)
      /\ explore (heal Samples.faulty_service) 2 "X" = Some (t, st).
Proof.
  assert (H : 0 <= 2) by lia.
  split; [exact H|].
  exact (failed_check_gives_foundation Samples.faulty_service 2 "X" H).
Defined.

(** The run with the faulty service: ["A"] raised, ["B"] was garbage,
    ["C"] was explored all the same. *)
Example explore_faulty :
  fst <$> explore Samples.faulty_service 2 "X"
  = Some (Samples.bare "X" 0 false
            [ Samples.bare "A" 1 true [];
              Samples.bare "B" 1 true [];
              Samples.bare "C" 1 false [Samples.bare "D" 2 true []] ]).
Proof. vm_compute. reflexivity. Qed.

Lemma foundational_nodes_are_leaves_witness :
  0 <= 3
  /\ (exists t st,
         explore Samples.shared_service 3 "X" = Some (t, st)
         /\ Forall foundation_is_leaf (nodes t))
  /\ (Forall foundation_is_leaf (nodes Samples.enriched_tree) ->
      exists t',
        _dict_to_node (VDict (_serialize_tree Samples.enriched_tree 0)) = Ok t'
        /\ Forall foundation_is_leaf (nodes t'))
  /\ Forall foundation_is_leaf (nodes Samples.enriched_tree).
Proof.
  assert (H : 0 <= 3) by lia.
  pose proof (foundational_nodes_are_leaves Samples.shared_service 3 "X" H)
    as (Hrun & Hser & _).
  split; [exact H|]. split; [exact Hrun|].
  split; [exact (Hser Samples.enriched_tree 0)|].
  repeat constructor; intros Hf; try reflexivity; discriminate Hf.
Defined.

End ExplorerFacts.

(* ===================================================================== *)
(** * Facts about the visual stage                                        *)
(* ===================================================================== *)

Module VisualFacts.
Import Visual.

Section Designer.
Context {VisualSpec Response : Type}.
Variable from_payload : string -> list (string * value) -> VisualSpec.
Variable spec_to_dict : VisualSpec -> list (string * value).
Variable chat_completion :
  KnowledgeNode -> option VisualSpec -> result Response.
Variable _extract_tool_payload : Response -> option (list (string * value)).
Variable get_text_content : Response -> string.
Variable _parse_json_fallback : string -> option (list (string * value)).

#[local] Abbreviation design :=
  (three_d_design_node from_payload spec_to_dict chat_completion
     _extract_tool_payload get_text_content _parse_json_fallback).
#[local] Abbreviation payload :=
  (payload_of _extract_tool_payload get_text_content _parse_json_fallback).
Lemma update_visual_spec_dict (vis : value) (other : list (string * value)) :
  none_or_dict vis = true ->
  exists d, update_visual_spec vis other = Ok (VDict d).
Proof.
  destruct vis; cbn [none_or_dict update_visual_spec]; intros H;
    try discriminate H; eexists; reflexivity.
Qed.

(** A call that raises is not handled in [three_d_design_node]: on a cache
    miss the exception leaves the function. *)
Lemma design_raises (cache : gmap string VisualSpec) (node : KnowledgeNode)
    (parent_spec : option VisualSpec) (e : exn) :
  cache !! concept node = None ->
  chat_completion node parent_spec = Raise e ->
  design cache node parent_spec = Raise e.
Proof.
  destruct node as [c d f ps eqs defs vis nar]. cbn [concept].
  intros Hmiss Hraise. cbn [three_d_design_node].
  rewrite Hmiss, Hraise. reflexivity.
Qed.

(** Whatever the service answered and whatever the missing helpers do: a
    node that the stage has processed holds a mapping in [visual_spec]. *)
Lemma design_sets_a_dict (cache : gmap string VisualSpec) (node : KnowledgeNode)
    (parent_spec : option VisualSpec) (spec : VisualSpec)
    (node' : KnowledgeNode) (cache' : gmap string VisualSpec) :
  design cache node parent_spec = Ok (spec, node', cache') ->
  is_dict (visual_spec node') = true.
Proof.
  destruct node as [c d f ps eqs defs vis nar]. cbn [three_d_design_node].
  assert (Hupd : forall other v,
             update_visual_spec vis other = Ok v -> is_dict v = true).
  { intros other v. destruct vis; cbn [update_visual_spec]; intros H;
      try discriminate H; injection H as <-; reflexivity. }
  destruct (cache !! c) as [cached_spec|].
  - destruct (update_visual_spec vis (spec_to_dict cached_spec)) as [v|e] eqn:Hv;
      cbn [bind]; [|discriminate].
    match goal with
    | |- context [design_each ?g ps ?k] =>
        destruct (design_each g ps k) as [rs|e]
    end; cbn [bind]; [|discriminate].
    intros H. injection H as _ <- _. cbn [visual_spec]. eapply Hupd, Hv.
  - destruct (chat_completion _ parent_spec) as [response|e];
      cbn [bind]; [|discriminate].
    destruct (sliced "visual_description" (payload response));
      cbn [bind]; [|discriminate].
    destruct (sliced "animation_description" (payload response));
      cbn [bind]; [|discriminate].
    destruct (update_visual_spec vis _) as [v|e] eqn:Hv;
      cbn [bind]; [|discriminate].
    match goal with
    | |- context [design_each ?g ps ?k] =>
        destruct (design_each g ps k) as [rs|e]
    end; cbn [bind]; [|discriminate].
    intros H. injection H as _ <- _. cbn [visual_spec]. eapply Hupd, Hv.
Qed.

(** The stage changes no field but [visual_spec], and leaves every
    prerequisite where it was. *)
Lemma design_each_keeps_shape (ps : list KnowledgeNode) (spec : VisualSpec) :
  Forall (fun p =>
            forall cache parent_spec s p' cache',
              design cache p parent_spec = Ok (s, p', cache') ->
              strip_visual p' = strip_visual p) ps ->
  forall cache ps' cache',
    design_each
      (fun cache prereq =>
         r <- design cache prereq (Some spec) ;; Ok (snd (fst r), snd r))
      ps cache
    = Ok (ps', cache') ->
    map strip_visual ps' = map strip_visual ps.
Proof.
  induction 1 as [|p ps Hp _ IH]; intros cache ps' cache' Hrun;
    cbn [design_each] in Hrun.
  - injection Hrun as <- <-. reflexivity.
  - destruct (design cache p (Some spec)) as [[[s p'] cache1]|e] eqn:Hp';
      cbn [bind fst snd] in Hrun; [|discriminate].
    destruct (design_each _ ps cache1) as [[rest cache2]|e] eqn:Hrest;
      cbn [bind fst snd] in Hrun; [|discriminate].
    injection Hrun as <- <-. cbn [map].
    rewrite (Hp cache (Some spec) s p' cache1 Hp'), (IH cache1 rest cache2 Hrest).
    reflexivity.
Qed.

Lemma design_keeps_shape (t : KnowledgeNode) :
  forall cache parent_spec spec t' cache',
    design cache t parent_spec = Ok (spec, t', cache') ->
    strip_visual t' = strip_visual t.
Proof.
  induction t as [c d f ps eqs defs vis nar IH]
    using TreeFacts.KnowledgeNode_forall_ind.
  intros cache parent_spec spec t' cache'. cbn [three_d_design_node].
  assert (Hstep : forall spec0 cache0 vis',
             (rs <- design_each
                      (fun cache prereq =>
                         r <- design cache prereq (Some spec0) ;;
                         Ok (snd (fst r), snd r))
                      ps cache0 ;;
              Ok (spec0, mkNode c d f (fst rs) eqs defs vis' nar, snd rs))
             = Ok (spec, t', cache') ->
             strip_visual t' = strip_visual (mkNode c d f ps eqs defs vis nar)).
  { intros spec0 cache0 vis' Hrun.
    destruct (design_each _ ps cache0) as [[ps' cache1]|e] eqn:Heach;
      cbn [bind fst snd] in Hrun; [|discriminate].
    injection Hrun as <- <- <-. cbn [strip_visual].
    rewrite (design_each_keeps_shape ps spec0 IH cache0 ps' cache1 Heach).
    reflexivity. }
  destruct (cache !! c) as [cached_spec|].
  - destruct (update_visual_spec vis (spec_to_dict cached_spec)) as [vis'|e];
      cbn [bind]; [|discriminate].
    apply Hstep.
  - destruct (chat_completion _ parent_spec) as [response|e];
      cbn [bind]; [|discriminate].
    destruct (sliced "visual_description" _); cbn [bind]; [|discriminate].
    destruct (sliced "animation_description" _); cbn [bind]; [|discriminate].
    destruct (update_visual_spec vis _) as [vis'|e]; cbn [bind]; [|discriminate].
    apply Hstep.
Qed.

(** One call on a cache miss, answered with a response from which no
    payload can be taken: the field of the node is set to the mapping of
    the spec built from the empty payload, that spec goes into the cache,
    and the stage goes on with the prerequisites of the node. *)
Lemma design_empty_response (cache : gmap string VisualSpec)
    (node : KnowledgeNode) (parent_spec : option VisualSpec)
    (response : Response) :
  cache !! concept node = None ->
  chat_completion node parent_spec = Ok response ->
  payload response = [] ->
  design cache node parent_spec
  = (vis' <- default_visual_spec from_payload spec_to_dict (concept node)
               (visual_spec node) ;;
     rs <- design_each
             (fun cache prereq =>
                r <- design cache prereq
                       (Some (from_payload (concept node) [])) ;;
                Ok (snd (fst r), snd r))
             (prerequisites node)
             (<[concept node := from_payload (concept node) []]> cache) ;;
     Ok (from_payload (concept node) [],
         mkNode (concept node) (depth node) (is_foundation node) (fst rs)
           (equations node) (definitions node) vis' (narrative node),
         snd rs)).
Proof.
  destruct node as [c d f ps eqs defs vis nar].
  cbn [concept depth is_foundation prerequisites equations definitions
         visual_spec narrative three_d_design_node].
  intros Hmiss Hchat Hpayload. rewrite Hmiss, Hchat. cbn [bind].
  rewrite Hpayload. cbn [sliced dict_get bind]. reflexivity.
Qed.

#[local] Abbreviation no_payload_for :=
  (empty_for chat_completion _extract_tool_payload get_text_content
     _parse_json_fallback).
#[local] Abbreviation cache_ok :=
  (defaults_where_empty from_payload chat_completion _extract_tool_payload
     get_text_content _parse_json_fallback).
#[local] Abbreviation designed_node :=
  (designed from_payload spec_to_dict chat_completion _extract_tool_payload
     get_text_content _parse_json_fallback).

(** The outcome of the stage on a tree [t] when the service answers every
    request, as the induction carries it. *)
#[local] Abbreviation answered cache t parent_spec :=
  (exists spec t' cache',
      design cache t parent_spec = Ok (spec, t', cache')
      /\ cache_ok cache'
      /\ Forall2 designed_node (nodes t) (nodes t')).

Lemma design_each_answered (ps : list KnowledgeNode) (spec : VisualSpec) :
  Forall (fun p =>
            forall cache parent_spec,
              cache_ok cache ->
              Forall (fun n => none_or_dict (visual_spec n) = true) (nodes p) ->
              answered cache p parent_spec) ps ->
  forall cache,
    cache_ok cache ->
    Forall (fun n => none_or_dict (visual_spec n) = true) (flat_map nodes ps) ->
    exists ps' cache',
      design_each
        (fun cache prereq =>
           r <- design cache prereq (Some spec) ;; Ok (snd (fst r), snd r))
        ps cache
      = Ok (ps', cache')
      /\ cache_ok cache'
      /\ Forall2 designed_node (flat_map nodes ps) (flat_map nodes ps').
Proof.
  induction 1 as [|p ps Hp _ IH]; intros cache Hcache Hvis;
    cbn [design_each flat_map] in *.
  - exists [], cache. split; [reflexivity|]. split; [exact Hcache|constructor].
  - apply Forall_app in Hvis as [Hvis1 Hvis2].
    destruct (Hp cache (Some spec) Hcache Hvis1)
      as (spec1 & p' & cache1 & -> & Hcache1 & Hp').
    cbn [bind fst snd].
    destruct (IH cache1 Hcache1 Hvis2) as (ps' & cache2 & -> & Hcache2 & Hps').
    cbn [bind fst snd]. exists (p' :: ps'), cache2.
    split; [reflexivity|]. split; [exact Hcache2|].
    cbn [flat_map]. apply Forall2_app; assumption.
Qed.

Lemma design_answered (t : KnowledgeNode) :
  answers_all chat_completion _extract_tool_payload get_text_content
    _parse_json_fallback ->
  forall cache parent_spec,
    cache_ok cache ->
    Forall (fun n => none_or_dict (visual_spec n) = true) (nodes t) ->
    answered cache t parent_spec.
Proof.
  intros Hanswers.
  induction t as [c d f ps eqs defs vis nar IH]
    using TreeFacts.KnowledgeNode_forall_ind.
  intros cache parent_spec Hcache Hvis.
  cbn [nodes prerequisites] in Hvis.
  apply Forall_cons_iff in Hvis as [Hv Hvis]. cbn [visual_spec] in Hv.
  assert (Hstep : forall spec0 cache0,
             (no_payload_for c -> spec0 = from_payload c []) ->
             cache_ok cache0 ->
             exists vd ps' cache',
               update_visual_spec vis (spec_to_dict spec0) = Ok (VDict vd)
               /\ (rs <- design_each
                           (fun cache prereq =>
                              r <- design cache prereq (Some spec0) ;;
                              Ok (snd (fst r), snd r))
                           ps cache0 ;;
                   Ok (spec0, mkNode c d f (fst rs) eqs defs (VDict vd) nar,
                       snd rs))
                  = Ok (spec0, mkNode c d f ps' eqs defs (VDict vd) nar, cache')
               /\ cache_ok cache'
               /\ Forall2 designed_node
                    (nodes (mkNode c d f ps eqs defs vis nar))
                    (nodes (mkNode c d f ps' eqs defs (VDict vd) nar))).
  { intros spec0 cache0 Hspec0 Hcache0.
    destruct (update_visual_spec_dict vis (spec_to_dict spec0) Hv) as [vd Hvd].
    destruct (design_each_answered ps spec0 IH cache0 Hcache0 Hvis)
      as (ps' & cache' & -> & Hcache' & Hps').
    exists vd, ps', cache'. split; [exact Hvd|]. split; [reflexivity|].
    split; [exact Hcache'|].
    cbn [nodes prerequisites]. constructor; [|exact Hps'].
    unfold designed, default_visual_spec. cbn [concept visual_spec].
    split; [reflexivity|]. intros Hempty. rewrite <- (Hspec0 Hempty).
    exact Hvd. }
  cbn [three_d_design_node].
  destruct (cache !! c) as [cached_spec|] eqn:Hlookup.
  - destruct (Hstep cached_spec cache (Hcache c cached_spec Hlookup) Hcache)
      as (vd & ps' & cache' & Hvd & Hrun & Hcache' & Hnodes).
    rewrite Hvd. cbn [bind].
    eexists _, _, _. split; [exact Hrun|]. split; assumption.
  - destruct (Hanswers (mkNode c d f ps eqs defs vis nar) parent_spec)
      as (response & Hchat & Hs1 & Hs2).
    rewrite Hchat. cbn [bind]. rewrite Hs1, Hs2. cbn [bind].
    assert (Hspec : no_payload_for c ->
                    from_payload c (payload response) = from_payload c []).
    { intros Hempty.
      destruct (Hempty (mkNode c d f ps eqs defs vis nar) parent_spec eq_refl)
        as (response' & Hchat' & Hpayload).
      rewrite Hchat in Hchat'. injection Hchat' as <-. rewrite Hpayload.
      reflexivity. }
    destruct (Hstep (from_payload c (payload response))
                (<[c := from_payload c (payload response)]> cache) Hspec)
      as (vd & ps' & cache' & Hvd & Hrun & Hcache' & Hnodes).
    { intros k spec Hk Hempty. destruct (decide (c = k)) as [E|E].
      - subst k. rewrite lookup_insert_eq in Hk. injection Hk as <-.
        apply Hspec. exact Hempty.
      - rewrite lookup_insert_ne in Hk by exact E.
        exact (Hcache k spec Hk Hempty). }
    rewrite Hvd. cbn [bind].
    eexists _, _, _. split; [exact Hrun|]. split; assumption.
Qed.

(** ** C6: an empty or unparseable response in the visual stage *)


End Designer.


(** The run of the mixed service on ["A"] with the prerequisites ["B"]
    and ["A"]: ["A"], answered with prose, gets the default spec, also
    where it comes from the cache; ["B"] gets the spec the service
    designed. *)
Example design_with_mixed_service :
  exists spec cache',
    Visual.three_d_design_node Samples.spec_from_payload (fun s => s)
      Samples.mixed_service Samples.tool_payload Samples.text Samples.no_json
      ∅ (Samples.bare "A" 0 false
           [Samples.bare "B" 1 true []; Samples.bare "A" 1 true []])
      None
    = Ok (spec,
          mkNode "A" 0 false
            [ mkNode "B" 1 true [] VNone VNone
                (VDict (Samples.spec_from_payload "B"
                          [ ("visual_description", VStr "a translucent torus");
                            ("duration", VInt 12) ])) VNone;
              mkNode "A" 1 true [] VNone VNone
                (VDict (Samples.spec_from_payload "A" [])) VNone ]
            VNone VNone
            (VDict (Samples.spec_from_payload "A" [])) VNone,
          cache').
Proof. eexists _, _. vm_compute. reflexivity. Qed.

Lemma mixed_service_answers_all :
  answers_all Samples.mixed_service Samples.tool_payload Samples.text
    Samples.no_json.
Proof.
  intros node parent_spec. unfold Samples.mixed_service.
  destruct (String.eqb (concept node) "A"); eexists;
    (split; [reflexivity|]); split; reflexivity.
Defined.

(** Nothing can be taken from what the mixed service says about ["A"]. *)
Example mixed_service_empty_for_A :
  empty_for Samples.mixed_service Samples.tool_payload Samples.text
    Samples.no_json "A".
Proof.
  intros node parent_spec Hc. unfold Samples.mixed_service. rewrite Hc.
  eexists. split; reflexivity.
Qed.


End VisualFacts.

(* ===================================================================== *)
(** * Facts about the pipeline script                                     *)
(* ===================================================================== *)

Module PipelineFacts.
Import Pipeline.

Lemma exit_code_Raise (e : exn) : exit_code (Raise e) = 1.
Proof. destruct e; reflexivity. Qed.

Lemma append_cancel_l (s a b : string) : s ++ a = s ++ b -> a = b.
Proof.
  induction s as [|c s IH]; cbn [String.append]; intros H; [exact H|].
  injection H as H. apply IH. exact H.
Qed.

Lemma tree_file_ne_narrative_file (topic : string) :
  tree_file topic <> narrative_file topic.
Proof.
  unfold tree_file, narrative_file. intros H. injection H as H.
  apply append_cancel_l in H. discriminate H.
Qed.

(** Unfold the script down to the outcomes of the collaborators. *)
Ltac unfold_script :=
  unfold script, run_pipeline, run_async, io_bind, call, effect, lift, ret;
  cbn [app].

(** Every run, complete or not, goes through the steps in the one order. *)
Lemma run_pipeline_prefix (w : World) (topic : string) :
  exists rest,
    (map kind_of (snd (run_pipeline w topic [])) ++ rest)%list = full_run.
Proof.
  unfold_script. unfold full_run.
  repeat
    match goal with
    | |- context [match ?r with Ok _ => _ | Raise _ => _ end] =>
        destruct r; cbn [app snd map kind_of enriched_tree result_narrative]
    end;
    eexists; reflexivity.
Qed.

(** A run that returned went through every step. *)
Lemma run_pipeline_returned (w : World) (topic : string) :
  fst (run_pipeline w topic []) = Ok tt ->
  exists tree t1 t2 nar tree_json,
    explore_async w topic = Ok tree
    /\ math_stage w tree = Ok t1
    /\ visual_stage w t1 = Ok t2
    /\ narrative_stage w t2 = Ok nar
    /\ mkdir w "output" = Ok tt
    /\ open_w w (tree_file topic) = Ok tt
    /\ json_dump w (Tree.to_dict (store_narrative (verbose_prompt nar) t2))
       = Ok tree_json
    /\ write w (tree_file topic) tree_json = Ok tt
    /\ open_w w (narrative_file topic) = Ok tt
    /\ write w (narrative_file topic) (verbose_prompt nar) = Ok tt.
Proof.
  unfold_script.
  destruct (explore_async w topic) as [tree|e] eqn:Htree; [|discriminate].
  destruct (math_stage w tree) as [t1|e] eqn:Hmath; [|discriminate].
  destruct (visual_stage w t1) as [t2|e] eqn:Hvisual; [|discriminate].
  destruct (narrative_stage w t2) as [nar|e] eqn:Hnar; [|discriminate].
  cbn [enriched_tree result_narrative].
  destruct (mkdir w "output") as [[]|e] eqn:Hmkdir; [|discriminate].
  destruct (open_w w (tree_file topic)) as [[]|e] eqn:Hopen1; [|discriminate].
  destruct (json_dump w _) as [tree_json|e] eqn:Hdump; [|discriminate].
  destruct (write w (tree_file topic) tree_json) as [[]|e] eqn:Hwrite1;
    [|discriminate].
  destruct (open_w w (narrative_file topic)) as [[]|e] eqn:Hopen2;
    [|discriminate].
  destruct (write w (narrative_file topic) _) as [[]|e] eqn:Hwrite2;
    [|discriminate].
  intros _. exists tree, t1, t2, nar, tree_json.
  repeat (split; [first [reflexivity | assumption]|]). exact Hwrite2.
Qed.

(** ** C8: the pipeline script *)


Example main_in_a_kind_world :
  main Samples.kind_world
  = (0,
     [ CallExplorer "pythagorean theorem" 3 true; RunMath; RunVisual;
       RunNarrative; Mkdir "output";
       OpenFile (Join "output" "pythagorean_theorem_enriched.json");
       WriteFile (Join "output" "pythagorean_theorem_enriched.json") "{}";
       OpenFile (Join "output" "pythagorean_theorem_narrative.txt");
       WriteFile (Join "output" "pythagorean_theorem_narrative.txt")
         "Begin with a right triangle." ]).
Proof. vm_compute. reflexivity. Qed.

Example main_interrupted :
  main Samples.interrupted_world
  = (1, [CallExplorer "pythagorean theorem" 3 true; RunMath; RunVisual]).
Proof. vm_compute. reflexivity. Qed.

(** The dump raises: the tree file has been created, nothing is in it, and
    the narrative file is not opened. *)
Example main_unserialisable :
  main Samples.unserialisable_world
  = (1,
     [ CallExplorer "pythagorean theorem" 3 true; RunMath; RunVisual;
       RunNarrative; Mkdir "output";
       OpenFile (Join "output" "pythagorean_theorem_enriched.json") ]).
Proof. vm_compute. reflexivity. Qed.


End PipelineFacts.

(* ===================================================================== *)
(** * More facts about serialisation and loading                          *)
(* ===================================================================== *)

Module LoadingFacts.
Import PyFacts TreeFacts Loading.

(** Induction on a value with the hypothesis for the elements of a list and
    for the entries of a dict. *)
Lemma value_forall_ind (P : value -> Prop) :
  P VNone ->
  (forall b, P (VBool b)) ->
  (forall z, P (VInt z)) ->
  (forall s, P (VStr s)) ->
  (forall xs, Forall P xs -> P (VList xs)) ->
  (forall kvs, Forall (fun kv => P (snd kv)) kvs -> P (VDict kvs)) ->
  forall v, P v.
Proof.
  intros HN HB HI HS HL HD. fix IH 1. intros [| b | z | s | xs | kvs].
  - exact HN.
  - apply HB.
  - apply HI.
  - apply HS.
  - apply HL. induction xs as [|x xs IHxs]; constructor; [apply IH | exact IHxs].
  - apply HD. induction kvs as [|[k v] kvs IHkvs]; constructor;
      [apply IH | exact IHkvs].
Qed.

Lemma dict_get_Forall {V : Type} (P : V -> Prop) (k : string) (v : V)
    (d : list (string * V)) :
  Forall (fun kv => P (snd kv)) d -> dict_get k d = Some v -> P v.
Proof.
  induction 1 as [|[k0 w] rest Hw _ IH]; cbn [dict_get]; [discriminate|].
  destruct (String.eqb k0 k); [intros E; injection E as <-; exact Hw | exact IH].
Qed.

Lemma sequence_map_inv {A B : Type} (f : A -> result B) (xs : list A)
    (ys : list B) :
  sequence (map f xs) = Ok ys -> Forall2 (fun x y => f x = Ok y) xs ys.
Proof.
  revert ys. induction xs as [|x xs IH]; intros ys; cbn [map sequence].
  - intros E. injection E as <-. constructor.
  - destruct (f x) as [y|e] eqn:Hx; cbn [bind]; [|discriminate].
    destruct (sequence (map f xs)) as [ys'|e]; cbn [bind]; [|discriminate].
    intros E. injection E as <-. constructor; [exact Hx | apply IH; reflexivity].
Qed.

Lemma sequence_map_Forall2 {A B C : Type} (f : A -> result C) (g : B -> C)
    (xs : list A) (ps : list B) :
  Forall2 (fun x p => f x = Ok (g p)) xs ps ->
  sequence (map f xs) = Ok (map g ps).
Proof.
  induction 1 as [|x p xs ps Hx _ IH]; cbn [map sequence]; [reflexivity|].
  rewrite Hx, IH. reflexivity.
Qed.

Lemma header_reload (n : KnowledgeNode) : header (reload n) = header n.
Proof.
  destruct n as [c d f ps eqs defs vis nar]. unfold header, reloaded.
  cbn [reload concept depth is_foundation equations definitions visual_spec
         narrative].
  unfold reloaded.
  destruct (truthy eqs) eqn:E1, (truthy defs) eqn:E2, (truthy vis) eqn:E3,
    (truthy nar) eqn:E4;
    rewrite ?E1, ?E2, ?E3, ?E4; reflexivity.
Qed.

Lemma _serialize_tree_reload (t : KnowledgeNode) :
  forall depth_arg depth_arg',
    _serialize_tree (reload t) depth_arg' = _serialize_tree t depth_arg.
Proof.
  induction t as [c d f ps eqs defs vis nar IH] using KnowledgeNode_forall_ind.
  intros depth_arg depth_arg'. rewrite !_serialize_tree_eq.
  rewrite header_reload. cbn [reload prerequisites].
  destruct ps as [|p ps]; [reflexivity|]. cbn [map].
  apply Forall_cons_iff in IH as [Hp Hps]. f_equal. f_equal. f_equal.
  - f_equal. apply Hp.
  - rewrite map_map. apply map_ext_Forall.
    eapply Forall_impl; [exact Hps|]. intros q Hq. cbv beta. f_equal. apply Hq.
Qed.

(** The [depth] parameter of [_serialize_tree] is passed down and never
    read: the document does not depend on it. *)
Theorem _serialize_tree_ignores_depth_argument
    (t : KnowledgeNode) (depth_arg depth_arg' : Z) :
  _serialize_tree t depth_arg = _serialize_tree t depth_arg'.
Proof.
  revert depth_arg depth_arg'.
  induction t as [c d f ps eqs defs vis nar IH] using KnowledgeNode_forall_ind.
  intros depth_arg depth_arg'. rewrite !_serialize_tree_eq.
  cbn [prerequisites]. destruct ps as [|p ps]; [reflexivity|].
  f_equal. f_equal. apply map_ext_Forall.
  eapply Forall_impl; [exact IH|]. intros q Hq. cbv beta. f_equal. apply Hq.
Qed.

(** Writing a tree, loading the document and writing the loaded tree gives
    the first document again: what the first writing drops (falsy
    enrichment values) is all that is ever dropped. *)
Theorem serialize_load_serialize (t : KnowledgeNode) (depth_arg : Z) :
  exists t',
    Tree._dict_to_node (VDict (_serialize_tree t depth_arg)) = Ok t'
    /\ _serialize_tree t' depth_arg = _serialize_tree t depth_arg.
Proof.
  exists (reload t). split; [apply _dict_to_node_serialize_reload|].
  apply _serialize_tree_reload.
Qed.

(** [_dict_to_node] reads eight entries of the dict and nothing else: two
    dicts that agree on them load alike, whatever the order of their keys
    and whatever other entries they hold. *)
Theorem _dict_to_node_reads_eight_keys (kvs kvs' : list (string * value)) :
  (forall k, In k node_keys -> dict_get k kvs = dict_get k kvs') ->
  Tree._dict_to_node (VDict kvs) = Tree._dict_to_node (VDict kvs').
Proof.
  intros H. rewrite !_dict_to_node_unfold. unfold dict_getitem, dict_get_or_none.
  rewrite (H "concept"), (H "depth"), (H "is_foundation"), (H "prerequisites"),
    (H "equations"), (H "definitions"), (H "visual_spec"), (H "narrative");
    try reflexivity; unfold node_keys; cbn [In]; tauto.
Qed.

Lemma _dict_to_node_reads_eight_keys_witness :
  Tree._dict_to_node document = Tree._dict_to_node shuffled_document
  /\ Tree._dict_to_node document
     = Ok (mkNode "X" 0 true [] (VList [VStr "E = mc^2"]) VNone VNone VNone).
Proof.
  split; [|reflexivity].
  apply (_dict_to_node_reads_eight_keys
           [ ("concept", VStr "X"); ("depth", VInt 0);
             ("is_foundation", VBool true);
             ("equations", VList [VStr "E = mc^2"]) ]
           [ ("equations", VList [VStr "E = mc^2"]);
             ("enrichment_error", VBool false);
             ("is_foundation", VBool true);
             ("depth", VInt 0); ("concept", VStr "X") ]).
  intros k Hk. unfold node_keys in Hk. cbn [In] in Hk.
  destruct Hk as [<-|[<-|[<-|[<-|[<-|[<-|[<-|[<-|[]]]]]]]]]; reflexivity.
Defined.

Lemma untyped_unfold (kvs : list (string * value)) :
  Untyped._dict_to_node (VDict kvs)
  = (c <- dict_getitem "concept" kvs ;;
     dp <- dict_getitem "depth" kvs ;;
     f <- dict_getitem "is_foundation" kvs ;;
     ps <- match dict_get "prerequisites" kvs with
           | Some v => iterate_prerequisites Untyped._dict_to_node v
           | None => Ok []
           end ;;
     Ok (Untyped.mkUntyped c dp f ps
           (dict_get_or_none "equations" kvs)
           (dict_get_or_none "definitions" kvs)
           (dict_get_or_none "visual_spec" kvs)
           (dict_get_or_none "narrative" kvs))).
Proof.
  cbn [Untyped._dict_to_node]. rewrite dict_find_get. reflexivity.
Qed.

(** ** The typed loader and the loader of the source *)

#[local] Abbreviation agree x :=
  (forall t,
      Tree._dict_to_node x = Ok t
      <-> Untyped._dict_to_node x = Ok (Untyped.of_tree t)).

Lemma iterate_prerequisites_agrees (v : value) :
  match v with VList xs => Forall (fun x => agree x) xs | _ => True end ->
  forall ps,
    iterate_prerequisites Tree._dict_to_node v = Ok ps
    <-> iterate_prerequisites Untyped._dict_to_node v
        = Ok (map Untyped.of_tree ps).
Proof.
  assert (Hnil : forall ps : list KnowledgeNode,
             @Ok (list KnowledgeNode) [] = Ok ps
             <-> @Ok (list Untyped.Node) [] = Ok (map Untyped.of_tree ps)).
  { intros [|p ps]; cbn [map]; split; intros E; try reflexivity;
      discriminate E. }
  destruct v as [| | |[|a s]|xs|[|kv kvs]]; cbn [iterate_prerequisites];
    intros Hxs ps; try (split; intros E; discriminate E); try apply Hnil.
  split; intros Hseq.
  - apply sequence_map_inv in Hseq. apply sequence_map_Forall2.
    clear -Hseq Hxs. induction Hseq as [|x p xs ps Hx _ IH]; constructor.
    + apply Forall_cons_iff in Hxs as [H _]. apply H. exact Hx.
    + apply IH. apply Forall_cons_iff in Hxs as [_ H]. exact H.
  - apply sequence_map_inv in Hseq. apply Forall2_fmap_r in Hseq.
    rewrite <- (map_id ps) at 1. apply sequence_map_Forall2.
    clear -Hseq Hxs. induction Hseq as [|x p xs ps Hx _ IH]; constructor.
    + apply Forall_cons_iff in Hxs as [H _]. apply H. exact Hx.
    + apply IH. apply Forall_cons_iff in Hxs as [_ H]. exact H.
Qed.

Lemma _dict_to_node_agrees_deep (d : value) :
  agree d
  /\ match d with VList xs => Forall (fun x => agree x) xs | _ => True end.
Proof.
  induction d as [| b | z | s | xs IH | kvs IH] using value_forall_ind;
    try (split; [intros t; split; intros E; discriminate E | exact I]).
  - split; [intros t; split; intros E; discriminate E|].
    eapply Forall_impl; [exact IH|]. intros x [Hx _]. exact Hx.
  - split; [|exact I]. intros [c dp f ps eqs defs vis nar].
    rewrite _dict_to_node_unfold, untyped_unfold. unfold dict_getitem.
    cbn [Untyped.of_tree].
    assert (Hps : forall ps',
               match dict_get "prerequisites" kvs with
               | Some v => iterate_prerequisites Tree._dict_to_node v
               | None => Ok []
               end = Ok ps'
               <-> match dict_get "prerequisites" kvs with
                   | Some v => iterate_prerequisites Untyped._dict_to_node v
                   | None => Ok []
                   end = Ok (map Untyped.of_tree ps')).
    { destruct (dict_get "prerequisites" kvs) as [v|] eqn:Hv.
      - apply iterate_prerequisites_agrees.
        pose proof (dict_get_Forall
                      (fun d =>
                         agree d
                         /\ match d with
                            | VList xs => Forall (fun x => agree x) xs
                            | _ => True
                            end)
                      _ _ _ IH Hv) as Hdeep.
        cbv beta in Hdeep. destruct Hdeep as [_ Hdeep]. exact Hdeep.
      - intros [|p ps']; cbn [map]; split; intros E; try reflexivity;
          discriminate E. }
    destruct (dict_get "concept" kvs) as [vc|]; cbn [bind];
      [|split; intros E; discriminate E].
    destruct (dict_get "depth" kvs) as [vd|]; cbn [bind];
      [|destruct vc; cbn [as_str bind]; split; intros E; discriminate E].
    destruct (dict_get "is_foundation" kvs) as [vf|]; cbn [bind];
      [|destruct vc, vd; cbn [as_str as_int bind]; split; intros E;
        discriminate E].
    split.
    + destruct vc; cbn [as_str bind]; try discriminate.
      destruct vd; cbn [as_int bind]; try discriminate.
      destruct vf; cbn [as_bool bind]; try discriminate.
      destruct (match dict_get "prerequisites" kvs with
                | Some v => iterate_prerequisites Tree._dict_to_node v
                | None => Ok []
                end) as [ps'|e] eqn:Hload; cbn [bind]; [|discriminate].
      intros E. injection E as -> -> -> -> -> -> -> ->.
      rewrite (proj1 (Hps ps) eq_refl). reflexivity.
    + destruct (match dict_get "prerequisites" kvs with
                | Some v => iterate_prerequisites Untyped._dict_to_node v
                | None => Ok []
                end) as [us|e] eqn:Hload; cbn [bind]; [|discriminate].
      intros E. injection E as -> -> -> -> -> -> -> ->.
      cbn [as_str as_int as_bool bind].
      rewrite (proj2 (Hps ps) eq_refl). reflexivity.
Qed.

(** The typed loader returns a tree exactly when the loader of the source
    returns the object with the fields of that tree: the two differ only on
    documents with a core entry that is not of the type the data model
    states, where the source builds an object all the same or raises
    another exception. *)
Lemma _dict_to_node_agrees (d : value) (t : KnowledgeNode) :
  Tree._dict_to_node d = Ok t
  <-> Untyped._dict_to_node d = Ok (Untyped.of_tree t).
Proof. apply _dict_to_node_agrees_deep. Qed.

(** ** What the loader raises *)

Lemma sequence_loads_or_fails {A B : Type} (f : A -> result B) (xs : list A) :
  Forall (fun x => loads_or_fails (f x)) xs ->
  loads_or_fails (sequence (map f xs)).
Proof.
  induction 1 as [|x xs Hx _ IH]; cbn [map sequence]; [exact I|].
  destruct (f x) as [y|e]; cbn [bind]; [|exact Hx].
  destruct (sequence (map f xs)) as [ys|e]; cbn [bind]; [exact I | exact IH].
Qed.

Lemma _dict_to_node_loads_or_fails_deep (d : value) :
  loads_or_fails (Untyped._dict_to_node d)
  /\ match d with
     | VList xs => Forall (fun x => loads_or_fails (Untyped._dict_to_node x)) xs
     | _ => True
     end.
Proof.
  induction d as [| b | z | s | xs IH | kvs IH] using value_forall_ind;
    try (split; exact I).
  - split; [exact I|]. eapply Forall_impl; [exact IH|]. intros x [Hx _]. exact Hx.
  - split; [|exact I]. rewrite untyped_unfold. unfold dict_getitem.
    destruct (dict_get "concept" kvs) as [c|];
      cbn [bind loads_or_fails load_error required_keys In]; auto.
    destruct (dict_get "depth" kvs) as [dp|];
      cbn [bind loads_or_fails load_error required_keys In]; auto.
    destruct (dict_get "is_foundation" kvs) as [f|];
      cbn [bind loads_or_fails load_error required_keys In]; auto.
    destruct (dict_get "prerequisites" kvs) as [v|] eqn:Hv;
      [|cbn [bind loads_or_fails]; exact I].
    pose proof (dict_get_Forall
                  (fun d =>
                     loads_or_fails (Untyped._dict_to_node d)
                     /\ match d with
                        | VList xs =>
                            Forall (fun x =>
                                      loads_or_fails (Untyped._dict_to_node x)) xs
                        | _ => True
                        end)
                  _ _ _ IH Hv) as Hdeep.
    cbv beta in Hdeep. destruct Hdeep as [_ Hdeep].
    assert (Hit : loads_or_fails
                    (iterate_prerequisites Untyped._dict_to_node v)).
    { destruct v as [| | |[|a s]|xs|[|kv kvs']]; cbn [iterate_prerequisites];
        try exact I. apply sequence_loads_or_fails. exact Hdeep. }
    destruct (iterate_prerequisites Untyped._dict_to_node v) as [ps|e];
      cbn [bind loads_or_fails]; [exact I | exact Hit].
Qed.

(** On every document, well-formed or not, a load ends with an object,
    with [KeyError] for one of the three keys the loader subscripts
    ([concept], [depth], [is_foundation]) or with [TypeError]; at the top
    of a dict the first of the three keys that is missing, in that order,
    is the one reported, whatever the types of the entries present; with
    the three keys present a missing [prerequisites] key gives a node
    without prerequisites; and a document that is not a dict gives
    [TypeError]. *)
Theorem _dict_to_node_exceptions (d : value) :
  match Untyped._dict_to_node d with
  | Ok _ => True
  | Raise (KeyError k) => In k ["concept"; "depth"; "is_foundation"]
  | Raise (TypeError _) => True
  | Raise _ => False
  end
  /\ match d with
     | VDict kvs =>
         match dict_get "concept" kvs, dict_get "depth" kvs,
               dict_get "is_foundation" kvs, dict_get "prerequisites" kvs with
         | None, _, _, _ =>
             Untyped._dict_to_node d = Raise (KeyError "concept")
         | Some _, None, _, _ =>
             Untyped._dict_to_node d = Raise (KeyError "depth")
         | Some _, Some _, None, _ =>
             Untyped._dict_to_node d = Raise (KeyError "is_foundation")
         | Some c, Some dp, Some f, None =>
             Untyped._dict_to_node d
             = Ok (Untyped.mkUntyped c dp f []
                     (dict_get_or_none "equations" kvs)
                     (dict_get_or_none "definitions" kvs)
                     (dict_get_or_none "visual_spec" kvs)
                     (dict_get_or_none "narrative" kvs))
         | Some _, Some _, Some _, Some _ => True
         end
     | _ => exists what, Untyped._dict_to_node d = Raise (TypeError what)
     end.
Proof.
  split.
  - pose proof (_dict_to_node_loads_or_fails_deep d) as [H _].
    destruct (Untyped._dict_to_node d) as [t|[]]; exact H.
  - destruct d as [| | | | |kvs]; try (eexists; reflexivity).
    rewrite untyped_unfold. unfold dict_getitem.
    destruct (dict_get "concept" kvs); [|reflexivity].
    destruct (dict_get "depth" kvs); [|reflexivity].
    destruct (dict_get "is_foundation" kvs); [|reflexivity].
    destruct (dict_get "prerequisites" kvs); [exact I | reflexivity].
Qed.

(** A node with an ill-typed [concept] and no [depth]: the missing key is
    what the loader reports. A node whose core entries are all of other
    types than the data model states is loaded as it is. *)
Example _dict_to_node_missing_depth :
  Untyped._dict_to_node (VDict [("concept", VInt 5)]) = Raise (KeyError "depth").
Proof. reflexivity. Qed.

Example _dict_to_node_odd_document :
  Untyped._dict_to_node Untyped.odd_document
  = Ok (Untyped.mkUntyped (VInt 5) (VStr "deep") (VInt 1)
          [ Untyped.mkUntyped VNone VNone (VStr "") [] VNone VNone VNone VNone ]
          VNone VNone VNone VNone).
Proof. reflexivity. Qed.

End LoadingFacts.

(* ===================================================================== *)
(** * Facts about the node counts                                         *)
(* ===================================================================== *)

Module CountNodesFacts.
Import PyFacts TreeFacts LoadingFacts CountNodes.

Lemma fold_left_add (l : list Z) (a : Z) :
  fold_left Z.add l a = a + fold_left Z.add l 0.
Proof.
  revert a. induction l as [|x l IH]; intros a; cbn [fold_left]; [lia|].
  rewrite (IH (a + x)), (IH (0 + x)). lia.
Qed.

Lemma sum_values_empty : sum_values ∅ = 0.
Proof. unfold sum_values. apply map_fold_empty. Qed.

Lemma sum_values_insert (d c : Z) (counts : gmap Z Z) :
  counts !! d = None -> sum_values (<[d := c]> counts) = c + sum_values counts.
Proof.
  intros Hd. unfold sum_values.
  apply (map_fold_insert_L (fun _ c acc => c + acc) 0 d c counts); [|exact Hd].
  intros. lia.
Qed.

Lemma sum_values_lookup (d c : Z) (counts : gmap Z Z) :
  counts !! d = Some c -> sum_values counts = c + sum_values (delete d counts).
Proof.
  intros Hd. unfold sum_values.
  apply (map_fold_delete_L (fun _ c acc => c + acc) 0 d c counts); [|exact Hd].
  intros. lia.
Qed.

Lemma sum_values_add_count (d c : Z) (counts : gmap Z Z) :
  sum_values (add_count d c counts) = sum_values counts + c.
Proof.
  unfold add_count. destruct (counts !! d) as [x|] eqn:Hd; cbn [default].
  - rewrite <- insert_delete_eq, sum_values_insert by apply lookup_delete_eq.
    rewrite (sum_values_lookup d x counts Hd). unfold id. lia.
  - rewrite sum_values_insert by exact Hd. lia.
Qed.

Lemma sum_values_merge_counts (counts sub_counts : gmap Z Z) :
  sum_values (merge_counts counts sub_counts)
  = sum_values counts + sum_values sub_counts.
Proof.
  unfold merge_counts.
  apply (map_fold_weak_ind
           (fun r m => sum_values r = sum_values counts + sum_values m)).
  - rewrite sum_values_empty. lia.
  - intros d c m r Hd IH. rewrite sum_values_add_count, IH.
    rewrite sum_values_insert by exact Hd. lia.
Qed.

Lemma sum_values_fold_merge (subs : list (gmap Z Z)) (counts : gmap Z Z) :
  sum_values (fold_left merge_counts subs counts)
  = fold_left Z.add (map sum_values subs) (sum_values counts).
Proof.
  revert counts. induction subs as [|m subs IH]; intros counts;
    cbn [fold_left map]; [reflexivity|].
  rewrite IH, sum_values_merge_counts. reflexivity.
Qed.

Lemma sequence_map_on_ok {A B C : Type} (f : A -> result B) (g : B -> C)
    (h : A -> result C) (xs : list A) :
  Forall (fun x => on_ok g (f x) = h x) xs ->
  on_ok (map g) (sequence (map f xs)) = sequence (map h xs).
Proof.
  induction 1 as [|x xs Hx _ IH]; cbn [map sequence]; [reflexivity|].
  rewrite <- Hx, <- IH. destruct (f x) as [y|e]; cbn [bind on_ok]; [|reflexivity].
  destruct (sequence (map f xs)) as [ys|e]; reflexivity.
Qed.

Lemma count_nodes_unfold (kvs : list (string * value)) :
  count_nodes (VDict kvs)
  = (subs <- match dict_get "prerequisites" kvs with
             | Some v => for_each_prerequisite count_nodes v
             | None => Ok []
             end ;;
     Ok (fold_left Z.add subs 1)).
Proof. cbn [count_nodes]. rewrite dict_find_get. reflexivity. Qed.

Lemma count_foundation_nodes_unfold (kvs : list (string * value)) :
  count_foundation_nodes (VDict kvs)
  = (subs <- match dict_get "prerequisites" kvs with
             | Some v => for_each_prerequisite count_foundation_nodes v
             | None => Ok []
             end ;;
     Ok (fold_left Z.add subs
           (if truthy (default (VBool false) (dict_get "is_foundation" kvs))
            then 1 else 0))).
Proof. cbn [count_foundation_nodes]. rewrite dict_find_get. reflexivity. Qed.

Lemma count_by_depth_unfold (kvs : list (string * value)) (level : Z) :
  count_by_depth (VDict kvs) level
  = (subs <- match dict_get "prerequisites" kvs with
             | Some v =>
                 for_each_prerequisite
                   (fun p => count_by_depth p (level + 1)) v
             | None => Ok []
             end ;;
     Ok (fold_left merge_counts subs (add_count level 1 ∅))).
Proof. cbn [count_by_depth]. rewrite dict_find_get. reflexivity. Qed.

Lemma count_by_depth_sums_deep (v : value) :
  (forall level, on_ok sum_values (count_by_depth v level) = count_nodes v)
  /\ match v with
     | VList xs =>
         Forall (fun x =>
                   forall level,
                     on_ok sum_values (count_by_depth x level) = count_nodes x)
           xs
     | _ => True
     end.
Proof.
  induction v as [| b | z | s | xs IH | kvs IH] using value_forall_ind;
    try (split; [intros level; reflexivity | exact I]).
  - split; [intros level; reflexivity|]. eapply Forall_impl; [exact IH|].
    intros x [Hx _]. exact Hx.
  - split; [|exact I]. intros level.
    rewrite count_by_depth_unfold, count_nodes_unfold.
    assert (Hsubs :
              on_ok (map sum_values)
                (match dict_get "prerequisites" kvs with
                 | Some v =>
                     for_each_prerequisite
                       (fun p => count_by_depth p (level + 1)) v
                 | None => Ok []
                 end)
              = match dict_get "prerequisites" kvs with
                | Some v => for_each_prerequisite count_nodes v
                | None => Ok []
                end).
    { destruct (dict_get "prerequisites" kvs) as [v|] eqn:Hv; [|reflexivity].
      pose proof (dict_get_Forall
                    (fun v =>
                       (forall level,
                           on_ok sum_values (count_by_depth v level)
                           = count_nodes v)
                       /\ match v with
                          | VList xs =>
                              Forall (fun x =>
                                        forall level,
                                          on_ok sum_values (count_by_depth x level)
                                          = count_nodes x) xs
                          | _ => True
                          end)
                    _ _ _ IH Hv) as Hdeep.
      cbv beta in Hdeep. destruct Hdeep as [_ Hdeep].
      destruct v as [| | |[|a s]|xs|[|kv kvs']];
        cbn [for_each_prerequisite on_ok]; try reflexivity.
      apply sequence_map_on_ok. eapply Forall_impl; [exact Hdeep|].
      intros x Hx. apply Hx. }
    rewrite <- Hsubs.
    destruct (match dict_get "prerequisites" kvs with
              | Some v => _
              | None => _
              end) as [subs|e]; cbn [bind on_ok]; [|reflexivity].
    f_equal. rewrite sum_values_fold_merge. f_equal.
    rewrite sum_values_add_count, sum_values_empty. reflexivity.
Qed.

(** The counts per level that [count_by_depth] returns add up to what
    [count_nodes] returns, and where one of the two raises the other raises
    the same exception: on every value and from every starting level. *)
Theorem count_by_depth_sums_to_count_nodes (v : value) (level : Z) :
  on_ok sum_values (count_by_depth v level) = count_nodes v.
Proof. apply count_by_depth_sums_deep. Qed.

Lemma _dict_to_node_shape (kvs : list (string * value)) (t : KnowledgeNode) :
  Tree._dict_to_node (VDict kvs) = Ok t ->
  dict_get "is_foundation" kvs = Some (VBool (is_foundation t))
  /\ match dict_get "prerequisites" kvs with
     | Some v =>
         iterate_prerequisites Tree._dict_to_node v = Ok (prerequisites t)
     | None => prerequisites t = []
     end.
Proof.
  rewrite _dict_to_node_unfold. unfold dict_getitem.
  destruct (dict_get "concept" kvs) as [[| | |c| |]|];
    cbn [bind as_str]; try discriminate.
  destruct (dict_get "depth" kvs) as [[| |dp| | |]|];
    cbn [bind as_int]; try discriminate.
  destruct (dict_get "is_foundation" kvs) as [[|f| | | |]|];
    cbn [bind as_bool]; try discriminate.
  destruct (dict_get "prerequisites" kvs) as [v|].
  - destruct (iterate_prerequisites Tree._dict_to_node v) as [ps|e];
      cbn [bind]; [|discriminate].
    intros E. injection E as <-. split; reflexivity.
  - cbn [bind]. intros E. injection E as <-. split; reflexivity.
Qed.

Lemma sum_of_sizes (ps : list KnowledgeNode) (a : Z) :
  fold_left Z.add (map (fun p => Z.of_nat (length (nodes p))) ps) a
  = a + Z.of_nat (length (flat_map nodes ps)).
Proof.
  revert a. induction ps as [|p ps IH]; intros a; cbn [map fold_left flat_map].
  - cbn [length]. lia.
  - rewrite IH, length_app. lia.
Qed.

Lemma sum_of_foundations (ps : list KnowledgeNode) (a : Z) :
  fold_left Z.add (map (fun p => Z.of_nat (foundations p)) ps) a
  = a + Z.of_nat (length (List.filter is_foundation (flat_map nodes ps))).
Proof.
  revert a. induction ps as [|p ps IH]; intros a; cbn [map fold_left flat_map].
  - cbn [List.filter length]. lia.
  - rewrite IH, List.filter_app, length_app. unfold foundations. lia.
Qed.

Lemma counts_of_loaded_deep (d : value) :
  (forall t,
      Tree._dict_to_node d = Ok t ->
      count_nodes d = Ok (Z.of_nat (length (nodes t)))
      /\ count_foundation_nodes d = Ok (Z.of_nat (foundations t)))
  /\ match d with
     | VList xs =>
         Forall (fun x =>
                   forall t,
                     Tree._dict_to_node x = Ok t ->
                     count_nodes x = Ok (Z.of_nat (length (nodes t)))
                     /\ count_foundation_nodes x = Ok (Z.of_nat (foundations t)))
           xs
     | _ => True
     end.
Proof.
  induction d as [| b | z | s | xs IH | kvs IH] using value_forall_ind;
    try (split; [intros t E; discriminate E | exact I]).
  - split; [intros t E; discriminate E|]. eapply Forall_impl; [exact IH|].
    intros x [Hx _]. exact Hx.
  - split; [|exact I]. intros t Hload.
    destruct (_dict_to_node_shape kvs t Hload) as [Hf Hps].
    rewrite count_nodes_unfold, count_foundation_nodes_unfold, Hf.
    cbn [default truthy].
    assert (Hsubs :
              match dict_get "prerequisites" kvs with
              | Some v => for_each_prerequisite count_nodes v
              | None => Ok []
              end
              = Ok (map (fun p => Z.of_nat (length (nodes p))) (prerequisites t))
              /\ match dict_get "prerequisites" kvs with
                 | Some v => for_each_prerequisite count_foundation_nodes v
                 | None => Ok []
                 end
                 = Ok (map (fun p => Z.of_nat (foundations p)) (prerequisites t))).
    { destruct (dict_get "prerequisites" kvs) as [v|] eqn:Hv;
        [|rewrite Hps; split; reflexivity].
      pose proof (dict_get_Forall
                    (fun d =>
                       (forall t,
                           Tree._dict_to_node d = Ok t ->
                           count_nodes d = Ok (Z.of_nat (length (nodes t)))
                           /\ count_foundation_nodes d
                              = Ok (Z.of_nat (foundations t)))
                       /\ match d with
                          | VList xs =>
                              Forall (fun x =>
                                        forall t,
                                          Tree._dict_to_node x = Ok t ->
                                          count_nodes x
                                          = Ok (Z.of_nat (length (nodes t)))
                                          /\ count_foundation_nodes x
                                             = Ok (Z.of_nat (foundations t)))
                                xs
                          | _ => True
                          end)
                    _ _ _ IH Hv) as Hdeep.
      cbv beta in Hdeep. destruct Hdeep as [_ Hdeep].
      destruct v as [| | |[|a s]|xs|[|kv kvs']];
        cbn [iterate_prerequisites] in Hps; try discriminate Hps;
        cbn [for_each_prerequisite];
        try (injection Hps as <-; split; reflexivity).
      apply sequence_map_inv in Hps.
      assert (H2 : Forall2
                     (fun x p =>
                        count_nodes x = Ok (Z.of_nat (length (nodes p)))
                        /\ count_foundation_nodes x
                           = Ok (Z.of_nat (foundations p)))
                     xs (prerequisites t)).
      { clear -Hps Hdeep. induction Hps as [|x p xs ps Hx _ IHps]; constructor.
        - apply Forall_cons_iff in Hdeep as [Hd _]. apply Hd. exact Hx.
        - apply IHps. apply Forall_cons_iff in Hdeep as [_ Hd]. exact Hd. }
      split; apply sequence_map_Forall2;
        (eapply Forall2_impl; [exact H2|]); intros x p [H1 H3]; assumption. }
    destruct Hsubs as [-> ->]. cbn [bind].
    rewrite sum_of_sizes, sum_of_foundations.
    destruct t as [c dp f ps eqs defs vis nar].
    unfold foundations. cbn [nodes prerequisites is_foundation List.filter length].
    split; f_equal; [lia|].
    destruct f; unfold id; cbn [length truthy]; lia.
Qed.

Lemma untyped_shape (kvs : list (string * value)) (t : Untyped.Node) :
  Untyped._dict_to_node (VDict kvs) = Ok t ->
  dict_get "is_foundation" kvs = Some (Untyped.is_foundation t)
  /\ match dict_get "prerequisites" kvs with
     | Some v =>
         iterate_prerequisites Untyped._dict_to_node v
         = Ok (Untyped.prerequisites t)
     | None => Untyped.prerequisites t = []
     end.
Proof.
  rewrite untyped_unfold. unfold dict_getitem.
  destruct (dict_get "concept" kvs) as [c|]; cbn [bind]; [|discriminate].
  destruct (dict_get "depth" kvs) as [dp|]; cbn [bind]; [|discriminate].
  destruct (dict_get "is_foundation" kvs) as [f|]; cbn [bind]; [|discriminate].
  destruct (dict_get "prerequisites" kvs) as [v|].
  - destruct (iterate_prerequisites Untyped._dict_to_node v) as [ps|e];
      cbn [bind]; [|discriminate].
    intros E. injection E as <-. split; reflexivity.
  - cbn [bind]. intros E. injection E as <-. split; reflexivity.
Qed.

Lemma sum_of_untyped_sizes (ps : list Untyped.Node) (a : Z) :
  fold_left Z.add (map (fun p => Z.of_nat (length (Untyped.nodes p))) ps) a
  = a + Z.of_nat (length (flat_map Untyped.nodes ps)).
Proof.
  revert a. induction ps as [|p ps IH]; intros a; cbn [map fold_left flat_map].
  - cbn [length]. lia.
  - rewrite IH, length_app. lia.
Qed.

Lemma sum_of_untyped_foundations (ps : list Untyped.Node) (a : Z) :
  fold_left Z.add (map (fun p => Z.of_nat (Untyped.foundations p)) ps) a
  = a + Z.of_nat
          (length (List.filter (fun n => truthy (Untyped.is_foundation n))
                     (flat_map Untyped.nodes ps))).
Proof.
  revert a. induction ps as [|p ps IH]; intros a; cbn [map fold_left flat_map].
  - cbn [List.filter length]. lia.
  - rewrite IH, List.filter_app, length_app. unfold Untyped.foundations. lia.
Qed.

#[local] Abbreviation counted x :=
  (forall t,
      Untyped._dict_to_node x = Ok t ->
      count_nodes x = Ok (Z.of_nat (length (Untyped.nodes t)))
      /\ count_foundation_nodes x = Ok (Z.of_nat (Untyped.foundations t))).

Lemma counts_of_untyped_deep (d : value) :
  counted d
  /\ match d with VList xs => Forall (fun x => counted x) xs | _ => True end.
Proof.
  induction d as [| b | z | s | xs IH | kvs IH] using value_forall_ind;
    try (split; [intros t E; discriminate E | exact I]).
  - split; [intros t E; discriminate E|]. eapply Forall_impl; [exact IH|].
    intros x [Hx _]. exact Hx.
  - split; [|exact I]. intros t Hload.
    destruct (untyped_shape kvs t Hload) as [Hf Hps].
    rewrite count_nodes_unfold, count_foundation_nodes_unfold, Hf.
    cbn [default].
    assert (Hsubs :
              match dict_get "prerequisites" kvs with
              | Some v => for_each_prerequisite count_nodes v
              | None => Ok []
              end
              = Ok (map (fun p => Z.of_nat (length (Untyped.nodes p)))
                      (Untyped.prerequisites t))
              /\ match dict_get "prerequisites" kvs with
                 | Some v => for_each_prerequisite count_foundation_nodes v
                 | None => Ok []
                 end
                 = Ok (map (fun p => Z.of_nat (Untyped.foundations p))
                         (Untyped.prerequisites t))).
    { destruct (dict_get "prerequisites" kvs) as [v|] eqn:Hv;
        [|rewrite Hps; split; reflexivity].
      pose proof (dict_get_Forall
                    (fun d =>
                       counted d
                       /\ match d with
                          | VList xs => Forall (fun x => counted x) xs
                          | _ => True
                          end)
                    _ _ _ IH Hv) as Hdeep.
      cbv beta in Hdeep. destruct Hdeep as [_ Hdeep].
      destruct v as [| | |[|a s]|xs|[|kv kvs']];
        cbn [iterate_prerequisites] in Hps; try discriminate Hps;
        cbn [for_each_prerequisite];
        try (injection Hps as <-; split; reflexivity).
      apply sequence_map_inv in Hps.
      assert (H2 : Forall2
                     (fun x p =>
                        count_nodes x = Ok (Z.of_nat (length (Untyped.nodes p)))
                        /\ count_foundation_nodes x
                           = Ok (Z.of_nat (Untyped.foundations p)))
                     xs (Untyped.prerequisites t)).
      { clear -Hps Hdeep. induction Hps as [|x p xs ps Hx _ IHps]; constructor.
        - apply Forall_cons_iff in Hdeep as [Hd _]. apply Hd. exact Hx.
        - apply IHps. apply Forall_cons_iff in Hdeep as [_ Hd]. exact Hd. }
      split; apply sequence_map_Forall2;
        (eapply Forall2_impl; [exact H2|]); intros x p [H1 H3]; assumption. }
    destruct Hsubs as [-> ->]. cbn [bind].
    rewrite sum_of_untyped_sizes, sum_of_untyped_foundations.
    destruct t as [c dp f ps eqs defs vis nar].
    unfold Untyped.foundations.
    cbn [Untyped.nodes Untyped.prerequisites Untyped.is_foundation List.filter
           length].
    split; f_equal; [lia|].
    unfold id. destruct (truthy f); cbn [length]; lia.
Qed.

(** For every document that [_dict_to_node] loads, whatever the types of
    its entries, [count_nodes] returns the number of nodes of the loaded
    tree and [count_foundation_nodes] the number of its nodes whose
    [is_foundation] is true in Python's sense. *)
Theorem counts_of_loaded_document (d : value) (t : Untyped.Node) :
  Untyped._dict_to_node d = Ok t ->
  count_nodes d = Ok (Z.of_nat (length (Untyped.nodes t)))
  /\ count_foundation_nodes d = Ok (Z.of_nat (Untyped.foundations t)).
Proof. apply counts_of_untyped_deep. Qed.

Lemma counts_of_loaded_document_witness :
  count_nodes Untyped.odd_document = Ok 2
  /\ count_foundation_nodes Untyped.odd_document = Ok 1.
Proof.
  exact (counts_of_loaded_document Untyped.odd_document
           (Untyped.mkUntyped (VInt 5) (VStr "deep") (VInt 1)
              [ Untyped.mkUntyped VNone VNone (VStr "") [] VNone VNone VNone
                  VNone ]
              VNone VNone VNone VNone)
           eq_refl).
Defined.

(** What [_serialize_tree] writes is counted node for node. *)
Theorem counts_of_serialized_tree (t : KnowledgeNode) (depth_arg : Z) :
  count_nodes (VDict (_serialize_tree t depth_arg))
  = Ok (Z.of_nat (length (nodes t)))
  /\ count_foundation_nodes (VDict (_serialize_tree t depth_arg))
     = Ok (Z.of_nat (foundations t)).
Proof.
  destruct (counts_of_loaded_deep (VDict (_serialize_tree t depth_arg)))
    as [H _].
  destruct (H (reload t) (_dict_to_node_serialize_reload t depth_arg))
    as [Hn Hf].
  assert (Hnodes : forall u,
             length (nodes (reload u)) = length (nodes u)
             /\ foundations (reload u) = foundations u).
  { clear. intros u.
    induction u as [c d f ps eqs defs vis nar IH] using KnowledgeNode_forall_ind.
    unfold foundations in *. cbn [reload nodes prerequisites List.filter is_foundation].
    assert (Hps : length (flat_map nodes (map reload ps))
                  = length (flat_map nodes ps)
                  /\ length (List.filter is_foundation
                               (flat_map nodes (map reload ps)))
                     = length (List.filter is_foundation (flat_map nodes ps))).
    { induction IH as [|p ps [Hp1 Hp2] _ [IH1 IH2]]; [split; reflexivity|].
      cbn [map flat_map]. rewrite !List.filter_app, !length_app.
      rewrite Hp1, Hp2, IH1, IH2. split; reflexivity. }
    destruct Hps as [H1 H2]. destruct f; cbn [length]; rewrite H1, H2;
      split; reflexivity. }
  destruct (Hnodes t) as [E1 E2]. rewrite E1 in Hn. rewrite E2 in Hf.
  split; assumption.
Qed.

Lemma sequence_count_within {A : Type} (f g : A -> result Z) (xs : list A) :
  Forall (fun x => count_within (f x) (g x)) xs ->
  match sequence (map f xs), sequence (map g xs) with
  | Ok ns, Ok fs =>
      0 <= fold_left Z.add fs 0 <= fold_left Z.add ns 0
  | Raise e, Raise e' => e = e'
  | _, _ => False
  end.
Proof.
  induction 1 as [|x xs Hx _ IH]; cbn [map sequence fold_left]; [lia|].
  unfold count_within in Hx.
  destruct (f x) as [n|e], (g x) as [k|e']; cbn [bind]; try contradiction;
    [|exact Hx].
  destruct (sequence (map f xs)) as [ns|e], (sequence (map g xs)) as [fs|e'];
    cbn [bind]; try contradiction; [|exact IH].
  cbn [fold_left]. rewrite (fold_left_add fs (0 + k)), (fold_left_add ns (0 + n)).
  lia.
Qed.

Lemma count_within_deep (v : value) :
  count_within (count_nodes v) (count_foundation_nodes v)
  /\ match v with
     | VList xs =>
         Forall (fun x =>
                   count_within (count_nodes x) (count_foundation_nodes x)) xs
     | _ => True
     end.
Proof.
  induction v as [| b | z | s | xs IH | kvs IH] using value_forall_ind;
    try (split; [reflexivity | exact I]).
  - split; [reflexivity|]. eapply Forall_impl; [exact IH|].
    intros x [Hx _]. exact Hx.
  - split; [|exact I].
    rewrite count_nodes_unfold, count_foundation_nodes_unfold.
    set (count := if truthy _ then 1 else 0).
    assert (Hcount : 0 <= count <= 1) by (subst count; destruct (truthy _); lia).
    clearbody count.
    destruct (dict_get "prerequisites" kvs) as [v|] eqn:Hv.
    + pose proof (dict_get_Forall
                    (fun v =>
                       count_within (count_nodes v) (count_foundation_nodes v)
                       /\ match v with
                          | VList xs =>
                              Forall (fun x =>
                                        count_within (count_nodes x)
                                          (count_foundation_nodes x)) xs
                          | _ => True
                          end)
                    _ _ _ IH Hv) as Hdeep.
      cbv beta in Hdeep. destruct Hdeep as [_ Hdeep].
      destruct v as [| | |[|a s]|xs|[|kv kvs']];
        cbn [for_each_prerequisite bind count_within fold_left];
        try reflexivity; try lia.
      pose proof (sequence_count_within count_nodes count_foundation_nodes
                    xs Hdeep) as Hseq.
      destruct (sequence (map count_nodes xs)) as [ns|e],
        (sequence (map count_foundation_nodes xs)) as [fs|e'];
        cbn [bind count_within]; try contradiction; [|exact Hseq].
      rewrite (fold_left_add fs count), (fold_left_add ns 1). lia.
    + cbn [bind count_within fold_left]. lia.
Qed.

(** The estimate of the script: where the tree can be counted,
    [total_calls] is 4n - f + 1 for n nodes of which f are foundational,
    with 0 <= f <= n and n >= 1, hence between 3n + 1 and 4n + 1; where
    [count_nodes] raises, the estimate raises the same exception. *)
Theorem total_calls_spec (tree : value) :
  match count_nodes tree with
  | Ok n =>
      exists f,
        count_foundation_nodes tree = Ok f
        /\ 0 <= f <= n /\ 1 <= n
        /\ total_calls tree = Ok (4 * n - f + 1)
        /\ 3 * n + 1 <= 4 * n - f + 1 <= 4 * n + 1
  | Raise e => total_calls tree = Raise e
  end.
Proof.
  pose proof (count_within_deep tree) as [Hw _].
  pose proof (proj1 (count_by_depth_sums_deep tree) 0) as Hsum.
  unfold total_calls, count_within in *.
  destruct (count_nodes tree) as [n|e]; cbn [bind]; [|reflexivity].
  destruct (count_foundation_nodes tree) as [f|e]; [|contradiction].
  destruct (count_by_depth tree 0) as [m|e]; [|discriminate Hsum].
  cbn [bind]. exists f. split; [reflexivity|]. split; [lia|]. split; [lia|].
  split; [f_equal; lia | lia].
Qed.

End CountNodesFacts.

(* ===================================================================== *)
(** * Facts about the helpers of the visual reasoning tests               *)
(* ===================================================================== *)

Module ReasoningTestsFacts.
Import TreeFacts ReasoningTests.

Lemma _extract_visual_specs_closed (t : KnowledgeNode) :
  forall specs,
    _extract_visual_specs t specs
    = (default [] specs ++ map spec_entry (with_visual_spec t))%list.
Proof.
  induction t as [c d f ps eqs defs vis nar IH] using KnowledgeNode_forall_ind.
  intros specs. cbn [_extract_visual_specs].
  unfold with_visual_spec. cbn [nodes prerequisites List.filter visual_spec].
  assert (Hloop : forall acc,
             fold_left (fun acc prereq => _extract_visual_specs prereq (Some acc))
               ps acc
             = (acc ++ map spec_entry
                         (List.filter (fun n => truthy (visual_spec n))
                            (flat_map nodes ps)))%list).
  { clear -IH. induction IH as [|p ps Hp _ IHps]; intros acc;
      cbn [fold_left flat_map List.filter map]; [symmetry; apply app_nil_r|].
    rewrite IHps, Hp. cbn [default]. unfold with_visual_spec.
    rewrite List.filter_app, map_app, app_assoc. reflexivity. }
  rewrite Hloop. destruct specs as [l|]; cbn [default];
    destruct (truthy vis); cbn [map]; rewrite <- ?app_assoc; reflexivity.
Qed.

(** [_extract_visual_specs] returns one entry, concept and spec, for each
    node whose [visual_spec] is truthy, in pre-order (a node before its
    prerequisites, these from left to right), appended to the list it was
    given; so there are never more entries than nodes. *)
Theorem _extract_visual_specs_spec (t : KnowledgeNode)
    (specs : option (list value)) :
  _extract_visual_specs t specs
  = (default [] specs ++ map spec_entry (with_visual_spec t))%list
  /\ (length (_extract_visual_specs t None) <= length (nodes t))%nat.
Proof.
  split; [apply _extract_visual_specs_closed|].
  rewrite _extract_visual_specs_closed. cbn [default app].
  rewrite length_map. unfold with_visual_spec. apply List.filter_length_le.
Qed.

Lemma fold_left_max_ge (l : list Z) (a : Z) : a <= fold_left Z.max l a.
Proof.
  revert a. induction l as [|x l IH]; intros a; cbn [fold_left]; [lia|].
  specialize (IH (Z.max a x)). lia.
Qed.

Lemma fold_left_max_shift (l : list Z) (a k : Z) :
  fold_left Z.max (map (Z.add k) l) (k + a) = k + fold_left Z.max l a.
Proof.
  revert a. induction l as [|x l IH]; intros a; cbn [map fold_left]; [reflexivity|].
  rewrite <- IH. f_equal. lia.
Qed.

Lemma fold_left_max_bound (l : list Z) (a b sa : Z) (sl : list Z) :
  a <= b + sa ->
  Forall2 (fun x s => x <= b + s) l sl ->
  Forall (fun s => 0 <= s) sl -> 0 <= sa ->
  fold_left Z.max l a <= b + (sa + fold_left Z.add sl 0).
Proof.
  intros Ha Hl. revert a sa Ha.
  induction Hl as [|x s l sl Hx _ IH]; intros a sa Ha Hpos Hsa;
    cbn [fold_left].
  - lia.
  - apply Forall_cons_iff in Hpos as [Hs Hpos].
    rewrite (CountNodesFacts.fold_left_add sl (0 + s)).
    specialize (IH (Z.max a x) (sa + s)).
    assert (Z.max a x <= b + (sa + s)) by lia.
    specialize (IH H Hpos). lia.
Qed.

Lemma _count_depth_shift (t : KnowledgeNode) :
  forall k, _count_depth t k = k + _count_depth t 0.
Proof.
  induction t as [c d f ps eqs defs vis nar IH] using KnowledgeNode_forall_ind.
  intros k. cbn [_count_depth]. destruct ps as [|p rest]; [lia|].
  apply Forall_cons_iff in IH as [Hp Hrest].
  assert (Hmap : forall j,
             map (fun prereq => _count_depth prereq (j + 1)) rest
             = map (Z.add (j + 1)) (map (fun prereq => _count_depth prereq 0) rest)).
  { intros j. rewrite map_map. apply map_ext_Forall.
    eapply Forall_impl; [exact Hrest|]. intros q Hq. cbv beta. apply Hq. }
  rewrite (Hmap k), (Hmap 0), (Hp (k + 1)), (Hp (0 + 1)).
  rewrite !fold_left_max_shift. lia.
Qed.

Lemma _count_depth_bounds (t : KnowledgeNode) :
  0 <= _count_depth t 0 < Z.of_nat (length (nodes t)).
Proof.
  induction t as [c d f ps eqs defs vis nar IH] using KnowledgeNode_forall_ind.
  cbn [_count_depth nodes prerequisites length]. destruct ps as [|p rest];
    [cbn [flat_map length]; lia|].
  apply Forall_cons_iff in IH as [Hp Hrest].
  cbn [flat_map]. rewrite length_app.
  rewrite (_count_depth_shift p (0 + 1)). split.
  - pose proof (fold_left_max_ge
                  (map (fun prereq => _count_depth prereq (0 + 1)) rest)
                  (0 + 1 + _count_depth p 0)). lia.
  - pose proof (fold_left_max_bound
                  (map (fun prereq => _count_depth prereq (0 + 1)) rest)
                  (0 + 1 + _count_depth p 0) 0
                  (Z.of_nat (length (nodes p)))
                  (map (fun q => Z.of_nat (length (nodes q))) rest)) as Hb.
    rewrite CountNodesFacts.sum_of_sizes in Hb.
    assert (fold_left Z.max
              (map (fun prereq => _count_depth prereq (0 + 1)) rest)
              (0 + 1 + _count_depth p 0)
            <= 0 + (Z.of_nat (length (nodes p))
                    + (0 + Z.of_nat (length (flat_map nodes rest))))); [|lia].
    apply Hb.
    + lia.
    + clear -Hrest. induction Hrest as [|q rest Hq _ IHrest]; cbn [map];
        constructor; [|exact IHrest].
      rewrite (_count_depth_shift q (0 + 1)). lia.
    + clear. induction rest as [|q rest IHrest]; cbn [map]; constructor;
        [lia | exact IHrest].
    + lia.
Qed.

(** [_count_depth] started at [k] returns [k] plus the height of the tree:
    the height is at least 0, is 0 exactly for a node without prerequisites,
    and is less than the number of nodes. *)
Theorem _count_depth_spec (t : KnowledgeNode) (k : Z) :
  _count_depth t k = k + _count_depth t 0
  /\ 0 <= _count_depth t 0 < Z.of_nat (length (nodes t))
  /\ (_count_depth t 0 = 0 <-> prerequisites t = []).
Proof.
  split; [apply _count_depth_shift|]. split; [apply _count_depth_bounds|].
  destruct t as [c d f [|p rest] eqs defs vis nar];
    cbn [_count_depth prerequisites]; [split; reflexivity|].
  split; [|discriminate]. intros H. exfalso.
  pose proof (fold_left_max_ge
                (map (fun prereq => _count_depth prereq (0 + 1)) rest)
                (_count_depth p (0 + 1))) as Hge.
  rewrite (_count_depth_shift p (0 + 1)) in Hge, H.
  pose proof (_count_depth_bounds p). lia.
Qed.

End ReasoningTestsFacts.

(* ===================================================================== *)
(** * Facts about a batch of explorations                                 *)
(* ===================================================================== *)

Module BatchFacts.
Import Batch.

Section BatchExplore.
Context {W E : Type}.
Variable explore_concept :
  string -> bool -> W -> outcome E (list (string * value)) * W.
Variable is_Exception : E -> bool.
Variable exn_str : E -> string.

#[local] Abbreviation entries :=
  (batch_entries explore_concept is_Exception exn_str).
#[local] Abbreviation loop :=
  (batch_loop explore_concept is_Exception exn_str).

Lemma batch_entries_length (enrichment : bool) (concepts : list string)
    (w w' : W) (rs : list (list (string * value))) :
  entries enrichment concepts w rs w' -> length rs = length concepts.
Proof.
  induction 1 as [w|c rest w w1 w' r rs _ _ IH|c rest w w1 w' e rs _ _ _ IH];
    cbn [length]; [reflexivity| |]; rewrite IH; reflexivity.
Qed.

Lemma batch_loop_spec (enrichment : bool) (concepts : list string) :
  forall results w,
    (exists new w',
        loop concepts enrichment results w = (Returns (results ++ new)%list, w')
        /\ entries enrichment concepts w new w')
    \/ (exists done c rest new w1 e w2,
           concepts = (done ++ c :: rest)%list
           /\ entries enrichment done w new w1
           /\ explore_concept c enrichment w1 = (Raises e, w2)
           /\ is_Exception e = false
           /\ loop concepts enrichment results w = (Raises e, w2)).
Proof.
  induction concepts as [|c rest IH]; intros results w; cbn [batch_loop].
  - left. exists [], w. rewrite app_nil_r. split; [reflexivity | constructor].
  - destruct (explore_concept c enrichment w) as [[r|e] w1] eqn:Hrun.
    + destruct (IH (results ++ [r])%list w1)
        as [(new & w' & -> & Hnew)
           |(done & c' & rest' & new & u1 & e & u2 & -> & Hdone & Hc' & He & ->)].
      * left. exists (r :: new), w'. rewrite <- app_assoc.
        split; [reflexivity|]. eapply batch_returned; eassumption.
      * right. exists (c :: done), c', rest', (r :: new), u1, e, u2.
        split; [reflexivity|]. split; [eapply batch_returned; eassumption|].
        split; [exact Hc'|]. split; [exact He | reflexivity].
    + destruct (is_Exception e) eqn:He.
      * destruct (IH (results ++ [error_entry exn_str c e])%list w1)
          as [(new & w' & -> & Hnew)
             |(done & c' & rest' & new & u1 & e' & u2 & -> & Hdone & Hc' & He'
               & ->)].
        -- left. exists (error_entry exn_str c e :: new), w'.
           rewrite <- app_assoc. split; [reflexivity|].
           eapply batch_failed; eassumption.
        -- right.
           exists (c :: done), c', rest', (error_entry exn_str c e :: new),
             u1, e', u2.
           split; [reflexivity|]. split; [eapply batch_failed; eassumption|].
           split; [exact Hc'|]. split; [exact He' | reflexivity].
      * right. exists [], c, rest, [], w, e, w1.
        split; [reflexivity|]. split; [constructor|].
        split; [exact Hrun|]. split; [exact He | reflexivity].
Qed.

(** [batch_explore] goes through the concepts in order, each explored in
    the state the one before it left. Either it returns, in the state the
    last exploration left, one entry per concept: the result of the
    exploration or, where the exploration raised an [Exception], the dict
    with the concept, the text of the error and [success = False], so a
    failure for one concept does not stop the batch. Or one exploration
    raised something that is not an [Exception] (a [KeyboardInterrupt], a
    [SystemExit], a cancellation): then that leaves [batch_explore] at
    once, in the state the exploration left, the concepts after it are not
    explored and the entries built so far are not returned. The second case
    cannot occur when every exception an exploration raises is an
    [Exception]. *)
Theorem batch_explore_spec (concepts : list string) (enrichment : bool) (w : W) :
  ((exists results w',
       batch_explore explore_concept is_Exception exn_str concepts enrichment w
       = (Returns results, w')
       /\ length results = length concepts
       /\ entries enrichment concepts w results w')
   \/ (exists done c rest entries_done w1 e w2,
          concepts = (done ++ c :: rest)%list
          /\ entries enrichment done w entries_done w1
          /\ explore_concept c enrichment w1 = (Raises e, w2)
          /\ is_Exception e = false
          /\ batch_explore explore_concept is_Exception exn_str concepts
               enrichment w
             = (Raises e, w2)))
  /\ ((forall c u e u',
          explore_concept c enrichment u = (Raises e, u') ->
          is_Exception e = true) ->
      exists results w',
        batch_explore explore_concept is_Exception exn_str concepts enrichment w
        = (Returns results, w')
        /\ length results = length concepts
        /\ entries enrichment concepts w results w').
Proof.
  unfold batch_explore.
  assert (Hcases := batch_loop_spec enrichment concepts [] w).
  split.
  - destruct Hcases as [(new & w' & Hrun & Hnew)|Habort].
    + left. exists new, w'. split; [exact Hrun|].
      split; [eapply batch_entries_length; exact Hnew | exact Hnew].
    + right. exact Habort.
  - intros Hall.
    destruct Hcases
      as [(new & w' & Hrun & Hnew)
         |(done & c & rest & new & w1 & e & w2 & _ & _ & Hc & He & _)].
    + exists new, w'. split; [exact Hrun|].
      split; [eapply batch_entries_length; exact Hnew | exact Hnew].
    + rewrite (Hall c w1 e w2 Hc) in He. discriminate He.
Qed.

End BatchExplore.

Lemma batch_explore_spec_witness :
  exists results w',
    batch_explore sample_explore_concept sample_is_Exception sample_exn_str
      ["fourier transform"; ""; "riemann sum"] false 0%nat
    = (Returns results, w')
    /\ length results = 3%nat
    /\ batch_entries sample_explore_concept sample_is_Exception sample_exn_str
         false ["fourier transform"; ""; "riemann sum"] 0%nat results w'.
Proof.
  apply (proj2 (batch_explore_spec sample_explore_concept sample_is_Exception
                  sample_exn_str ["fourier transform"; ""; "riemann sum"]
                  false 0%nat)).
  intros c u e u'. unfold sample_explore_concept.
  destruct (String.eqb c ""); intros H; [|discriminate H].
  injection H as <- _. reflexivity.
Defined.

(** A batch in which the second exploration raises a [ValueError]: the
    third concept is explored all the same. *)
Example batch_explore_sample :
  batch_explore sample_explore_concept sample_is_Exception sample_exn_str
    ["fourier transform"; ""; "riemann sum"] false 0%nat
  = (Returns
       [ [("concept", VStr "fourier transform"); ("enriched", VBool false)];
         [("concept", VStr ""); ("error", VStr "empty concept");
          ("success", VBool false)];
         [("concept", VStr "riemann sum"); ("enriched", VBool false)] ],
     3%nat).
Proof. vm_compute. reflexivity. Qed.

(** A batch in which the second exploration is cancelled: the cancellation
    leaves [batch_explore], the third concept is not explored. *)
Example batch_explore_cancelled :
  batch_explore cancellable_explore_concept sample_is_Exception sample_exn_str
    ["fourier transform"; "stop"; "riemann sum"] false 0%nat
  = (Raises SampleCancelledError, 2%nat).
Proof. vm_compute. reflexivity. Qed.

End BatchFacts.

(* ===================================================================== *)
(** * Facts about the cache of the visual stage                           *)
(* ===================================================================== *)

Module VisualCacheFacts.
Import Visual VisualCache.

Section Designer.
Context {VisualSpec Response : Type}.
Variable from_payload : string -> list (string * value) -> VisualSpec.
Variable spec_to_dict : VisualSpec -> list (string * value).
Variable _extract_tool_payload : Response -> option (list (string * value)).
Variable get_text_content : Response -> string.
Variable _parse_json_fallback : string -> option (list (string * value)).

#[local] Abbreviation design_by chat :=
  (three_d_design_node from_payload spec_to_dict chat
     _extract_tool_payload get_text_content _parse_json_fallback).

(** What the cache answers alone: same outcome with any two services, and
    the cache comes back as it was. *)
#[local] Abbreviation served_from_cache chat chat' cache t :=
  (forall parent_spec parent_spec',
      design_by chat cache t parent_spec = design_by chat' cache t parent_spec'
      /\ match design_by chat cache t parent_spec with
         | Ok (_, _, cache') => cache' = cache
         | Raise _ => True
         end).

Lemma design_each_served_from_cache
    (chat chat' : KnowledgeNode -> option VisualSpec -> result Response)
    (cache : gmap string VisualSpec) (spec : VisualSpec)
    (ps : list KnowledgeNode) :
  Forall (fun p => served_from_cache chat chat' cache p) ps ->
  design_each
    (fun cache prereq =>
       r <- design_by chat cache prereq (Some spec) ;; Ok (snd (fst r), snd r))
    ps cache
  = design_each
      (fun cache prereq =>
         r <- design_by chat' cache prereq (Some spec) ;; Ok (snd (fst r), snd r))
      ps cache
  /\ match design_each
             (fun cache prereq =>
                r <- design_by chat cache prereq (Some spec) ;;
                Ok (snd (fst r), snd r))
             ps cache
     with
     | Ok (_, cache') => cache' = cache
     | Raise _ => True
     end.
Proof.
  induction 1 as [|p ps Hp _ [IH1 IH2]]; cbn [design_each];
    [split; reflexivity|].
  destruct (Hp (Some spec) (Some spec)) as [Heq Hcache]. rewrite <- Heq.
  destruct (design_by chat cache p (Some spec)) as [[[s p'] cache1]|e];
    cbn [bind fst snd]; [|split; reflexivity].
  subst cache1. rewrite <- IH1.
  destruct (design_each _ ps cache) as [[ps' cache2]|e];
    cbn [bind fst snd]; [|split; reflexivity].
  split; [reflexivity | exact IH2].
Qed.

Lemma design_served_from_cache
    (chat chat' : KnowledgeNode -> option VisualSpec -> result Response)
    (cache : gmap string VisualSpec) (t : KnowledgeNode) :
  all_cached cache t -> served_from_cache chat chat' cache t.
Proof.
  induction t as [c d f ps eqs defs vis nar IH]
    using TreeFacts.KnowledgeNode_forall_ind.
  unfold all_cached. cbn [nodes prerequisites]. intros Hall.
  apply Forall_cons_iff in Hall as [[cached_spec Hc] Hps]. cbn [concept] in Hc.
  assert (Hchildren : Forall (fun p => served_from_cache chat chat' cache p) ps).
  { clear -IH Hps. induction IH as [|p ps Hp _ IHps]; constructor.
    - apply Hp. cbn [flat_map] in Hps. apply Forall_app in Hps as [H _]. exact H.
    - apply IHps. cbn [flat_map] in Hps. apply Forall_app in Hps as [_ H]. exact H. }
  intros parent_spec parent_spec'. cbn [three_d_design_node]. rewrite Hc.
  destruct (update_visual_spec vis (spec_to_dict cached_spec)) as [vis'|e];
    cbn [bind]; [|split; reflexivity].
  destruct (design_each_served_from_cache chat chat' cache cached_spec ps
              Hchildren) as [Heq Hcache].
  rewrite <- Heq.
  destruct (design_each _ ps cache) as [[ps' cache']|e];
    cbn [bind fst snd]; [|split; reflexivity].
  split; [reflexivity | exact Hcache].
Qed.

(** When every concept of a tree is in the cache, the stage does not need
    the service: it has the same outcome with any two services and any two
    parent specs, and it leaves the cache as it found it. *)
Theorem cached_tree_needs_no_service
    (chat chat' : KnowledgeNode -> option VisualSpec -> result Response)
    (cache : gmap string VisualSpec) (t : KnowledgeNode)
    (parent_spec parent_spec' : option VisualSpec) :
  all_cached cache t ->
  design_by chat cache t parent_spec = design_by chat' cache t parent_spec'
  /\ match design_by chat cache t parent_spec with
     | Ok (_, _, cache') => cache' = cache
     | Raise _ => True
     end.
Proof. intros Hall. apply design_served_from_cache. exact Hall. Qed.

Variable chat_completion : KnowledgeNode -> option VisualSpec -> result Response.

#[local] Abbreviation design := (design_by chat_completion).
#[local] Abbreviation by_cache := (designed_with spec_to_dict).

Lemma designed_with_weaken (cache cache' : gmap string VisualSpec)
    (n n' : KnowledgeNode) :
  cache ⊆ cache' -> by_cache cache n n' -> by_cache cache' n n'.
Proof.
  intros Hsub (H1 & H2 & H3 & H4 & H5 & H6 & spec & Hspec & Hupd).
  do 6 (split; [assumption|]). exists spec. split; [|exact Hupd].
  eapply lookup_weaken; eassumption.
Qed.

(** The outcome of the stage on a tree, as the induction carries it. *)
#[local] Abbreviation consistent cache t spec t' cache' :=
  (cache ⊆ cache'
   /\ cache' !! concept t = Some spec
   /\ Forall2 (by_cache cache') (nodes t) (nodes t')).

Lemma design_each_consistent (ps : list KnowledgeNode) (spec : VisualSpec) :
  Forall (fun p =>
            forall cache parent_spec s p' cache',
              design cache p parent_spec = Ok (s, p', cache') ->
              consistent cache p s p' cache') ps ->
  forall cache ps' cache',
    design_each
      (fun cache prereq =>
         r <- design cache prereq (Some spec) ;; Ok (snd (fst r), snd r))
      ps cache
    = Ok (ps', cache') ->
    cache ⊆ cache'
    /\ Forall2 (by_cache cache') (flat_map nodes ps) (flat_map nodes ps').
Proof.
  induction 1 as [|p ps Hp _ IH]; intros cache ps' cache' Hrun;
    cbn [design_each] in Hrun.
  - injection Hrun as <- <-. split; [reflexivity | constructor].
  - destruct (design cache p (Some spec)) as [[[s p'] cache1]|e] eqn:Hp';
      cbn [bind fst snd] in Hrun; [|discriminate].
    destruct (design_each _ ps cache1) as [[rest cache2]|e] eqn:Hrest;
      cbn [bind fst snd] in Hrun; [|discriminate].
    injection Hrun as <- <-.
    destruct (Hp cache (Some spec) s p' cache1 Hp') as (Hsub1 & _ & Hnodes1).
    destruct (IH cache1 rest cache2 Hrest) as (Hsub2 & Hnodes2).
    split; [etrans; eassumption|].
    cbn [flat_map]. apply Forall2_app; [|exact Hnodes2].
    eapply Forall2_impl; [exact Hnodes1|].
    intros n n' Hn. eapply designed_with_weaken; eassumption.
Qed.

Lemma design_consistent (t : KnowledgeNode) :
  forall cache parent_spec spec t' cache',
    design cache t parent_spec = Ok (spec, t', cache') ->
    consistent cache t spec t' cache'.
Proof.
  induction t as [c d f ps eqs defs vis nar IH]
    using TreeFacts.KnowledgeNode_forall_ind.
  intros cache parent_spec spec t' cache'. cbn [three_d_design_node concept].
  assert (Hstep : forall spec0 cache0 vis',
             cache0 !! c = Some spec0 ->
             update_visual_spec vis (spec_to_dict spec0) = Ok vis' ->
             (rs <- design_each
                      (fun cache prereq =>
                         r <- design cache prereq (Some spec0) ;;
                         Ok (snd (fst r), snd r))
                      ps cache0 ;;
              Ok (spec0, mkNode c d f (fst rs) eqs defs vis' nar, snd rs))
             = Ok (spec, t', cache') ->
             cache0 ⊆ cache'
             /\ cache' !! c = Some spec
             /\ Forall2 (by_cache cache')
                  (nodes (mkNode c d f ps eqs defs vis nar)) (nodes t')).
  { intros spec0 cache0 vis' Hc Hvis Hrun.
    destruct (design_each _ ps cache0) as [[ps' cache1]|e] eqn:Heach;
      cbn [bind fst snd] in Hrun; [|discriminate].
    injection Hrun as <- <- <-.
    destruct (design_each_consistent ps spec0 IH cache0 ps' cache1 Heach)
      as (Hsub & Hnodes).
    split; [exact Hsub|].
    assert (Hc1 : cache1 !! c = Some spec0)
      by (eapply lookup_weaken; eassumption).
    split; [exact Hc1|].
    cbn [nodes prerequisites]. constructor; [|exact Hnodes].
    unfold designed_with.
    cbn [concept depth is_foundation equations definitions narrative
           visual_spec].
    do 6 (split; [reflexivity|]). exists spec0. split; assumption. }
  destruct (cache !! c) as [cached_spec|] eqn:Hc.
  - destruct (update_visual_spec vis (spec_to_dict cached_spec)) as [vis'|e]
      eqn:Hvis; cbn [bind]; [|discriminate].
    intros Hrun. exact (Hstep cached_spec cache vis' Hc Hvis Hrun).
  - destruct (chat_completion _ parent_spec) as [response|e];
      cbn [bind]; [|discriminate].
    destruct (sliced "visual_description" _); cbn [bind]; [|discriminate].
    destruct (sliced "animation_description" _); cbn [bind]; [|discriminate].
    destruct (update_visual_spec vis _) as [vis'|e] eqn:Hvis;
      cbn [bind]; [|discriminate].
    intros Hrun.
    destruct (Hstep _ _ vis' (lookup_insert_eq cache c _) Hvis Hrun)
      as (Hsub & Hc' & Hnodes).
    split; [|split; assumption].
    etrans; [|exact Hsub]. apply insert_subseteq. exact Hc.
Qed.

(** A run of the stage that returns has only added to the cache; the cache
    then holds a spec for every concept of the tree, the returned spec for
    the root; the tree returned is the tree given with the [visual_spec]
    fields replaced, every prerequisite in its place; and the field of each
    node was updated with the spec the cache holds for its concept: nodes
    with the same concept are given the same spec. *)
Theorem design_is_consistent_with_cache
    (cache : gmap string VisualSpec) (t : KnowledgeNode)
    (parent_spec : option VisualSpec) (spec : VisualSpec) (t' : KnowledgeNode)
    (cache' : gmap string VisualSpec) :
  design cache t parent_spec = Ok (spec, t', cache') ->
  cache ⊆ cache'
  /\ cache' !! concept t = Some spec
  /\ strip_visual t' = strip_visual t
  /\ Forall2 (by_cache cache') (nodes t) (nodes t').
Proof.
  intros Hrun.
  destruct (design_consistent t cache parent_spec spec t' cache' Hrun)
    as (Hsub & Hroot & Hnodes).
  split; [exact Hsub|]. split; [exact Hroot|]. split; [|exact Hnodes].
  exact (VisualFacts.design_keeps_shape from_payload spec_to_dict
           chat_completion _extract_tool_payload get_text_content
           _parse_json_fallback t cache parent_spec spec t' cache' Hrun).
Qed.

End Designer.

Lemma cached_tree_needs_no_service_witness :
  Visual.three_d_design_node Samples.spec_from_payload (fun s => s)
    Samples.prose_only Samples.tool_payload Samples.text Samples.no_json
    warm_cache (Samples.bare "X" 0 true []) None
  = Visual.three_d_design_node Samples.spec_from_payload (fun s => s)
      unreachable Samples.tool_payload Samples.text Samples.no_json
      warm_cache (Samples.bare "X" 0 true []) None
  /\ match
       Visual.three_d_design_node Samples.spec_from_payload (fun s => s)
         Samples.prose_only Samples.tool_payload Samples.text Samples.no_json
         warm_cache (Samples.bare "X" 0 true []) None
     with
     | Ok (_, _, cache') => cache' = warm_cache
     | Raise _ => True
     end.
Proof.
  apply (cached_tree_needs_no_service Samples.spec_from_payload (fun s => s)
           Samples.tool_payload Samples.text Samples.no_json
           Samples.prose_only unreachable warm_cache
           (Samples.bare "X" 0 true []) None None).
  repeat constructor. eexists. reflexivity.
Defined.

Example warm_cache_run :
  Visual.three_d_design_node Samples.spec_from_payload (fun s => s)
    unreachable Samples.tool_payload Samples.text Samples.no_json
    warm_cache (Samples.bare "X" 0 true []) None
  = Ok ([("color_scheme", VStr "gold")],
        mkNode "X" 0 true [] VNone VNone
          (VDict [("color_scheme", VStr "gold")]) VNone,
        warm_cache).
Proof. vm_compute. reflexivity. Qed.

Lemma design_is_consistent_with_cache_witness :
  exists spec t' cache',
    Samples.design_with_prose
      (Samples.bare "X" 0 false [Samples.bare "A" 1 true []; Samples.bare "A" 2 true []])
    = Ok (spec, t', cache')
    /\ cache' !! "X" = Some spec
    /\ strip_visual t'
       = strip_visual
           (Samples.bare "X" 0 false
              [Samples.bare "A" 1 true []; Samples.bare "A" 2 true []])
    /\ Forall2 (designed_with (fun s => s) cache')
         (nodes (Samples.bare "X" 0 false
                   [Samples.bare "A" 1 true []; Samples.bare "A" 2 true []]))
         (nodes t').
Proof.
  destruct (Samples.design_with_prose
              (Samples.bare "X" 0 false
                 [Samples.bare "A" 1 true []; Samples.bare "A" 2 true []]))
    as [[[spec t'] cache']|e] eqn:Hrun; [|vm_compute in Hrun; discriminate Hrun].
  exists spec, t', cache'. split; [reflexivity|].
  exact (proj2 (design_is_consistent_with_cache
                  Samples.spec_from_payload (fun s => s)
                  Samples.tool_payload Samples.text Samples.no_json
                  Samples.prose_only ∅ _ None spec t' cache' Hrun)).
Defined.

End VisualCacheFacts.

(* ===================================================================== *)
(** * More facts about the pipeline script                                *)
(* ===================================================================== *)

Module PipelineOutputFacts.
Import Pipeline FileNames.


Lemma replace_space_has_no_space (s : string) :
  has_space (replace_space s) = false.
Proof.
  induction s as [|c s IH]; cbn [replace_space has_space]; [reflexivity|].
  rewrite IH, orb_false_r.
  destruct (Ascii.eqb c " ") eqn:E; [reflexivity | exact E].
Qed.

Lemma replace_space_fixed (s : string) :
  has_space s = false -> replace_space s = s.
Proof.
  induction s as [|c s IH]; cbn [replace_space has_space]; [reflexivity|].
  intros H. apply orb_false_iff in H as [Hc Hs]. rewrite Hc, (IH Hs).
  reflexivity.
Qed.

(** The file names of a topic hold no space after the directory, have the
    topic's length plus that of the fixed parts, and are the same for two
    topics that differ only in having a space where the other has an
    underscore: such topics overwrite each other's files. *)
Theorem file_names_spec (topic : string) :
  has_space (replace_space topic) = false
  /\ String.length (replace_space topic) = String.length topic
  /\ replace_space (replace_space topic) = replace_space topic
  /\ tree_file (replace_space topic) = tree_file topic
  /\ narrative_file (replace_space topic) = narrative_file topic.
Proof.
  assert (Hidem : replace_space (replace_space topic) = replace_space topic)
    by (apply replace_space_fixed, replace_space_has_no_space).
  split; [apply replace_space_has_no_space|]. split.
  { clear Hidem. induction topic as [|c s IH]; cbn [replace_space String.length];
      [reflexivity | rewrite IH; reflexivity]. }
  split; [exact Hidem|]. unfold tree_file, narrative_file.
  rewrite Hidem. split; reflexivity.
Qed.

End PipelineOutputFacts.

(* ===================================================================== *)
(** * Facts about the configuration and the environment                   *)
(* ===================================================================== *)

Module EnvironmentFacts.
Import Sandbox Environment.

Section Env.
Variable py_int : string -> result Z.
Variable lower : string -> string.
Variable makedirs : string -> result unit.

Hypothesis lower_true : lower "true" = "true".
Hypothesis lower_false : lower "false" <> "true".

#[local] Abbreviation read := (from_env py_int lower).
#[local] Abbreviation setup := (setup_sandbox_environment py_int lower makedirs).

Lemma export_config_env (config : SandboxConfig) (env env' : gmap string string) :
  export_config config env = (Ok tt, env') ->
  env' = <["KIMI_USE_TOOLS" := if use_tools config then "true" else "false"]>
           (<["KIMI_ENABLE_THINKING" := thinking_mode config]>
              (<["KIMI_MODEL" := model config]>
                 (<["MOONSHOT_BASE_URL" := moonshot_base_url config]>
                    (<["MOONSHOT_API_KEY" := moonshot_api_key config]> env)))).
Proof.
  unfold export_config, putenv.
  repeat match goal with
         | |- context [if has_nul ?v then _ else _] =>
             destruct (has_nul v); [discriminate|]
         end.
  intros E. injection E as <-. reflexivity.
Qed.

Lemma setup_env (config : option SandboxConfig) (env : gmap string string)
    (c : SandboxConfig) (env' : gmap string string) :
  setup config env = (Ok c, env') ->
  match config with None => read env = Ok c | Some c0 => c0 = c end
  /\ export_config c env = (Ok tt, env').
Proof.
  unfold setup_sandbox_environment.
  assert (Hgo : forall c0,
             match
               (_ <- makedirs (output_dir c0) ;;
                _ <- makedirs (media_dir c0) ;; makedirs (log_dir c0))
             with
             | Ok _ =>
                 match export_config c0 env with
                 | (Ok _, env'0) => (Ok c0, env'0)
                 | (Raise e, env'0) => (Raise e, env'0)
                 end
             | Raise e => (Raise e, env)
             end = (Ok c, env') ->
             c0 = c /\ export_config c env = (Ok tt, env')).
  { intros c0.
    destruct (_ <- makedirs (output_dir c0) ;; _) as [u|e]; [|discriminate].
    destruct (export_config c0 env) as [[[]|e] env1] eqn:Hexp; [|discriminate].
    intros E. injection E as <- <-. split; [reflexivity | exact Hexp]. }
  destruct config as [c0|].
  - intros H. destruct (Hgo c0 H) as [-> Hexp]. split; [reflexivity | exact Hexp].
  - destruct (read env) as [c0|e]; [|discriminate].
    intros H. destruct (Hgo c0 H) as [-> Hexp]. split; [reflexivity | exact Hexp].
Qed.

Lemma getenv_exported (config : SandboxConfig) (env env' : gmap string string) :
  export_config config env = (Ok tt, env') ->
  getenv env' "MOONSHOT_API_KEY" "" = moonshot_api_key config
  /\ getenv env' "MOONSHOT_BASE_URL" "https://api.moonshot.ai/v1"
     = moonshot_base_url config
  /\ getenv env' "KIMI_MODEL" "kimi-k2-0905-preview" = model config
  /\ getenv env' "KIMI_ENABLE_THINKING" "heavy" = thinking_mode config
  /\ String.eqb (lower (getenv env' "KIMI_USE_TOOLS" "true")) "true"
     = use_tools config
  /\ forall k fallback, ~ In k exported -> getenv env' k fallback = getenv env k fallback.
Proof.
  intros Hexp. apply export_config_env in Hexp. subst env'. unfold getenv.
  repeat split.
  - rewrite !lookup_insert_ne by discriminate. rewrite lookup_insert_eq. reflexivity.
  - rewrite !lookup_insert_ne by discriminate. rewrite lookup_insert_eq. reflexivity.
  - rewrite !lookup_insert_ne by discriminate. rewrite lookup_insert_eq. reflexivity.
  - rewrite !lookup_insert_ne by discriminate. rewrite lookup_insert_eq. reflexivity.
  - rewrite lookup_insert_eq. destruct (use_tools config).
    + rewrite lower_true. reflexivity.
    + apply String.eqb_neq. exact lower_false.
  - intros k fallback Hk. unfold exported in Hk. cbn [In] in Hk.
    rewrite !lookup_insert_ne by (intros <-; tauto). reflexivity.
Qed.

(** After [setup_sandbox_environment(config)] has returned, reading the
    configuration back from the environment gives the key, the base URL,
    the model, the thinking mode and the tools flag of [config]; the mode,
    the depth bound and the render quality are not exported: they are read
    from the environment as it was before, whatever [config] holds. *)
Theorem setup_exports_five_fields
    (config : SandboxConfig) (env : gmap string string)
    (c : SandboxConfig) (env' : gmap string string) (back : SandboxConfig) :
  setup (Some config) env = (Ok c, env') ->
  read env' = Ok back ->
  c = config
  /\ moonshot_api_key back = moonshot_api_key config
  /\ moonshot_base_url back = moonshot_base_url config
  /\ model back = model config
  /\ thinking_mode back = thinking_mode config
  /\ use_tools back = use_tools config
  /\ exists before,
       read env = Ok before
       /\ mode back = mode before
       /\ max_depth back = max_depth before
       /\ manim_quality back = manim_quality before.
Proof.
  intros Hsetup Hback. apply setup_env in Hsetup as [<- Hexp].
  destruct (getenv_exported config env env' Hexp)
    as (Hkey & Hurl & Hmodel & Hthink & Htools & Hother).
  unfold from_env in *. rewrite Hkey, Hurl, Hmodel, Hthink, Htools in Hback.
  rewrite (Hother "SANDBOX_MODE"), (Hother "MAX_DEPTH"),
    (Hother "MANIM_QUALITY") in Hback
    by (unfold exported; cbn [In]; intros H; repeat destruct H as [H|H];
        discriminate H || exact H).
  destruct (SandboxMode_of_value (getenv env "SANDBOX_MODE" "exploration"))
    as [m|e]; cbn [bind] in *; [|discriminate].
  destruct (py_int (getenv env "MAX_DEPTH" "3")) as [md|e]; cbn [bind] in *;
    [|discriminate].
  injection Hback as <-.
  cbn [moonshot_api_key moonshot_base_url model thinking_mode use_tools].
  split; [reflexivity|]. do 5 (split; [reflexivity|]).
  eexists. split; [reflexivity|]. repeat split.
Qed.

(** [setup_sandbox_environment()] without an argument leaves an environment
    from which [from_env()] reads the very configuration that was returned:
    what was read is written back in a form that reads the same. *)
Theorem setup_then_from_env
    (env : gmap string string) (c : SandboxConfig) (env' : gmap string string) :
  setup None env = (Ok c, env') -> read env' = Ok c.
Proof.
  intros Hsetup. apply setup_env in Hsetup as [Hread Hexp].
  destruct (getenv_exported c env env' Hexp)
    as (Hkey & Hurl & Hmodel & Hthink & Htools & Hother).
  unfold from_env in *. rewrite Hkey, Hurl, Hmodel, Hthink, Htools.
  rewrite (Hother "SANDBOX_MODE"), (Hother "MAX_DEPTH"),
    (Hother "MANIM_QUALITY")
    by (unfold exported; cbn [In]; intros H; repeat destruct H as [H|H];
        discriminate H || exact H).
  destruct (SandboxMode_of_value (getenv env "SANDBOX_MODE" "exploration"))
    as [m|e]; cbn [bind] in *; [|discriminate].
  destruct (py_int (getenv env "MAX_DEPTH" "3")) as [md|e]; cbn [bind] in *;
    [|discriminate].
  injection Hread as <-. reflexivity.
Qed.

Hypothesis int_3 : py_int "3" = Ok 3.

(** In an environment that sets nothing but the key, [from_env()] returns
    the defaults of the dataclass with that key, and the result passes
    [validate_sandbox_config] exactly when the key is not empty; in an empty
    environment validation fails. *)
Theorem from_env_defaults (api_key : string) :
  read {[ "MOONSHOT_API_KEY" := api_key ]} = Ok (default_config api_key)
  /\ read ∅ = Ok (default_config "")
  /\ (fst (validate_sandbox_config (default_config api_key)) = Ok true
      <-> api_key <> "")
  /\ fst (validate_sandbox_config (default_config ""))
     = Raise (ValueError "MOONSHOT_API_KEY is required").
Proof.
  split; [|split; [|split]].
  - unfold from_env, getenv.
    rewrite lookup_singleton_eq, !lookup_singleton_ne by discriminate.
    rewrite lower_true. cbn [SandboxMode_of_value String.eqb Ascii.eqb Bool.eqb bind].
    rewrite int_3. reflexivity.
  - unfold from_env, getenv. rewrite !lookup_empty.
    rewrite lower_true. cbn [SandboxMode_of_value String.eqb Ascii.eqb Bool.eqb bind].
    rewrite int_3. reflexivity.
  - rewrite SandboxFacts.validate_Ok_true. unfold valid_config.
    cbn [default_config moonshot_api_key thinking_mode manim_quality max_depth
           thinking_modes manim_qualities In].
    split; [intros (H & _); exact H|]. intros H. split; [exact H|].
    split; [left; reflexivity|]. split; [left; reflexivity | lia].
  - reflexivity.
Qed.

End Env.

Lemma sample_lower_false : sample_lower "false" <> "true".
Proof. vm_compute. discriminate. Defined.

Lemma setup_exports_five_fields_witness :
  exists c env' back,
    setup_sandbox_environment sample_int sample_lower sample_makedirs
      (Some (Sandbox.default_config "sk-other")) sample_env = (Ok c, env')
    /\ from_env sample_int sample_lower env' = Ok back
    /\ moonshot_api_key back = "sk-other"
    /\ max_depth (Sandbox.default_config "sk-other") = 3
    /\ max_depth back = 7.
Proof.
  eexists _, _, _. split; [vm_compute; reflexivity|].
  split; [vm_compute; reflexivity|].
  pose proof (setup_exports_five_fields sample_int sample_lower sample_makedirs
                eq_refl sample_lower_false
                (Sandbox.default_config "sk-other") sample_env _ _ _
                eq_refl eq_refl) as (_ & Hkey & _).
  split; [exact Hkey|]. split; reflexivity.
Defined.

Lemma setup_then_from_env_witness :
  exists c env',
    setup_sandbox_environment sample_int sample_lower sample_makedirs
      None sample_env = (Ok c, env')
    /\ env' !! "KIMI_USE_TOOLS" = Some "true"
    /\ from_env sample_int sample_lower env' = Ok c.
Proof.
  eexists _, _. split; [vm_compute; reflexivity|].
  split; [vm_compute; reflexivity|].
  apply (setup_then_from_env sample_int sample_lower sample_makedirs
           eq_refl sample_lower_false sample_env).
  vm_compute. reflexivity.
Defined.

Lemma from_env_defaults_witness :
  from_env sample_int sample_lower {[ "MOONSHOT_API_KEY" := "sk-secret" ]}
  = Ok (Sandbox.default_config "sk-secret").
Proof.
  exact (proj1 (from_env_defaults sample_int sample_lower eq_refl eq_refl
                  "sk-secret")).
Defined.

End EnvironmentFacts.
